(** * ProvidenceX MT5 connector: order execution and order flow

    A shallow embedding of [services/mt5-connector/src] (mt5_client.py,
    orderflow_accumulator.py, order_event_emitter.py, models.py, main.py)
    and the properties of its specification that were checked against it.

    Conventions of the embedding.
    - A Python [float] is an exact rational ([Q]); the rounding error of
      IEEE-754 arithmetic is outside this model.  Python's [round] is
      round-half-to-even, written out in [py_round].
    - A Python [int] is [Z]; a [datetime] is a number of seconds ([Z]) and a
      [timedelta(seconds=n)] is [n].
    - [None] is [None]; an attribute tested with [hasattr] is an [option].
    - Dictionaries built and inspected dynamically (the result maps of the
      client) are association lists of [pyval], in insertion order.
    - The MetaTrader5 module is an external collaborator: a [Terminal] record
      holds what it answers, and records what it was sent.
    - Free-text [logger] calls are not part of the state; the structured
      records of [utils.log_trade_success] and [utils.log_mt5_error] are, and
      so are the log lines of the webhook emitter. *)

From stdpp Require Import gmap strings list.
From Stdlib Require Import ZArith QArith Qround Lqa Lia Ascii DecimalString Sorted.

Open Scope string_scope.
Open Scope list_scope.

(* ================================================================== *)
(** * Part I: the embedding                                            *)
(* ================================================================== *)

(** ** Numbers *)

Definition Qltb (x y : Q) : bool :=
  match (x ?= y)%Q with Lt => true | _ => false end.
Definition Qleb (x y : Q) : bool :=
  match (x ?= y)%Q with Gt => false | _ => true end.
Definition Qgtb (x y : Q) : bool := Qltb y x.
Definition Qgeb (x y : Q) : bool := Qleb y x.
Definition Qeqb (x y : Q) : bool :=
  match (x ?= y)%Q with Eq => true | _ => false end.

(** [round(x)] of a float: the nearest integer, ties to the even one. *)
Definition py_round (x : Q) : Z :=
  let f := Qfloor x in
  match (x - inject_Z f ?= 1 # 2)%Q with
  | Lt => f
  | Gt => (f + 1)%Z
  | Eq => if Z.even f then f else (f + 1)%Z
  end.

(** [round(x, ndigits)] for a non-negative number of digits. *)
Definition py_round_nd (x : Q) (ndigits : nat) : Q :=
  let scale := inject_Z (10 ^ Z.of_nat ndigits) in
  (inject_Z (py_round (x * scale)) / scale)%Q.

(** [x or d] on an attribute that may be missing: a missing attribute and a
    zero are both falsy. *)
Definition attr_or (a : option Q) (d : Q) : Q :=
  match a with
  | Some v => if Qeqb v 0 then d else v
  | None => d
  end.

Definition attr_or_Z (a : option Z) (d : Z) : Z :=
  match a with
  | Some v => if (v =? 0)%Z then d else v
  | None => d
  end.

(** ** Text *)

Definition lower_ascii (c : ascii) : ascii :=
  let n := nat_of_ascii c in
  if (65 <=? n)%nat && (n <=? 90)%nat then ascii_of_nat (n + 32) else c.
Definition upper_ascii (c : ascii) : ascii :=
  let n := nat_of_ascii c in
  if (97 <=? n)%nat && (n <=? 122)%nat then ascii_of_nat (n - 32) else c.

Fixpoint str_map (f : ascii -> ascii) (s : string) : string :=
  match s with
  | EmptyString => EmptyString
  | String c r => String (f c) (str_map f r)
  end.

Definition lower (s : string) : string := str_map lower_ascii s.
Definition upper (s : string) : string := str_map upper_ascii s.

(** [sub in s]. *)
Fixpoint contains (sub s : string) : bool :=
  String.prefix sub s ||
  match s with
  | EmptyString => false
  | String _ r => contains sub r
  end.

Definition str_Z (z : Z) : string := NilZero.string_of_int (Z.to_int z).

(** The text of a float inside a message: the reduced fraction.  No property
    below depends on how a float is printed. *)
Definition str_Q (q : Q) : string :=
  let r := Qred q in
  match Qden r with
  | 1%positive => str_Z (Qnum r)
  | d => str_Z (Qnum r) +:+ "/" +:+ str_Z (Zpos d)
  end.

(** ** Broker data read from the terminal *)

Record SymbolInfo := {
  si_name : string;
  volume_min : option Q;
  volume_max : option Q;
  volume_step : option Q;
  point : Q;
  trade_stops_level : option Z;
  filling_mode : Z;
  visible : bool
}.

(** ** Stop-distance and volume normalizer (mt5_client.py) *)

(** [MT5Client._normalize_volume(self, requested, symbol_info, symbol)]:
    the pair (normalized volume, error message). *)
Definition _normalize_volume (requested : Q) (symbol_info : SymbolInfo)
    (symbol : string) : Q * option string :=
  let min_vol := attr_or (volume_min symbol_info) (1 # 100) in
  let max_vol := attr_or (volume_max symbol_info) 100 in
  let step := attr_or (volume_step symbol_info) (1 # 100) in
  if Qltb requested min_vol then
    (0%Q, Some ("Requested volume " +:+ str_Q requested +:+
                " below broker minimum " +:+ str_Q min_vol +:+
                " for symbol " +:+ symbol))
  else
    let clamp :=
      if Qgtb requested max_vol then
        if Qgtb requested (max_vol * (11 # 10)) then None
        else Some max_vol
      else Some requested in
    match clamp with
    | None =>
        (0%Q, Some ("Requested volume " +:+ str_Q requested +:+
                    " exceeds broker maximum " +:+ str_Q max_vol +:+
                    " for symbol " +:+ symbol))
    | Some vol =>
        let steps := py_round (vol / step) in
        let vol := (inject_Z steps * step)%Q in
        if Qltb vol min_vol then
          (0%Q, Some ("Volume " +:+ str_Q requested +:+ " normalized to " +:+
                      str_Q vol +:+ " which is below broker minimum " +:+
                      str_Q min_vol +:+ " for symbol " +:+ symbol))
        else (vol, None)
    end.

(** The stop level in price units: [trade_stops_level * point], zero when the
    attribute is missing or falsy. *)
Definition min_stop_distance_price (symbol_info : SymbolInfo) : Q :=
  (inject_Z (attr_or_Z (trade_stops_level symbol_info) 0) * point symbol_info)%Q.

(** [MT5Client._adjust_stop_loss_take_profit]: every direction other than
    "buy" (after lower-casing) takes the sell branch. *)
Definition _adjust_stop_loss_take_profit (symbol_info : SymbolInfo)
    (entry_price : Q) (requested_sl requested_tp : option Q)
    (direction : string) : option Q * option Q :=
  let min_stop_distance_price := min_stop_distance_price symbol_info in
  let dir_lower := lower direction in
  let adjusted_sl :=
    match requested_sl with
    | Some requested_sl =>
        if Qgtb requested_sl 0 then
          if String.eqb dir_lower "buy" then
            if Qgeb requested_sl entry_price then None
            else
              let max_sl := (entry_price - min_stop_distance_price)%Q in
              if Qgtb requested_sl max_sl then Some max_sl
              else Some requested_sl
          else
            if Qleb requested_sl entry_price then None
            else
              let min_sl := (entry_price + min_stop_distance_price)%Q in
              if Qltb requested_sl min_sl then Some min_sl
              else Some requested_sl
        else None
    | None => None
    end in
  let adjusted_tp :=
    match requested_tp with
    | Some requested_tp =>
        if Qgtb requested_tp 0 then
          if String.eqb dir_lower "buy" then
            if Qleb requested_tp entry_price then None
            else
              let min_tp := (entry_price + min_stop_distance_price)%Q in
              if Qltb requested_tp min_tp then Some min_tp
              else Some requested_tp
          else
            if Qgeb requested_tp entry_price then None
            else
              let max_tp := (entry_price - min_stop_distance_price)%Q in
              if Qgtb requested_tp max_tp then Some max_tp
              else Some requested_tp
        else None
    | None => None
    end in
  (adjusted_sl, adjusted_tp).

(** ** Python values, exceptions and control *)

(** The values that travel through the dynamically typed parts of the code:
    result dictionaries and the tuple returned by [_normalize_volume]. *)
#[warnings="-register-all"]
Inductive pyval :=
| VNone
| VBool (b : bool)
| VInt (z : Z)
| VFloat (q : Q)
| VStr (s : string)
| VTuple (xs : list pyval)
| VList (xs : list pyval)
| VDict (kvs : list (string * pyval)).

(** A dictionary with string keys, in insertion order. *)
Abbreviation dict := (list (string * pyval)).

Fixpoint dict_get (d : dict) (k : string) : option pyval :=
  match d with
  | [] => None
  | (k', v) :: r => if String.eqb k' k then Some v else dict_get r k
  end.

(** [d.get(k, default)]. *)
Definition dict_get_or (d : dict) (k : string) (default : pyval) : pyval :=
  match dict_get d k with Some v => v | None => default end.

(** [bool(v)]. *)
Definition truthy (v : pyval) : bool :=
  match v with
  | VNone => false
  | VBool b => b
  | VInt z => negb (z =? 0)%Z
  | VFloat q => negb (Qeqb q 0)
  | VStr s => negb (String.eqb s "")
  | VTuple xs | VList xs => match xs with [] => false | _ => true end
  | VDict kvs => match kvs with [] => false | _ => true end
  end.

(** [a or b]. *)
Definition py_or (a b : pyval) : pyval := if truthy a then a else b.

Definition opt_float (o : option Q) : pyval :=
  match o with Some q => VFloat q | None => VNone end.
Definition opt_str (o : option string) : pyval :=
  match o with Some s => VStr s | None => VNone end.

(** [a or b] on two optional floats ([request.get(k1) or request.get(k2)]). *)
Definition float_or (a b : option Q) : option Q :=
  match a with
  | Some q => if Qeqb q 0 then b else Some q
  | None => b
  end.

(** Exceptions.  [NativeError] stands for whatever the MetaTrader5 binding or
    the HTTP client raises; all of them derive from [Exception]. *)
Inductive exn :=
| TypeError (msg : string)
| AttributeError (msg : string)
| KeyError (msg : string)
| ValueError (msg : string)
| NativeError (msg : string)
| TimeoutError
| HTTPException (status_code : Z) (detail : string).

(** [str(e)]. *)
Definition str_exn (e : exn) : string :=
  match e with
  | TypeError m | AttributeError m | ValueError m | NativeError m => m
  | KeyError m => "'" +:+ m +:+ "'"
  | TimeoutError => ""
  | HTTPException c d => str_Z c +:+ ": " +:+ d
  end.

(** What a statement does: go on with a value, leave the enclosing function
    with [return r], or raise. *)
Inductive outcome (R A : Type) :=
| Val (a : A)
| Ret (r : R)
| Raise (e : exn).
Arguments Val {R A} a.
Arguments Ret {R A} r.
Arguments Raise {R A} e.

(** A statement over a state [S], inside a function returning [R]. *)
Definition M (S R A : Type) : Type := S -> outcome R A * S.

Definition ret {S R A} (a : A) : M S R A := fun s => (Val a, s).
Definition return_ {S R A} (r : R) : M S R A := fun s => (Ret r, s).
Definition raise {S R A} (e : exn) : M S R A := fun s => (Raise e, s).

Definition bind {S R A B} (m : M S R A) (k : A -> M S R B) : M S R B :=
  fun s =>
    match m s with
    | (Val a, s') => k a s'
    | (Ret r, s') => (Ret r, s')
    | (Raise e, s') => (Raise e, s')
    end.

Declare Scope py_scope.
Delimit Scope py_scope with py.
Notation "x <- m ;; k" := (bind m (fun x => k))
  (at level 100, m at next level, right associativity) : py_scope.
Notation "'let*' p ':=' m 'in' k" := (bind m (fun x => match x with p => k end))
  (at level 10, p pattern, m at level 100, k at level 200) : py_scope.
Notation "m ;;; k" := (bind m (fun _ => k))
  (at level 100, right associativity) : py_scope.

Definition get_state {S R} : M S R S := fun s => (Val s, s).
Definition modify {S R} (f : S -> S) : M S R unit := fun s => (Val tt, f s).

(** [try: body except Exception as e: handler e]. *)
Definition try_except {S R A} (body : M S R A) (handler : exn -> M S R A) : M S R A :=
  fun s =>
    match body s with
    | (Raise e, s') => handler e s'
    | other => other
    end.

(** A call: the callee's [return r] and its falling off the end with a value
    both give the caller a value; an exception goes on to the caller. *)
Definition call {S R R'} (body : M S R R) : M S R' R :=
  fun s =>
    match body s with
    | (Val r, s') | (Ret r, s') => (Val r, s')
    | (Raise e, s') => (Raise e, s')
    end.

(** The result of running a function body: its value or its exception. *)
Definition run {S R} (body : M S R R) (s : S) : (exn + R) * S :=
  match body s with
  | (Val r, s') | (Ret r, s') => (inr r, s')
  | (Raise e, s') => (inl e, s')
  end.

(** ** Order-flow accumulator (orderflow_accumulator.py) *)

Record TickData := {
  td_symbol : string;
  td_bid : Q;
  td_ask : Q;
  td_volume : Z;
  td_time : Z;
  td_spread : Q
}.

(** [TickData.__init__]. *)
Definition mk_TickData (symbol : string) (bid ask : Q) (volume time : Z) : TickData :=
  {| td_symbol := symbol; td_bid := bid; td_ask := ask; td_volume := volume;
     td_time := time; td_spread := (ask - bid)%Q |}.

Record OrderFlowAccumulator := {
  lookback_seconds : Z;
  tick_buffers : gmap string (list TickData);
  large_order_multiplier : Z
}.

(** [OrderFlowAccumulator.__init__]. *)
Definition new_accumulator (lookback : Z) : OrderFlowAccumulator :=
  {| lookback_seconds := lookback; tick_buffers := ∅; large_order_multiplier := 20 |}.

(** [while buf and buf[0].time < cutoff_time: buf.popleft()]. *)
Fixpoint evict (cutoff_time : Z) (buf : list TickData) : list TickData :=
  match buf with
  | [] => []
  | t :: r => if (td_time t <? cutoff_time)%Z then evict cutoff_time r else buf
  end.

(** [add_tick(symbol, bid, ask, volume, time)]; [now] is what
    [datetime.now()] reads when [time] is [None]. *)
Definition add_tick (self : OrderFlowAccumulator) (symbol : string) (bid ask : Q)
    (volume : Z) (time : option Z) (now : Z) : OrderFlowAccumulator :=
  let time := match time with Some t => t | None => now end in
  let buffers :=
    match tick_buffers self !! symbol with
    | Some _ => tick_buffers self
    | None => <[symbol := []]> (tick_buffers self)
    end in
  let tick := mk_TickData symbol bid ask volume time in
  let buf := default [] (buffers !! symbol) ++ [tick] in
  let cutoff_time := (time - lookback_seconds self)%Z in
  {| lookback_seconds := lookback_seconds self;
     tick_buffers := <[symbol := evict cutoff_time buf]> buffers;
     large_order_multiplier := large_order_multiplier self |}.

(** [t.volume or 1]. *)
Definition volume_or_1 (t : TickData) : Z :=
  if (td_volume t =? 0)%Z then 1%Z else td_volume t.

Definition mid_price (t : TickData) : Q := ((td_bid t + td_ask t) / 2)%Q.

(** The loop over consecutive pairs of [recent_ticks]: the pair
    (bid_volume, ask_volume) after it. *)
Fixpoint attribute_volume (prev_tick : TickData) (rest : list TickData)
    (acc : Q * Q) : Q * Q :=
  match rest with
  | [] => acc
  | curr_tick :: rest' =>
      let '(bid_volume, ask_volume) := acc in
      let prev_mid := mid_price prev_tick in
      let curr_mid := mid_price curr_tick in
      let tick_volume := inject_Z (volume_or_1 curr_tick) in
      let acc' :=
        if Qgtb curr_mid prev_mid then (bid_volume, (ask_volume + tick_volume)%Q)
        else if Qltb curr_mid prev_mid then ((bid_volume + tick_volume)%Q, ask_volume)
        else ((bid_volume + tick_volume * (1 # 2))%Q,
              (ask_volume + tick_volume * (1 # 2))%Q) in
      attribute_volume curr_tick rest' acc'
  end.

(** [sum(t.volume or 1 for t in recent_ticks) / len(recent_ticks)]. *)
Definition average_volume (recent_ticks : list TickData) : Q :=
  (inject_Z (fold_right Z.add 0%Z (map volume_or_1 recent_ticks))
   / inject_Z (Z.of_nat (length recent_ticks)))%Q.

(** The text of a datetime: its count of seconds. *)
Definition isoformat (t : Z) : string := str_Z t.

(** One entry of [large_orders]. *)
Definition large_order (tick : TickData) : pyval :=
  let buy := Qgtb (td_ask tick) (td_bid tick) in
  VDict [("volume", VFloat (inject_Z (td_volume tick)));
         ("side", VStr (if buy then "buy" else "sell"));
         ("price", VFloat (if buy then td_ask tick else td_bid tick))].

(** [compute_order_flow(symbol, window_seconds)]; [now] is what
    [datetime.now()] reads.  [None] is the "insufficient data" answer. *)
Definition compute_order_flow (self : OrderFlowAccumulator) (symbol : string)
    (window_seconds : option Z) (now : Z) : option dict :=
  match tick_buffers self !! symbol with
  | None => None
  | Some ticks =>
      if (length ticks <? 5)%nat then None
      else
        let window_seconds := attr_or_Z window_seconds (lookback_seconds self) in
        let cutoff_time := (now - window_seconds)%Z in
        let recent_ticks := filter (fun t => (cutoff_time <= td_time t)%Z) ticks in
        match recent_ticks with
        | [] => None
        | first :: rest =>
            let '(bid_volume, ask_volume) := attribute_volume first rest (0%Q, 0%Q) in
            let '(bid_volume, ask_volume) :=
              if Qeqb bid_volume 0 && Qeqb ask_volume 0 then
                let avg_volume := average_volume recent_ticks in
                ((avg_volume * (1 # 2))%Q, (avg_volume * (1 # 2))%Q)
              else (bid_volume, ask_volume) in
            let total_volume := (bid_volume + ask_volume)%Q in
            let delta := (ask_volume - bid_volume)%Q in
            let imbalance_buy_pct :=
              if Qgtb total_volume 0 then (ask_volume / total_volume * 100)%Q else 50%Q in
            let imbalance_sell_pct :=
              if Qgtb total_volume 0 then (bid_volume / total_volume * 100)%Q else 50%Q in
            let delta_sign :=
              if Qgtb delta 0 then "buying_pressure"
              else if Qltb delta 0 then "selling_pressure"
              else "neutral" in
            let avg_tick_volume := average_volume recent_ticks in
            let large_order_threshold :=
              (avg_tick_volume * inject_Z (large_order_multiplier self))%Q in
            let large_orders :=
              map large_order
                (filter (fun tick =>
                           negb (td_volume tick =? 0)%Z
                           && Qgeb (inject_Z (td_volume tick)) large_order_threshold = true)
                        recent_ticks) in
            Some [("symbol", VStr symbol);
                  ("timestamp", VStr (isoformat now));
                  ("bid_volume", VFloat (py_round_nd bid_volume 2));
                  ("ask_volume", VFloat (py_round_nd ask_volume 2));
                  ("delta", VFloat (py_round_nd delta 2));
                  ("delta_sign", VStr delta_sign);
                  ("imbalance_buy_pct", VFloat (py_round_nd imbalance_buy_pct 1));
                  ("imbalance_sell_pct", VFloat (py_round_nd imbalance_sell_pct 1));
                  ("large_orders", VList large_orders);
                  ("tick_count", VInt (Z.of_nat (length recent_ticks)))]
        end
  end.

(** ** Webhook emitter (order_event_emitter.py) *)

(** What one [session.post] does: answer with a status (reading the body of a
    non-200 answer may itself fail), time out, or fail in transport. *)
Inductive post_outcome :=
| PostStatus (status : Z) (text : exn + string)
| PostTimeout
| PostError (e : exn).

Inductive log_level := DEBUG | INFO | WARNING | ERROR.

(** The emitter with the network it talks to: [em_net n] is the outcome of
    the [n]-th POST; the posts made, the sleeps taken and the lines logged are
    recorded oldest first. *)
Record Emitter := {
  webhook_url : string;
  enabled : bool;
  em_net : nat -> post_outcome;
  em_posted : list dict;
  em_slept : list Z;
  em_log : list (log_level * string)
}.

Definition em_post (event : dict) (em : Emitter) : post_outcome * Emitter :=
  (em_net em (length (em_posted em)),
   {| webhook_url := webhook_url em; enabled := enabled em; em_net := em_net em;
      em_posted := em_posted em ++ [event]; em_slept := em_slept em;
      em_log := em_log em |}).

(** [await asyncio.sleep(seconds)]. *)
Definition em_sleep (seconds : Z) (em : Emitter) : Emitter :=
  {| webhook_url := webhook_url em; enabled := enabled em; em_net := em_net em;
     em_posted := em_posted em; em_slept := em_slept em ++ [seconds];
     em_log := em_log em |}.

Definition em_logger (level : log_level) (msg : string) (em : Emitter) : Emitter :=
  {| webhook_url := webhook_url em; enabled := enabled em; em_net := em_net em;
     em_posted := em_posted em; em_slept := em_slept em;
     em_log := em_log em ++ [(level, msg)] |}.

(** [str(v)] of the event type, for the log lines. *)
Definition event_type_text (event : dict) : string :=
  match dict_get event "event_type" with
  | Some (VStr s) => s
  | _ => "None"
  end.

Definition attempt_text (attempt retry_count : Z) : string :=
  "(attempt " +:+ str_Z (attempt + 1) +:+ "/" +:+ str_Z retry_count +:+ ")".

(** [if attempt < retry_count - 1: await asyncio.sleep(2 ** attempt)]. *)
Definition backoff (attempt retry_count : Z) (em : Emitter) : Emitter :=
  if (attempt <? retry_count - 1)%Z then em_sleep (2 ^ attempt) em else em.

(** The [for attempt in range(retry_count)] loop of [_emit_event], with
    [remaining] iterations left; [Some true] is the [return True] inside it,
    [None] is the loop running out. *)
Fixpoint emit_attempts (event : dict) (retry_count : Z) (remaining : nat)
    (attempt : Z) (em : Emitter) : option bool * Emitter :=
  match remaining with
  | O => (None, em)
  | S remaining' =>
      let '(outcome, em) := em_post event em in
      match outcome with
      | PostStatus status text =>
          if (status =? 200)%Z then
            (Some true,
             em_logger DEBUG
               ("[OrderEventEmitter] Event emitted successfully: " +:+
                event_type_text event) em)
          else
            match text with
            | inr text =>
                let em := em_logger WARNING
                  ("[OrderEventEmitter] Webhook returned " +:+ str_Z status +:+
                   ": " +:+ text +:+ " " +:+ attempt_text attempt retry_count) em in
                let em := backoff attempt retry_count em in
                emit_attempts event retry_count remaining' (attempt + 1) em
            | inl TimeoutError =>
                let em := em_logger WARNING
                  ("[OrderEventEmitter] Webhook request timeout " +:+
                   attempt_text attempt retry_count) em in
                let em := backoff attempt retry_count em in
                emit_attempts event retry_count remaining' (attempt + 1) em
            | inl e =>
                let em := em_logger ERROR
                  ("[OrderEventEmitter] Error emitting event: " +:+ str_exn e +:+
                   " " +:+ attempt_text attempt retry_count) em in
                let em := backoff attempt retry_count em in
                emit_attempts event retry_count remaining' (attempt + 1) em
            end
      | PostTimeout | PostError TimeoutError =>
          let em := em_logger WARNING
            ("[OrderEventEmitter] Webhook request timeout " +:+
             attempt_text attempt retry_count) em in
          let em := backoff attempt retry_count em in
          emit_attempts event retry_count remaining' (attempt + 1) em
      | PostError e =>
          let em := em_logger ERROR
            ("[OrderEventEmitter] Error emitting event: " +:+ str_exn e +:+
             " " +:+ attempt_text attempt retry_count) em in
          let em := backoff attempt retry_count em in
          emit_attempts event retry_count remaining' (attempt + 1) em
      end
  end.

(** [OrderEventEmitter._emit_event(event, retry_count=3)]. *)
Definition _emit_event (event : dict) (retry_count : Z) (em : Emitter) : bool * Emitter :=
  if negb (enabled em) then (false, em)
  else if String.eqb (webhook_url em) "" then (false, em)
  else
    match emit_attempts event retry_count (Z.to_nat retry_count) 0 em with
    | (Some b, em) => (b, em)
    | (None, em) =>
        (false,
         em_logger ERROR
           ("[OrderEventEmitter] Failed to emit event after " +:+ str_Z retry_count +:+
            " attempts: " +:+ event_type_text event) em)
    end.

(** [_emit_event(event)]: the default [retry_count]. *)
Definition _emit_event_default (event : dict) (em : Emitter) : bool * Emitter :=
  _emit_event event 3 em.

(** ** The MetaTrader5 module *)

(** The constants of the MetaTrader5 package; the package is not part of the
    repository, so their values are a parameter of the terminal. *)
Record Mt5Const := {
  TRADE_ACTION_DEAL : Z;
  TRADE_ACTION_PENDING : Z;
  TRADE_ACTION_REMOVE : Z;
  ORDER_TYPE_BUY : Z;
  ORDER_TYPE_SELL : Z;
  ORDER_TYPE_BUY_LIMIT : Z;
  ORDER_TYPE_SELL_LIMIT : Z;
  ORDER_TYPE_BUY_STOP : Z;
  ORDER_TYPE_SELL_STOP : Z;
  ORDER_FILLING_FOK : Z;
  ORDER_FILLING_IOC : Z;
  ORDER_FILLING_RETURN : Z;
  ORDER_TIME_GTC : Z;
  TRADE_RETCODE_DONE : Z
}.

Record AccountInfo := { acc_login : Z; acc_server : string }.

Record Tick := { tk_bid : Q; tk_ask : Q; tk_volume : option Z; tk_time : Z }.

Record Position := {
  pos_ticket : Z;
  pos_symbol : string;
  pos_type : Z;
  pos_volume : Q;
  pos_price_open : Q;
  pos_sl : Q;
  pos_tp : Q
}.

Record Order := {
  ord_ticket : Z;
  ord_symbol : string;
  ord_type : Z;
  ord_volume : Q;
  ord_price_open : Q
}.

(** The answer of [order_send]. *)
Record OrderSendResult := { retcode : Z; order : Z; comment : string }.

(** What the terminal answers and what it has seen.  [t_replies] are the
    answers [order_send] will give, next first ([None] is its null answer,
    also given once the list is used up); [t_raises] names the native
    functions that raise, with the message; [t_sent] and [t_calls] record the
    requests submitted and the native functions called, oldest first. *)
Record Terminal := {
  mt5 : Mt5Const;
  t_path_exists : bool;
  t_initialize : bool;
  t_login : bool;
  t_last_error : Z * string;
  t_account : option AccountInfo;
  t_symbols : list SymbolInfo;
  t_select_ok : list string;
  t_ticks : list (string * Tick);
  t_positions : option (list Position);
  t_orders : option (list Order);
  t_replies : list (option OrderSendResult);
  t_raises : list (string * string);
  t_sent : list dict;
  t_calls : list string
}.

Definition t_update (t : Terminal) (symbols : list SymbolInfo)
    (replies : list (option OrderSendResult)) (sent : list dict)
    (calls : list string) : Terminal :=
  {| mt5 := mt5 t; t_path_exists := t_path_exists t; t_initialize := t_initialize t;
     t_login := t_login t; t_last_error := t_last_error t; t_account := t_account t;
     t_symbols := symbols; t_select_ok := t_select_ok t; t_ticks := t_ticks t;
     t_positions := t_positions t; t_orders := t_orders t; t_replies := replies;
     t_raises := t_raises t; t_sent := sent; t_calls := calls |}.

Fixpoint assoc {A} (k : string) (l : list (string * A)) : option A :=
  match l with
  | [] => None
  | (k', v) :: r => if String.eqb k' k then Some v else assoc k r
  end.

Definition find_symbol (name : string) (symbols : list SymbolInfo) : option SymbolInfo :=
  find (fun si => String.eqb (si_name si) name) symbols.

Definition set_visible (si : SymbolInfo) : SymbolInfo :=
  {| si_name := si_name si; volume_min := volume_min si; volume_max := volume_max si;
     volume_step := volume_step si; point := point si;
     trade_stops_level := trade_stops_level si; filling_mode := filling_mode si;
     visible := true |}.

(** ** Configuration, client object and service state *)

(** [MT5Config]: the fields the client reads. *)
Record MT5Config := {
  login : Z;
  password : string;
  server : string;
  path : option string;
  trading_engine_order_webhook_url : string
}.

(** [MT5Config.validate]. *)
Definition validate (config : MT5Config) : bool :=
  if (login config =? 0)%Z then false
  else if String.eqb (password config) "" then false
  else if String.eqb (server config) "" then false
  else true.

(** The [MT5Client] object. *)
Record MT5Client := {
  config : MT5Config;
  _initialized : bool;
  _connected : bool
}.

(** The records written by [utils.log_mt5_error], [utils.log_trade_success]
    and [utils.log_mt5_connection]. *)
Inductive log_record :=
| MT5Error (operation : string) (error_code : Z) (error_message : string) (context : dict)
| TradeSuccess (operation : string) (ticket : pyval) (context : dict)
| MT5Connection (status : bool) (details : string).

(** A coroutine handed to [asyncio.create_task]. *)
Record Task := { task_name : string; task_args : dict }.

(** The state of the service: the terminal, the module-level globals of
    main.py ([mt5_client], [order_event_emitter], [orderflow_accumulator]),
    the structured log, the scheduled tasks, and the two clocks
    ([datetime.now()] and [datetime.utcnow()]). *)
Record World := {
  term : Terminal;
  mt5_client : option MT5Client;
  order_event_emitter : option Emitter;
  orderflow_accumulator : option OrderFlowAccumulator;
  log : list log_record;
  tasks : list Task;
  now : Z;
  utcnow : Z
}.

Definition set_term (t : Terminal) (w : World) : World :=
  {| term := t; mt5_client := mt5_client w;
     order_event_emitter := order_event_emitter w;
     orderflow_accumulator := orderflow_accumulator w;
     log := log w; tasks := tasks w; now := now w; utcnow := utcnow w |}.

Definition set_client (c : option MT5Client) (w : World) : World :=
  {| term := term w; mt5_client := c;
     order_event_emitter := order_event_emitter w;
     orderflow_accumulator := orderflow_accumulator w;
     log := log w; tasks := tasks w; now := now w; utcnow := utcnow w |}.

Definition set_emitter (e : option Emitter) (w : World) : World :=
  {| term := term w; mt5_client := mt5_client w;
     order_event_emitter := e;
     orderflow_accumulator := orderflow_accumulator w;
     log := log w; tasks := tasks w; now := now w; utcnow := utcnow w |}.

Definition set_accumulator (a : option OrderFlowAccumulator) (w : World) : World :=
  {| term := term w; mt5_client := mt5_client w;
     order_event_emitter := order_event_emitter w;
     orderflow_accumulator := a;
     log := log w; tasks := tasks w; now := now w; utcnow := utcnow w |}.

Definition add_log (r : log_record) (w : World) : World :=
  {| term := term w; mt5_client := mt5_client w;
     order_event_emitter := order_event_emitter w;
     orderflow_accumulator := orderflow_accumulator w;
     log := log w ++ [r]; tasks := tasks w; now := now w; utcnow := utcnow w |}.

Definition add_task (t : Task) (w : World) : World :=
  {| term := term w; mt5_client := mt5_client w;
     order_event_emitter := order_event_emitter w;
     orderflow_accumulator := orderflow_accumulator w;
     log := log w; tasks := tasks w ++ [t]; now := now w; utcnow := utcnow w |}.

(** A statement of the service inside a function returning [R]. *)
Abbreviation Py R A := (M World R A).

(** ** Native calls *)

(** Every call into the MetaTrader5 module is recorded; it raises when the
    terminal says so, and otherwise answers from the terminal's state. *)
Definition t_called (name : string) (t : Terminal) : Terminal :=
  t_update t (t_symbols t) (t_replies t) (t_sent t) (t_calls t ++ [name]).

Definition called (name : string) (w : World) : World :=
  set_term (t_called name (term w)) w.

Definition native {R A} (name : string) (answer : Terminal -> A * Terminal) : Py R A :=
  fun w =>
    let t := t_called name (term w) in
    match assoc name (t_raises t) with
    | Some msg => (Raise (NativeError msg), set_term t w)
    | None => let '(a, t') := answer t in (Val a, set_term t' w)
    end.

Definition mt5_initialize {R} : Py R bool :=
  native "initialize" (fun t => (t_initialize t, t)).
Definition mt5_shutdown {R} : Py R unit :=
  native "shutdown" (fun t => (tt, t)).
Definition mt5_login {R} : Py R bool :=
  native "login" (fun t => (t_login t, t)).
Definition mt5_last_error {R} : Py R (Z * string) :=
  native "last_error" (fun t => (t_last_error t, t)).
Definition mt5_account_info {R} : Py R (option AccountInfo) :=
  native "account_info" (fun t => (t_account t, t)).
Definition mt5_symbol_info {R} (symbol : string) : Py R (option SymbolInfo) :=
  native "symbol_info" (fun t => (find_symbol symbol (t_symbols t), t)).
Definition mt5_symbols_get {R} : Py R (list SymbolInfo) :=
  native "symbols_get" (fun t => (t_symbols t, t)).
Definition mt5_symbol_info_tick {R} (symbol : string) : Py R (option Tick) :=
  native "symbol_info_tick" (fun t => (assoc symbol (t_ticks t), t)).

(** [symbol_select(symbol, True)]: where the terminal allows it, the symbol
    becomes visible. *)
Definition mt5_symbol_select {R} (symbol : string) : Py R bool :=
  native "symbol_select" (fun t =>
    if existsb (String.eqb symbol) (t_select_ok t) then
      (true,
       t_update t
         (map (fun si => if String.eqb (si_name si) symbol then set_visible si else si)
              (t_symbols t))
         (t_replies t) (t_sent t) (t_calls t))
    else (false, t)).

(** [positions_get(ticket=ticket)]. *)
Definition mt5_positions_get {R} (ticket : Z) : Py R (option (list Position)) :=
  native "positions_get" (fun t =>
    (option_map (filter (fun p => pos_ticket p = ticket)) (t_positions t), t)).

(** [orders_get(ticket=ticket)]. *)
Definition mt5_orders_get {R} (ticket : Z) : Py R (option (list Order)) :=
  native "orders_get" (fun t =>
    (option_map (filter (fun o => ord_ticket o = ticket)) (t_orders t), t)).

Definition mt5_order_send {R} (request : dict) : Py R (option OrderSendResult) :=
  native "order_send" (fun t =>
    match t_replies t with
    | [] => (None, t_update t (t_symbols t) [] (t_sent t ++ [request]) (t_calls t))
    | r :: rest =>
        (r, t_update t (t_symbols t) rest (t_sent t ++ [request]) (t_calls t))
    end).

(** The constants of the module ([mt5.TRADE_ACTION_DEAL] and the like). *)
Definition mt5_consts {R} : Py R Mt5Const := fun w => (Val (mt5 (term w)), w).

(** [utils.log_mt5_error], [utils.log_trade_success], [utils.log_mt5_connection]. *)
Definition log_mt5_error {R} (operation : string) (error_code : Z)
    (error_message : string) (context : dict) : Py R unit :=
  modify (add_log (MT5Error operation error_code error_message context)).
Definition log_trade_success {R} (operation : string) (ticket : pyval)
    (context : dict) : Py R unit :=
  modify (add_log (TradeSuccess operation ticket context)).
Definition log_mt5_connection {R} (status : bool) (details : string) : Py R unit :=
  modify (add_log (MT5Connection status details)).

(** ** Connection manager and symbol resolver (mt5_client.py) *)

Local Open Scope py_scope.

Definition nl : string := String (ascii_of_nat 10) EmptyString.
Definition dq : string := String (ascii_of_nat 34) EmptyString.

Fixpoint for_each {S R A} (xs : list A) (body : A -> M S R unit) : M S R unit :=
  match xs with
  | [] => ret tt
  | x :: r => body x ;;; for_each r body
  end.

(** [self]: the global client object; an attribute of [None] cannot be read. *)
Definition get_self {R} : Py R MT5Client :=
  fun w =>
    match mt5_client w with
    | Some c => (Val c, w)
    | None => (Raise (AttributeError "'NoneType' object has no attribute"), w)
    end.

Definition set_flags {R} (initialized connected : bool) : Py R unit :=
  self <- get_self ;;
  modify (set_client (Some {| config := config self; _initialized := initialized;
                               _connected := connected |})).

(** [MT5Client.shutdown]. *)
Definition shutdown : Py unit unit :=
  try_except
    (self <- get_self ;;
     if _initialized self then
       mt5_shutdown ;;;
       set_flags false false
     else ret tt)
    (fun e => ret tt).

(** [MT5Client._login]. *)
Definition _login : Py (bool * string) (bool * string) :=
  try_except
    (authorized <- mt5_login ;;
     if negb authorized then
       let* (error_code, error_desc) := mt5_last_error in
       let error_msg := "MT5 login failed: " +:+ str_Z error_code +:+ " - " +:+ error_desc in
       log_mt5_error "login" error_code error_desc [] ;;;
       return_ (false, error_msg)
     else return_ (true, "Login successful"))
    (fun e => return_ (false, "Exception during MT5 login: " +:+ str_exn e)).

Definition error_hint (error_code : Z) : string :=
  if (error_code =? -10003)%Z then
    "Terminal path invalid or terminal not found. Check MT5_PATH in .env file."
  else if (error_code =? -10002)%Z then
    "Terminal not authorized. Make sure MT5 terminal is properly installed."
  else if (error_code =? -10001)%Z then
    "Terminal not installed. Install MetaTrader 5 or set correct MT5_PATH."
  else "".

(** [MT5Client.initialize].  Whether [mt5.initialize] gets the configured
    path or auto-detects is decided by [config.path] and the file system; the
    terminal's answer is [t_initialize] either way. *)
Definition initialize : Py (bool * string) (bool * string) :=
  try_except
    (self <- get_self ;;
     (if _initialized self then call shutdown else ret tt) ;;;
     initialized <- mt5_initialize ;;
     if negb initialized then
       let* (error_code, error_desc) := mt5_last_error in
       let hint := error_hint error_code in
       let error_msg :=
         "MT5 initialize() failed: " +:+ str_Z error_code +:+ " - " +:+ error_desc +:+
         (if String.eqb hint "" then "" else nl +:+ "💡 " +:+ hint) in
       log_mt5_connection false error_msg ;;;
       return_ (false, error_msg)
     else
       self <- get_self ;;
       set_flags true (_connected self) ;;;
       (if validate (config self) then
          login_result <- call _login ;;
          if negb (fst login_result) then
            call shutdown ;;;
            return_ (false, snd login_result)
          else
            set_flags true true ;;;
            log_mt5_connection true
              ("Logged in to account " +:+ str_Z (login (config self)) +:+ " on " +:+
               server (config self))
        else
          set_flags true true ;;;
          log_mt5_connection true "Connected (no login required)") ;;;
       return_ (true, "MT5 initialized successfully"))
    (fun e => return_ (false, "Exception during MT5 initialization: " +:+ str_exn e)).

(** [MT5Client.ensure_initialized]. *)
Definition ensure_initialized : Py (bool * string) (bool * string) :=
  self <- get_self ;;
  (if _initialized self && _connected self then
     try_except
       (account_info <- mt5_account_info ;;
        match account_info with
        | None => r <- call initialize ;; return_ r
        | Some _ => return_ (true, "Already connected")
        end)
       (fun e => r <- call initialize ;; return_ r)
   else ret tt) ;;;
  r <- call initialize ;; return_ r.

Definition symbol_aliases (symbol : string) : option (list string) :=
  if String.eqb symbol "XAUUSD" then Some ["GOLD"; "XAUUSD"; "XAU/USD"]
  else if String.eqb symbol "XAGUSD" then Some ["SILVER"; "XAGUSD"; "XAG/USD"]
  else if String.eqb symbol "BTCUSD" then Some ["BTCUSD"; "BTC/USD"]
  else if String.eqb symbol "US30" then Some ["US30"; "US30Cash"; "DOW"; "DJI"]
  else if String.eqb symbol "SPX500" then Some ["SPX500"; "SP500"; "US500"]
  else if String.eqb symbol "NAS100" then Some ["NAS100"; "NASDAQ"; "US100"]
  else None.

Definition common_suffixes : list string := [".0"; ".1"; ".conv"; ".raw"; ".pro"].

(** [', '.join(xs)]. *)
Fixpoint join (sep : string) (xs : list string) : string :=
  match xs with
  | [] => ""
  | [x] => x
  | x :: r => x +:+ sep +:+ join sep r
  end.

(** [MT5Client.validate_symbol]: (valid, actual symbol name, message). *)
Definition validate_symbol (symbol : string)
  : Py (bool * string * string) (bool * string * string) :=
  try_except
    (let symbols_to_try :=
       [upper symbol] ++ default [] (symbol_aliases (upper symbol)) in
     for_each symbols_to_try (fun symbol_variant =>
       symbol_info <- mt5_symbol_info symbol_variant ;;
       match symbol_info with
       | Some symbol_info =>
           selected <-
             (if negb (visible symbol_info) then mt5_symbol_select symbol_variant
              else ret true) ;;
           if selected then return_ (true, symbol_variant, "Symbol valid")
           else ret tt
       | None => ret tt
       end) ;;;
     for_each common_suffixes (fun suffix =>
       let symbol_with_suffix := upper symbol +:+ suffix in
       symbol_info <- mt5_symbol_info symbol_with_suffix ;;
       match symbol_info with
       | Some symbol_info =>
           selected <-
             (if negb (visible symbol_info) then mt5_symbol_select symbol_with_suffix
              else ret true) ;;
           if selected then
             return_ (true, symbol_with_suffix,
                      "Symbol mapped to " +:+ symbol_with_suffix)
           else ret tt
       | None => ret tt
       end) ;;;
     account_info <- mt5_account_info ;;
     match account_info with
     | None =>
         return_ (false, symbol,
                  "Symbol " +:+ symbol +:+
                  " not found. Make sure MT5 terminal is logged into an account.")
     | Some _ =>
         symbols <- mt5_symbols_get ;;
         let similar :=
           filter (fun name => String.prefix (upper symbol) name
                               || contains (upper symbol) name = true)
                  (map si_name symbols) in
         let similar :=
           filter (fun name => String.prefix (upper symbol) name = true) similar ++
           filter (fun name => String.prefix (upper symbol) name = false) similar in
         match similar with
         | _ :: _ =>
             return_ (false, symbol,
                      "Symbol " +:+ symbol +:+
                      " not found. Available similar symbols: " +:+
                      join ", " (take 5 similar) +:+
                      ". Use one of these exact symbol names.")
         | [] =>
             return_ (false, symbol,
                      "Symbol " +:+ symbol +:+
                      " not found. Make sure the symbol is enabled in MT5 Market Watch.")
         end
     end)
    (fun e => return_ (false, symbol, "Error validating symbol: " +:+ str_exn e)).

(** ** Result dictionaries (mt5_client.py) *)

(** [MT5Client._make_error_response]. *)
Definition _make_error_response (error_code : Z) (error_message : string)
    (symbol direction order_kind volume : pyval) : dict :=
  [("success", VBool false);
   ("error_code", VInt error_code);
   ("error_message", VStr error_message);
   ("context", VDict [("symbol", symbol); ("direction", direction);
                      ("order_kind", order_kind); ("volume", volume)])].

(** [MT5Client._make_success_response]. *)
Definition _make_success_response (ticket : pyval) (symbol : string)
    (volume : pyval) (price : Q) (direction order_kind : string) : dict :=
  [("success", VBool true);
   ("ticket", ticket);
   ("symbol", VStr symbol);
   ("volume", volume);
   ("price", VFloat price);
   ("direction", VStr direction);
   ("order_kind", VStr order_kind)].

(** [{'success': False, 'error': msg}]. *)
Definition failure (error : string) : dict :=
  [("success", VBool false); ("error", VStr error)].

(** [{'success': False, 'error': msg, 'details': details}]. *)
Definition failure_details (error : string) (details : dict) : dict :=
  [("success", VBool false); ("error", VStr error); ("details", VDict details)].

(** [result._asdict()]. *)
Definition result_asdict (r : OrderSendResult) : dict :=
  [("retcode", VInt (retcode r)); ("order", VInt (order r));
   ("comment", VStr (comment r))].

(** [MT5Client._get_filling_modes]. *)
Definition _get_filling_modes (c : Mt5Const) (symbol_info : option SymbolInfo) : list Z :=
  match symbol_info with
  | None => [ORDER_FILLING_RETURN c; ORDER_FILLING_IOC c; ORDER_FILLING_FOK c]
  | Some symbol_info =>
      let filling_modes := filling_mode symbol_info in
      let modes_to_try :=
        (if (Z.land filling_modes (ORDER_FILLING_RETURN c) =? 0)%Z then []
         else [ORDER_FILLING_RETURN c]) ++
        (if (Z.land filling_modes (ORDER_FILLING_IOC c) =? 0)%Z then []
         else [ORDER_FILLING_IOC c]) ++
        (if (Z.land filling_modes (ORDER_FILLING_FOK c) =? 0)%Z then []
         else [ORDER_FILLING_FOK c]) in
      match modes_to_try with
      | [] => [ORDER_FILLING_RETURN c; ORDER_FILLING_IOC c; ORDER_FILLING_FOK c]
      | _ => modes_to_try
      end
  end.

(** ** Order executor: submission (mt5_client.py, [open_trade] from
    "Try sending order" on) *)

(** What stays fixed while an order is being submitted. *)
Record Submission := {
  sb_symbol : string;            (* the broker symbol, [symbol] = [actual_symbol] *)
  sb_direction : string;
  sb_order_kind : string;
  sb_strategy : string;
  sb_original_volume : Q;
  sb_normalized_volume : pyval;  (* also [lot_size] *)
  sb_symbol_info : SymbolInfo;
  sb_order_type : Z;             (* [mt5_order_type] *)
  sb_entry_price_used : Q;
  sb_action : Z;
  sb_filling_modes_to_try : list Z
}.

(** The variables the retry loops update.  [tried_modes] holds the filling
    modes behind the texts "NAME(mode)": the code reads the mode back from
    that text, which gives the mode it was made from.  [last_result] is the
    local [result] when it is bound and not [None]. *)
Record SendState := {
  last_error : option string;
  tried_modes : list Z;
  retry_without_stops : bool;
  has_tried_fallback : bool;
  last_result : option OrderSendResult
}.

Definition set_last_error (e : string) (st : SendState) : SendState :=
  {| last_error := Some e; tried_modes := tried_modes st;
     retry_without_stops := retry_without_stops st;
     has_tried_fallback := has_tried_fallback st; last_result := last_result st |}.

Definition set_last_result (r : option OrderSendResult) (st : SendState) : SendState :=
  {| last_error := last_error st; tried_modes := tried_modes st;
     retry_without_stops := retry_without_stops st;
     has_tried_fallback := has_tried_fallback st; last_result := r |}.

Definition add_tried (m : Z) (st : SendState) : SendState :=
  {| last_error := last_error st; tried_modes := tried_modes st ++ [m];
     retry_without_stops := retry_without_stops st;
     has_tried_fallback := has_tried_fallback st; last_result := last_result st |}.

Definition set_retry_without_stops (st : SendState) : SendState :=
  {| last_error := last_error st; tried_modes := tried_modes st;
     retry_without_stops := true;
     has_tried_fallback := has_tried_fallback st; last_result := last_result st |}.

Definition set_has_tried_fallback (st : SendState) : SendState :=
  {| last_error := last_error st; tried_modes := tried_modes st;
     retry_without_stops := retry_without_stops st;
     has_tried_fallback := true; last_result := last_result st |}.

(** [{1: "RETURN", 2: "IOC", 4: "FOK"}.get(filling_mode, f"UNKNOWN({filling_mode})")]. *)
Definition mode_name (filling_mode : Z) : string :=
  if (filling_mode =? 1)%Z then "RETURN"
  else if (filling_mode =? 2)%Z then "IOC"
  else if (filling_mode =? 4)%Z then "FOK"
  else "UNKNOWN(" +:+ str_Z filling_mode +:+ ")".

Definition tried_mode_text (filling_mode : Z) : string :=
  mode_name filling_mode +:+ "(" +:+ str_Z filling_mode +:+ ")".

Definition tried_modes_text (tried : list Z) : string :=
  match tried with
  | [] => "none"
  | _ => join ", " (map tried_mode_text tried)
  end.

(** [d[k] = v]: replace the value of a key that is present, append otherwise. *)
Fixpoint dict_set (d : dict) (k : string) (v : pyval) : dict :=
  match d with
  | [] => [(k, v)]
  | (k', v') :: r => if String.eqb k' k then (k, v) :: r else (k', v') :: dict_set r k v
  end.

(** The request dictionary built for one submission. *)
Definition trade_request (c : Mt5Const) (sb : Submission) (trade_sl trade_tp : Q)
    (filling_mode : Z) : dict :=
  [("action", VInt (sb_action sb));
   ("symbol", VStr (sb_symbol sb));
   ("volume", sb_normalized_volume sb);
   ("type", VInt (sb_order_type sb));
   ("price", VFloat (sb_entry_price_used sb));
   ("sl", VFloat trade_sl);
   ("tp", VFloat trade_tp);
   ("magic", VInt 123456);
   ("comment", VStr ("ProvidenceX-" +:+ sb_strategy sb));
   ("type_time", VInt (ORDER_TIME_GTC c))] ++
  (if (sb_action sb =? TRADE_ACTION_DEAL c)%Z then
     [("deviation", VInt 20); ("type_filling", VInt filling_mode)]
   else []).

(** How one pass through the body of the [while] loop ends, when it does not
    return. *)
Inductive loop_exit := Continue | Break.

Definition error_code_or (error_code d : Z) : Z :=
  if (error_code =? 0)%Z then d else error_code.

(** [result.comment or d]. *)
Definition comment_or (r : OrderSendResult) (d : string) : string :=
  if String.eqb (comment r) "" then d else comment r.

(** The fallback modes not tried yet:
    [[m for m in all_fallback_modes if m not in tried_filling_modes]]. *)
Definition fallback_to_add (c : Mt5Const) (tried : list Z) : list Z :=
  filter (fun m => existsb (Z.eqb m) tried = false)
         [ORDER_FILLING_RETURN c; ORDER_FILLING_IOC c; ORDER_FILLING_FOK c].

(** One pass through the body of the [while] loop, for the mode at
    [modes_index - 1].  It returns from [open_trade] through [return_], or
    hands back how the pass ended, the modes appended to [modes_list] and the
    updated variables. *)
Definition send_once (c : Mt5Const) (sb : Submission) (attempt : nat)
    (adjusted_sl adjusted_tp : option Q) (filling_mode : Z) (modes_index : nat)
    (st : SendState) : Py dict (loop_exit * list Z * SendState) :=
  let deal := (sb_action sb =? TRADE_ACTION_DEAL c)%Z in
  let st := if deal then add_tried filling_mode st else st in
  let trade_sl := default 0%Q adjusted_sl in
  let trade_tp := default 0%Q adjusted_tp in
  let request := trade_request c sb trade_sl trade_tp filling_mode in
  let context :=
    [("symbol", VStr (sb_symbol sb)); ("direction", VStr (sb_direction sb));
     ("order_kind", VStr (sb_order_kind sb))] in
  let error_response code msg :=
    _make_error_response code msg (VStr (sb_symbol sb)) (VStr (sb_direction sb))
      (VStr (sb_order_kind sb)) (sb_normalized_volume sb) in
  let success_response ticket :=
    _make_success_response (VInt ticket) (sb_symbol sb) (sb_normalized_volume sb)
      (sb_entry_price_used sb) (sb_direction sb) (sb_order_kind sb) in
  result <- mt5_order_send request ;;
  let st := set_last_result result st in
  match result with
  | None =>
      let* (error_code, error_desc) := mt5_last_error in
      if deal then
        ret (Continue, [],
             set_last_error ("OrderSend failed: " +:+ error_desc +:+ " (code: " +:+
                             str_Z error_code +:+ ", filling_mode: " +:+
                             str_Z filling_mode +:+ ")") st)
      else
        ret (Break, [],
             set_last_error ("OrderSend failed: " +:+ error_desc +:+ " (code: " +:+
                             str_Z error_code +:+ ")") st)
  | Some result =>
      if (retcode result =? TRADE_RETCODE_DONE c)%Z then
        log_trade_success "open_trade" (VInt (order result))
          (context ++
           [("lot_size", sb_normalized_volume sb);
            ("entry_price", VFloat (sb_entry_price_used sb));
            ("stop_loss", VFloat trade_sl);
            ("take_profit", VFloat trade_tp);
            ("strategy", VStr (sb_strategy sb));
            ("filling_mode", if deal then VInt filling_mode else VNone);
            ("retry_without_stops", VBool (retry_without_stops st))]) ;;;
        return_ (success_response (order result))
      else if (retcode result =? 10016)%Z then
        if String.eqb (sb_order_kind sb) "market" then
          let retry_request :=
            dict_set (dict_set request "sl" (VFloat 0)) "tp" (VFloat 0) in
          retry_result <- mt5_order_send retry_request ;;
          match retry_result with
          | None =>
              let* (error_code, error_desc) := mt5_last_error in
              log_mt5_error "order_send (retry)" error_code error_desc context ;;;
              return_ (error_response (error_code_or error_code (-10009))
                         ("OrderSend failed after retry without stops: " +:+
                          error_desc +:+ " (code: " +:+ str_Z error_code +:+ ")"))
          | Some retry_result =>
              if (retcode retry_result =? TRADE_RETCODE_DONE c)%Z then
                log_trade_success "open_trade" (VInt (order retry_result))
                  (context ++
                   [("lot_size", sb_normalized_volume sb);
                    ("entry_price", VFloat (sb_entry_price_used sb));
                    ("stop_loss", VFloat 0);
                    ("take_profit", VFloat 0);
                    ("strategy", VStr (sb_strategy sb));
                    ("filling_mode", VInt filling_mode);
                    ("retry_without_stops", VBool true)]) ;;;
                return_ (success_response (order retry_result))
              else
                log_mt5_error "order_send (retry)" (retcode retry_result)
                  (comment_or retry_result "Unknown error")
                  (context ++ [("retcode", VInt (retcode retry_result))]) ;;;
                return_ (error_response (retcode retry_result)
                           ("MT5 order_send failed after retry without stops: " +:+
                            comment_or retry_result "Unknown error"))
          end
        else if (attempt =? 0)%nat then
          ret (Break, [],
               set_last_error ("Invalid stops (code: " +:+ str_Z (retcode result) +:+
                               "): " +:+ comment result) st)
        else
          log_mt5_error "order_send" (retcode result) (comment_or result "Invalid stops")
            (context ++ [("retcode", VInt (retcode result))]) ;;;
          return_ (failure_details
                     ("OrderSend failed: Invalid stops even without SL/TP (code: " +:+
                      str_Z (retcode result) +:+ ") - " +:+ comment result)
                     (result_asdict result))
      else if (retcode result =? 10014)%Z then
        log_mt5_error "order_send" (retcode result) (comment_or result "Invalid volume")
          (context ++
           [("original_volume", VFloat (sb_original_volume sb));
            ("normalized_volume", sb_normalized_volume sb);
            ("retcode", VInt (retcode result));
            ("volume_min", opt_float (volume_min (sb_symbol_info sb)));
            ("volume_max", opt_float (volume_max (sb_symbol_info sb)));
            ("volume_step", opt_float (volume_step (sb_symbol_info sb)))]) ;;;
        return_ (failure_details
                   ("OrderSend failed: Invalid volume (code: " +:+
                    str_Z (retcode result) +:+ ") - " +:+ comment result)
                   (result_asdict result))
      else if (retcode result =? 10030)%Z && deal then
        let st :=
          set_last_error ("Filling mode " +:+ str_Z filling_mode +:+
                          " not supported (code: " +:+ str_Z (retcode result) +:+
                          "), trying next...") st in
        if (length (sb_filling_modes_to_try sb) <=? modes_index)%nat
           && negb (has_tried_fallback st) then
          match fallback_to_add c (tried_modes st) with
          | [] => ret (Continue, [], st)
          | extra => ret (Continue, extra, set_has_tried_fallback st)
          end
        else ret (Continue, [], st)
      else if (retcode result =? 10030)%Z
              && (sb_action sb =? TRADE_ACTION_PENDING c)%Z then
        log_mt5_error "order_send" (retcode result) (comment_or result "Unknown error")
          (context ++ [("retcode", VInt (retcode result))]) ;;;
        return_ (error_response (retcode result)
                   ("OrderSend failed: " +:+ comment result +:+ " (code: " +:+
                    str_Z (retcode result) +:+ ")"))
      else if (retcode result =? 10027)%Z then
        let error_msg :=
          "AutoTrading disabled by client (code: " +:+ str_Z (retcode result) +:+ "). " +:+
          "Please enable 'Algo Trading' in MT5 terminal:" +:+ nl +:+
          "1. Click 'Algo Trading' button in MT5 toolbar (should be green)" +:+ nl +:+
          "2. Or go to: Tools > Options > Expert Advisors > Check 'Allow automated trading'" in
        log_mt5_error "order_send" (retcode result) error_msg
          (context ++ [("lot_size", sb_normalized_volume sb);
                       ("retcode", VInt (retcode result))]) ;;;
        return_ (failure_details error_msg (result_asdict result))
      else
        let error_msg :=
          "OrderSend failed: " +:+ comment result +:+ " (code: " +:+
          str_Z (retcode result) +:+ ")" in
        log_mt5_error "order_send" (retcode result) (comment_or result "Unknown error")
          (context ++ [("lot_size", sb_normalized_volume sb);
                       ("retcode", VInt (retcode result));
                       ("filling_mode", if deal then VInt filling_mode else VNone)]) ;;;
        if (sb_action sb =? TRADE_ACTION_PENDING c)%Z then
          return_ (failure_details error_msg (result_asdict result))
        else if (retcode result =? 10030)%Z then
          ret (Continue, [], set_last_error error_msg st)
        else
          ret (Break, [], set_last_error error_msg st)
  end.

(** The rest of the [while] loop once [modes_list] has been extended: no
    further extension happens ([has_tried_fallback] is set). *)
Fixpoint send_modes_extended (c : Mt5Const) (sb : Submission) (attempt : nat)
    (adjusted_sl adjusted_tp : option Q) (modes : list Z) (modes_index : nat)
    (st : SendState) : Py dict SendState :=
  match modes with
  | [] => ret st
  | filling_mode :: rest =>
      let* (exit, _, st) :=
        send_once c sb attempt adjusted_sl adjusted_tp filling_mode (S modes_index) st in
      match exit with
      | Continue =>
          send_modes_extended c sb attempt adjusted_sl adjusted_tp rest (S modes_index) st
      | Break => ret st
      end
  end.

(** The [while modes_index < len(modes_list)] loop; [modes] are the entries
    of [modes_list] from [modes_index] on. *)
Fixpoint send_modes (c : Mt5Const) (sb : Submission) (attempt : nat)
    (adjusted_sl adjusted_tp : option Q) (modes : list Z) (modes_index : nat)
    (st : SendState) : Py dict SendState :=
  match modes with
  | [] => ret st
  | filling_mode :: rest =>
      let* (exit, extra, st) :=
        send_once c sb attempt adjusted_sl adjusted_tp filling_mode (S modes_index) st in
      match exit with
      | Continue =>
          match extra with
          | [] => send_modes c sb attempt adjusted_sl adjusted_tp rest (S modes_index) st
          | _ =>
              send_modes_extended c sb attempt adjusted_sl adjusted_tp (rest ++ extra)
                (S modes_index) st
          end
      | Break => ret st
      end
  end.

(** [last_error or 'Unknown error']. *)
Definition last_error_or_unknown (st : SendState) : string :=
  match last_error st with
  | Some e => if String.eqb e "" then "Unknown error" else e
  | None => "Unknown error"
  end.

(** [open_trade] from "Try sending order" to its last [return]: the two
    attempts ([for attempt in range(max_attempts)]) and the final failure. *)
Definition submit_order (c : Mt5Const) (sb : Submission)
    (adjusted_sl adjusted_tp : option Q) : Py dict dict :=
  let st :=
    {| last_error := None; tried_modes := []; retry_without_stops := false;
       has_tried_fallback := false; last_result := None |} in
  st <- send_modes c sb 0 adjusted_sl adjusted_tp (sb_filling_modes_to_try sb) 0 st ;;
  st <- send_modes c sb 1 (Some 0%Q) (Some 0%Q) (sb_filling_modes_to_try sb) 0
          (set_retry_without_stops st) ;;
  let error_details :=
    match last_result st with Some r => result_asdict r | None => [] end in
  let context :=
    [("symbol", VStr (sb_symbol sb)); ("direction", VStr (sb_direction sb));
     ("order_kind", VStr (sb_order_kind sb)); ("lot_size", sb_normalized_volume sb)] in
  if (sb_action sb =? TRADE_ACTION_DEAL c)%Z then
    log_mt5_error "order_send" 0
      ("All attempts failed. Tried modes: " +:+ tried_modes_text (tried_modes st) +:+
       ". Last error: " +:+ default "None" (last_error st))
      (context ++
       [("tried_modes", VList (map (fun m => VStr (tried_mode_text m)) (tried_modes st)))]) ;;;
    return_ (failure_details
               ("OrderSend failed: No supported filling mode found for " +:+
                sb_symbol sb +:+ ". Tried modes: " +:+
                tried_modes_text (tried_modes st) +:+ ". Last error: " +:+
                last_error_or_unknown st)
               error_details)
  else
    log_mt5_error "order_send" 0
      ("Pending order failed: " +:+ last_error_or_unknown st) context ;;;
    return_ (failure_details ("OrderSend failed: " +:+ last_error_or_unknown st)
               error_details).

(** ** Order executor: [MT5Client.open_trade] (mt5_client.py) *)

(** The [request] dictionary; an absent key is [None]. *)
Record OpenTradeDict := {
  rq_symbol : string;
  rq_direction : string;
  rq_order_kind : option string;
  rq_lot_size : Q;
  rq_entry_price : option Q;
  rq_stop_loss : option Q;
  rq_stop_loss_price : option Q;
  rq_take_profit : option Q;
  rq_take_profit_price : option Q;
  rq_strategy : option string
}.

(** A positional argument of a method call. *)
Inductive arg :=
| AFloat (q : Q)
| AInfo (symbol_info : SymbolInfo)
| AStr (s : string).

(** The text of the [TypeError] raised by a call of [_normalize_volume] that
    leaves out [symbol]. *)
Definition missing_symbol_argument : string :=
  "MT5Client._normalize_volume() missing 1 required positional argument: 'symbol'".

(** A call [self._normalize_volume(...)].  Python binds the arguments to the
    parameters [(requested, symbol_info, symbol)] before the body runs; a
    call that leaves a required parameter unbound raises [TypeError]. *)
Definition call_normalize_volume {R} (args : list arg) : Py R pyval :=
  match args with
  | [AFloat requested; AInfo symbol_info; AStr symbol] =>
      let '(vol, err) := _normalize_volume requested symbol_info symbol in
      ret (VTuple [VFloat vol; opt_str err])
  | [_; _] => raise (TypeError missing_symbol_argument)
  | _ =>
      raise (TypeError "MT5Client._normalize_volume() called with unsupported arguments")
  end.

(** The branch on [order_kind]: the MT5 order type, the entry price used and
    the trade action, or an early [return]. *)
Definition order_plan (c : Mt5Const) (symbol direction order_kind : string)
    (lot_size : Q) (entry_price : option Q) (current_bid current_ask : Q)
  : Py dict (Z * Q * Z) :=
  if String.eqb order_kind "market" then
    if String.eqb (lower direction) "buy" then
      ret (ORDER_TYPE_BUY c, current_ask, TRADE_ACTION_DEAL c)
    else
      ret (ORDER_TYPE_SELL c, current_bid, TRADE_ACTION_DEAL c)
  else if String.eqb order_kind "limit" || String.eqb order_kind "stop" then
    match entry_price with
    | None =>
        return_ (failure ("entry_price is required for " +:+ order_kind +:+ " orders"))
    | Some entry_price =>
        if Qleb entry_price 0 then
          return_ (failure ("entry_price is required for " +:+ order_kind +:+ " orders"))
        else if String.eqb (lower direction) "buy" then
          if String.eqb order_kind "limit" then
            if Qgeb entry_price current_ask then
              return_ (failure
                ("Invalid pending order: BUY_LIMIT must have price < current ask (" +:+
                 str_Q current_ask +:+ ")"))
            else ret (ORDER_TYPE_BUY_LIMIT c, entry_price, TRADE_ACTION_PENDING c)
          else
            if Qleb entry_price current_ask then
              return_ (failure
                ("Invalid pending order: BUY_STOP must have price > current ask (" +:+
                 str_Q current_ask +:+ ")"))
            else ret (ORDER_TYPE_BUY_STOP c, entry_price, TRADE_ACTION_PENDING c)
        else
          if String.eqb order_kind "limit" then
            if Qleb entry_price current_bid then
              return_ (failure
                ("Invalid pending order: SELL_LIMIT must have price > current bid (" +:+
                 str_Q current_bid +:+ ")"))
            else ret (ORDER_TYPE_SELL_LIMIT c, entry_price, TRADE_ACTION_PENDING c)
          else
            if Qgeb entry_price current_bid then
              return_ (failure
                ("Invalid pending order: SELL_STOP must have price < current bid (" +:+
                 str_Q current_bid +:+ ")"))
            else ret (ORDER_TYPE_SELL_STOP c, entry_price, TRADE_ACTION_PENDING c)
    end
  else
    return_ (_make_error_response (-10007)
               ("Invalid order_kind: " +:+ order_kind +:+
                ". Must be " +:+ dq +:+ "market" +:+ dq +:+ ", " +:+ dq +:+ "limit" +:+
                dq +:+ ", or " +:+ dq +:+ "stop" +:+ dq)
               (VStr symbol) (VStr direction) (VStr order_kind) (VFloat lot_size)).

(** [MT5Client.open_trade(request)]. *)
Definition open_trade (request : OpenTradeDict) : Py dict dict :=
  let* (init_success, init_msg) := call ensure_initialized in
  if negb init_success then
    return_ (failure ("MT5 connection failed: " +:+ init_msg))
  else
  let symbol := rq_symbol request in
  let direction := rq_direction request in
  let order_kind := lower (default "market" (rq_order_kind request)) in
  let lot_size := rq_lot_size request in
  let entry_price := rq_entry_price request in
  let stop_loss := float_or (rq_stop_loss request) (rq_stop_loss_price request) in
  let take_profit := float_or (rq_take_profit request) (rq_take_profit_price request) in
  let strategy := default "unknown" (rq_strategy request) in
  let* (symbol_valid, actual_symbol, symbol_msg) := call (validate_symbol symbol) in
  if negb symbol_valid then
    log_mt5_error "validate_symbol" 0 symbol_msg [("symbol", VStr symbol)] ;;;
    return_ (_make_error_response (-10002) symbol_msg (VStr symbol) (VStr direction)
               (VStr order_kind) (VFloat lot_size))
  else
  let symbol := actual_symbol in
  try_except
    (c <- mt5_consts ;;
     tick <- mt5_symbol_info_tick symbol ;;
     match tick with
     | None =>
         let* (error_code, error_desc) := mt5_last_error in
         log_mt5_error "symbol_info_tick" error_code error_desc [("symbol", VStr symbol)] ;;;
         return_ (_make_error_response (error_code_or error_code (-10003))
                    ("Failed to get market price for " +:+ symbol +:+ ": " +:+
                     str_Z error_code +:+ " - " +:+ error_desc)
                    (VStr symbol) (VStr direction) (VStr order_kind) (VFloat lot_size))
     | Some tick =>
     let current_bid := tk_bid tick in
     let current_ask := tk_ask tick in
     symbol_info <- mt5_symbol_info symbol ;;
     match symbol_info with
     | None =>
         let* (error_code, error_desc) := mt5_last_error in
         let error_msg :=
           "Could not get symbol info for " +:+ symbol +:+ ": " +:+
           str_Z error_code +:+ " - " +:+ error_desc in
         log_mt5_error "symbol_info" error_code error_desc [("symbol", VStr symbol)] ;;;
         return_ (failure error_msg)
     | Some _ =>
     let* (mt5_order_type, entry_price_used, action) :=
       order_plan c symbol direction order_kind lot_size entry_price
         current_bid current_ask in
     symbol_info <- mt5_symbol_info symbol ;;
     match symbol_info with
     | None =>
         let* (error_code, error_desc) := mt5_last_error in
         let error_msg :=
           "Could not get symbol info for " +:+ symbol +:+ ": " +:+
           str_Z error_code +:+ " - " +:+ error_desc in
         log_mt5_error "symbol_info" error_code error_desc [("symbol", VStr symbol)] ;;;
         return_ (failure error_msg)
     | Some symbol_info =>
     let original_volume := lot_size in
     normalized_volume <-
       call_normalize_volume [AFloat original_volume; AInfo symbol_info] ;;
     let lot_size := normalized_volume in
     let '(adjusted_sl, adjusted_tp) :=
       match stop_loss, take_profit with
       | None, None => (None, None)
       | _, _ =>
           _adjust_stop_loss_take_profit symbol_info entry_price_used
             stop_loss take_profit direction
       end in
     let filling_modes_to_try :=
       if (action =? TRADE_ACTION_DEAL c)%Z then _get_filling_modes c (Some symbol_info)
       else [ORDER_FILLING_RETURN c] in
     submit_order c
       {| sb_symbol := symbol; sb_direction := direction; sb_order_kind := order_kind;
          sb_strategy := strategy; sb_original_volume := original_volume;
          sb_normalized_volume := lot_size; sb_symbol_info := symbol_info;
          sb_order_type := mt5_order_type; sb_entry_price_used := entry_price_used;
          sb_action := action; sb_filling_modes_to_try := filling_modes_to_try |}
       adjusted_sl adjusted_tp
     end end end)
    (fun e =>
       return_ (_make_error_response (-10011)
                  ("Exception during open_trade: " +:+ str_exn e)
                  (VStr (rq_symbol request)) (VStr (rq_direction request))
                  (opt_str (rq_order_kind request)) (VFloat (rq_lot_size request)))).

(** ** Closing positions (mt5_client.py) *)

(** The [for filling_mode in filling_modes_to_try] loop shared in shape by
    [close_trade] and [partial_close_trade]; [what] is "Close" or
    "Partial close", [op] the name logged, [success] the result of a done
    order. *)
Fixpoint close_with_modes (c : Mt5Const) (what op : string) (ticket : Z)
    (request_for : Z -> dict) (on_done : Z -> Py dict dict) (modes : list Z)
    (last_error : option string) : Py dict (option string) :=
  match modes with
  | [] => ret last_error
  | filling_mode :: rest =>
      result <- mt5_order_send (request_for filling_mode) ;;
      match result with
      | None =>
          let* (error_code, error_desc) := mt5_last_error in
          let last_error :=
            what +:+ " order failed: " +:+ error_desc +:+ " (code: " +:+
            str_Z error_code +:+ ", filling_mode: " +:+ str_Z filling_mode +:+ ")" in
          if (error_code =? 10030)%Z then
            close_with_modes c what op ticket request_for on_done rest (Some last_error)
          else
            log_mt5_error ("order_send (" +:+ op +:+ ")") error_code error_desc
              [("ticket", VInt ticket)] ;;;
            return_ (failure last_error)
      | Some result =>
          if (retcode result =? TRADE_RETCODE_DONE c)%Z then
            r <- on_done filling_mode ;; return_ r
          else if (retcode result =? 10030)%Z then
            close_with_modes c what op ticket request_for on_done rest
              (Some ("Filling mode " +:+ str_Z filling_mode +:+ " not supported (code: " +:+
                     str_Z (retcode result) +:+ "), trying next..."))
          else
            log_mt5_error ("order_send (" +:+ op +:+ ")") (retcode result)
              (comment_or result "Unknown error")
              [("ticket", VInt ticket); ("retcode", VInt (retcode result));
               ("filling_mode", VInt filling_mode)] ;;;
            return_ (failure (what +:+ " failed: " +:+ comment result +:+ " (code: " +:+
                              str_Z (retcode result) +:+ ")"))
      end
  end.

(** [MT5Client.close_trade(ticket)]. *)
Definition close_trade (ticket : Z) : Py dict dict :=
  let* (init_success, init_msg) := call ensure_initialized in
  if negb init_success then
    return_ (failure ("MT5 connection failed: " +:+ init_msg))
  else
  try_except
    (c <- mt5_consts ;;
     positions <- mt5_positions_get ticket ;;
     match positions with
     | None | Some [] =>
         return_ (failure ("Position with ticket " +:+ str_Z ticket +:+ " not found"))
     | Some (position :: _) =>
         let order_type :=
           if (pos_type position =? ORDER_TYPE_BUY c)%Z then ORDER_TYPE_SELL c
           else ORDER_TYPE_BUY c in
         tick <- mt5_symbol_info_tick (pos_symbol position) ;;
         match tick with
         | None =>
             let* (error_code, error_desc) := mt5_last_error in
             log_mt5_error "symbol_info_tick" error_code error_desc
               [("symbol", VStr (pos_symbol position)); ("ticket", VInt ticket)] ;;;
             return_ (failure ("Failed to get market price for " +:+
                               pos_symbol position +:+ ": " +:+ str_Z error_code))
         | Some tick =>
             let price :=
               if (pos_type position =? ORDER_TYPE_BUY c)%Z then tk_bid tick
               else tk_ask tick in
             symbol_info <- mt5_symbol_info (pos_symbol position) ;;
             let filling_modes_to_try := _get_filling_modes c symbol_info in
             let request_for filling_mode :=
               [("action", VInt (TRADE_ACTION_DEAL c));
                ("symbol", VStr (pos_symbol position));
                ("volume", VFloat (pos_volume position));
                ("type", VInt order_type);
                ("position", VInt ticket);
                ("price", VFloat price);
                ("deviation", VInt 20);
                ("magic", VInt 123456);
                ("comment", VStr "ProvidenceX-close");
                ("type_time", VInt (ORDER_TIME_GTC c));
                ("type_filling", VInt filling_mode)] in
             let on_done filling_mode :=
               log_trade_success "close_trade" (VInt ticket)
                 [("symbol", VStr (pos_symbol position));
                  ("volume", VFloat (pos_volume position));
                  ("close_price", VFloat price);
                  ("filling_mode", VInt filling_mode)] ;;;
               ret [("success", VBool true)] in
             last_error <-
               close_with_modes c "Close" "close" ticket request_for on_done
                 filling_modes_to_try None ;;
             return_ (failure ("Close failed: No supported filling mode found. Last error: " +:+
                               default "None" last_error))
         end
     end)
    (fun e => return_ (failure ("Exception during close_trade: " +:+ str_exn e))).

(** [normalized_volume, vol_error = <tuple>]: unpacking a pair. *)
Definition unpack_pair {R} (v : pyval) : Py R (pyval * pyval) :=
  match v with
  | VTuple [a; b] => ret (a, b)
  | VTuple _ => raise (ValueError "not enough values to unpack (expected 2)")
  | _ => raise (TypeError "cannot unpack non-iterable object")
  end.

(** [a >= b] for a dynamically typed [a] and a float [b]. *)
Definition py_ge {R} (a : pyval) (b : Q) : Py R bool :=
  match a with
  | VFloat q => ret (Qgeb q b)
  | VInt z => ret (Qgeb (inject_Z z) b)
  | _ => raise (TypeError "'>=' not supported between these instances")
  end.

(** [float - a]. *)
Definition py_sub_from {R} (b : Q) (a : pyval) : Py R pyval :=
  match a with
  | VFloat q => ret (VFloat (b - q))
  | VInt z => ret (VFloat (b - inject_Z z))
  | _ => raise (TypeError "unsupported operand type(s) for -")
  end.

(** [MT5Client.partial_close_trade(ticket, volume_percent)]. *)
Definition partial_close_trade (ticket : Z) (volume_percent : Q) : Py dict dict :=
  let* (init_success, init_msg) := call ensure_initialized in
  if negb init_success then
    return_ (failure ("MT5 connection failed: " +:+ init_msg))
  else
  try_except
    (c <- mt5_consts ;;
     if Qleb volume_percent 0 || Qgeb volume_percent 100 then
       return_ (failure ("volume_percent must be between 0 and 100, got " +:+
                         str_Q volume_percent))
     else
     positions <- mt5_positions_get ticket ;;
     match positions with
     | None | Some [] =>
         return_ (failure ("Position with ticket " +:+ str_Z ticket +:+ " not found"))
     | Some (position :: _) =>
     let volume_to_close := (pos_volume position * volume_percent / 100)%Q in
     symbol_info <- mt5_symbol_info (pos_symbol position) ;;
     match symbol_info with
     | None =>
         let* (error_code, error_desc) := mt5_last_error in
         return_ (failure ("Failed to get symbol info for " +:+ pos_symbol position +:+
                           ": " +:+ str_Z error_code +:+ " - " +:+ error_desc))
     | Some symbol_info =>
     result <- call_normalize_volume [AFloat volume_to_close; AInfo symbol_info] ;;
     let* (normalized_volume, vol_error) := unpack_pair result in
     if truthy vol_error then
       return_ [("success", VBool false); ("error", vol_error)]
     else
     full <- py_ge normalized_volume (pos_volume position) ;;
     if full : bool then
       r <- call (close_trade ticket) ;; return_ r
     else
     let order_type :=
       if (pos_type position =? ORDER_TYPE_BUY c)%Z then ORDER_TYPE_SELL c
       else ORDER_TYPE_BUY c in
     tick <- mt5_symbol_info_tick (pos_symbol position) ;;
     match tick with
     | None =>
         let* (error_code, error_desc) := mt5_last_error in
         return_ (failure ("Failed to get market price for " +:+ pos_symbol position +:+
                           ": " +:+ str_Z error_code))
     | Some tick =>
     let price :=
       if (pos_type position =? ORDER_TYPE_BUY c)%Z then tk_bid tick else tk_ask tick in
     let filling_modes_to_try := _get_filling_modes c (Some symbol_info) in
     let request_for filling_mode :=
       [("action", VInt (TRADE_ACTION_DEAL c));
        ("symbol", VStr (pos_symbol position));
        ("volume", normalized_volume);
        ("type", VInt order_type);
        ("position", VInt ticket);
        ("price", VFloat price);
        ("deviation", VInt 20);
        ("magic", VInt 123456);
        ("comment", VStr ("ProvidenceX-partial-close-" +:+ str_Q volume_percent +:+ "%"));
        ("type_time", VInt (ORDER_TIME_GTC c));
        ("type_filling", VInt filling_mode)] in
     let on_done filling_mode :=
       remaining <- py_sub_from (pos_volume position) normalized_volume ;;
       log_trade_success "partial_close_trade" (VInt ticket)
         [("symbol", VStr (pos_symbol position));
          ("volume_closed", normalized_volume);
          ("volume_percent", VFloat volume_percent);
          ("remaining_volume", remaining);
          ("close_price", VFloat price);
          ("filling_mode", VInt filling_mode)] ;;;
       remaining <- py_sub_from (pos_volume position) normalized_volume ;;
       ret [("success", VBool true);
            ("ticket", VInt ticket);
            ("volume_closed", normalized_volume);
            ("volume_percent", VFloat volume_percent);
            ("remaining_volume", remaining)] in
     last_error <-
       close_with_modes c "Partial close" "partial_close" ticket request_for on_done
         filling_modes_to_try None ;;
     return_ (failure ("Partial close failed: No supported filling mode found. Last error: " +:+
                       default "None" last_error))
     end end end)
    (fun e => return_ (failure ("Exception during partial_close_trade: " +:+ str_exn e))).

(** ** Cancelling a pending order *)


(** ** Request and response models (models.py) *)

(** [TradeResponse]; its [__init__] copies a truthy [ticket] into an unset
    [mt5_ticket]. *)
Record TradeResponse := {
  tr_success : bool;
  tr_ticket : option Z;
  tr_error : option string;
  tr_mt5_ticket : option Z
}.

Definition mk_TradeResponse (success : bool) (ticket : option Z) : TradeResponse :=
  {| tr_success := success; tr_ticket := ticket; tr_error := None;
     tr_mt5_ticket :=
       match ticket with
       | Some t => if (t =? 0)%Z then None else Some t
       | None => None
       end |}.

(** The body of a POST to the open-trade endpoint, before validation. *)
Record OpenTradeRequest := {
  symbol : string;
  direction : string;
  order_kind : string;
  lot_size : Q;
  entry_price : option Q;
  stop_loss : option Q;
  take_profit : option Q;
  strategy : string;
  strategy_id : option string;
  stop_loss_price : option Q;
  take_profit_price : option Q
}.

(** The stop-loss after [validate_fields]:
    [if self.stop_loss is None and self.stop_loss_price is not None:
       self.stop_loss = self.stop_loss_price]. *)
Definition mapped_stop_loss (r : OpenTradeRequest) : option Q :=
  match stop_loss r with
  | None => stop_loss_price r
  | Some sl => Some sl
  end.

(** A stop-loss that is absent or not positive. *)
Definition no_stop_loss (sl : option Q) : Prop :=
  match sl with
  | None => True
  | Some sl => (sl <= 0)%Q
  end.

(** Validation of [OpenTradeRequest]: the field constraints and validators,
    then [validate_fields].  A failure is the framework's 422 answer. *)
Definition validate_OpenTradeRequest (r : OpenTradeRequest) : exn + OpenTradeRequest :=
  if negb (String.eqb (order_kind r) "market" || String.eqb (order_kind r) "limit"
           || String.eqb (order_kind r) "stop") then
    inl (HTTPException 422 "order_kind: Input should be 'market', 'limit' or 'stop'")
  else if Qleb (lot_size r) 0 then
    inl (HTTPException 422 "lot_size: Input should be greater than 0")
  else if (String.eqb (order_kind r) "limit" || String.eqb (order_kind r) "stop")
          && match entry_price r with
             | None => true
             | Some p => Qleb p 0
             end then
    inl (HTTPException 422
           ("Value error, entry_price is required for " +:+ order_kind r +:+ " orders"))
  else
    let stop_loss := mapped_stop_loss r in
    let take_profit :=
      match take_profit r with
      | None => take_profit_price r
      | Some tp => Some tp
      end in
    let strategy :=
      if String.eqb (strategy r) "" then
        match strategy_id r with
        | Some s => if String.eqb s "" then "low" else s
        | None => "low"
        end
      else strategy r in
    inr {| symbol := upper (symbol r); direction := lower (direction r);
           order_kind := order_kind r; lot_size := lot_size r;
           entry_price := entry_price r; stop_loss := stop_loss;
           take_profit := take_profit; strategy := strategy;
           strategy_id := strategy_id r; stop_loss_price := stop_loss_price r;
           take_profit_price := take_profit_price r |}.



(** ** HTTP handlers (main.py) *)

(** [d[k]]. *)
Definition dict_item {R} (d : dict) (k : string) : Py R pyval :=
  match dict_get d k with
  | Some v => ret v
  | None => raise (KeyError k)
  end.

(** [v.lower()] on a dynamically typed [v]. *)
Definition py_lower {R} (v : pyval) : Py R string :=
  match v with
  | VStr s => ret (lower s)
  | _ => raise (AttributeError "object has no attribute 'lower'")
  end.

Definition create_task {R} (name : string) (args : dict) : Py R unit :=
  modify (add_task {| task_name := name; task_args := args |}).

Definition opt_int (o : option Z) : pyval :=
  match o with Some z => VInt z | None => VNone end.

(** [result.get('ticket')] as the ticket of a [TradeResponse]. *)
Definition as_ticket (v : pyval) : option Z :=
  match v with VInt z => Some z | _ => None end.

(** The state main.py is in once its lifespan has started:
    [mt5_client = MT5Client(config)],
    [order_event_emitter = OrderEventEmitter(config)] and a first
    [mt5_client.initialize()].  [net] is the network the emitter will meet. *)
Definition lifespan_startup (cfg : MT5Config) (net : nat -> post_outcome) (w : World) : World :=
  let w := set_client (Some {| config := cfg; _initialized := false;
                               _connected := false |}) w in
  let w :=
    set_emitter
      (Some {| webhook_url := trading_engine_order_webhook_url cfg;
               enabled := negb (String.eqb (trading_engine_order_webhook_url cfg) "");
               em_net := net; em_posted := []; em_slept := []; em_log := [] |}) w in
  snd (run initialize w).

(** [POST /api/v1/trades/open]: the handler [open_trade(request)]. *)
Definition main_open_trade (request : OpenTradeRequest) : Py TradeResponse TradeResponse :=
  w <- get_state ;;
  match mt5_client w with
  | None => raise (HTTPException 500 "MT5 client not initialized")
  | Some _ =>
  if match stop_loss request with
     | None => true
     | Some sl => Qleb sl 0
     end then
    raise (HTTPException 400
             ("Stop Loss is required but was not provided or invalid (SL=" +:+
              match stop_loss request with Some sl => str_Q sl | None => "None" end +:+
              "). Trade rejected for safety."))
  else
  let request_dict :=
    {| rq_symbol := symbol request;
       rq_direction := lower (direction request);
       rq_order_kind := Some (order_kind request);
       rq_lot_size := lot_size request;
       rq_entry_price := entry_price request;
       rq_stop_loss := stop_loss request;
       rq_stop_loss_price := None;
       rq_take_profit := take_profit request;
       rq_take_profit_price := None;
       rq_strategy := Some (strategy request) |} in
  result <- call (open_trade request_dict) ;;
  success <- dict_item result "success" ;;
  if truthy success then
    let ticket := dict_get_or result "ticket" VNone in
    w <- get_state ;;
    (match order_event_emitter w with
     | Some emitter =>
         if enabled emitter then
           create_task "emit_order_sent"
             [("ticket", ticket);
              ("symbol", VStr (symbol request));
              ("direction", VStr (lower (direction request)));
              ("volume", VFloat (lot_size request));
              ("entry_price", py_or (dict_get_or result "price" VNone)
                                    (opt_float (entry_price request)));
              ("order_kind", VStr (order_kind request))] ;;;
           if String.eqb (order_kind request) "market" then
             create_task "emit_position_opened"
               [("ticket", ticket);
                ("symbol", VStr (symbol request));
                ("direction", VStr (lower (direction request)));
                ("volume", VFloat (lot_size request));
                ("open_price", dict_get_or result "price" VNone);
                ("entry_price", dict_get_or result "price" VNone);
                ("sl_price", opt_float (stop_loss request));
                ("tp_price", opt_float (take_profit request));
                ("magic", VInt 123456);
                ("comment", VStr "ProvidenceX")]
           else ret tt
         else ret tt
     | None => ret tt
     end) ;;;
    return_ (mk_TradeResponse true (as_ticket ticket))
  else
    let error :=
      py_or (dict_get_or result "error" VNone)
            (dict_get_or result "error_message" (VStr "Unknown error")) in
    error_lower <- py_lower error ;;
    let status_code :=
      if contains "connection" error_lower || contains "initialize" error_lower
      then 500%Z else 400%Z in
    raise (HTTPException status_code
             match error with VStr s => s | _ => "" end)
  end.

(** The open-trade endpoint: validation of the body, then the handler. *)
Definition post_trades_open (body : OpenTradeRequest) : Py TradeResponse TradeResponse :=
  match validate_OpenTradeRequest body with
  | inl e => raise e
  | inr request => main_open_trade request
  end.






(** [try: body except HTTPException: raise except Exception as e: handler e]. *)
Definition try_except_reraise_http {S R A} (body : M S R A) (handler : exn -> M S R A)
  : M S R A :=
  try_except body (fun e =>
    match e with
    | HTTPException _ _ => raise e
    | _ => handler e
    end).

(** The global accumulator object; an attribute of [None] cannot be read. *)
Definition the_accumulator {R} : Py R OrderFlowAccumulator :=
  fun w =>
    match orderflow_accumulator w with
    | Some acc => (Val acc, w)
    | None => (Raise (AttributeError "'NoneType' object has no attribute"), w)
    end.

(** The neutral answer of the order-flow endpoint. *)
Definition neutral_order_flow (resolved_symbol : string) (utcnow : Z) : dict :=
  [("symbol", VStr resolved_symbol);
   ("timestamp", VStr (isoformat utcnow +:+ "Z"));
   ("bid_volume", VFloat 0);
   ("ask_volume", VFloat 0);
   ("delta", VFloat 0);
   ("delta_sign", VStr "neutral");
   ("imbalance_buy_pct", VFloat 50);
   ("imbalance_sell_pct", VFloat 50);
   ("large_orders", VList [])].

(** [GET /api/v1/order-flow/{symbol}]: the handler [get_order_flow(symbol)].
    [datetime.fromtimestamp(tick.time)] is the tick's own count of seconds. *)
Definition main_get_order_flow (symbol : string) : Py dict dict :=
  try_except_reraise_http
    (w <- get_state ;;
     match mt5_client w with
     | None => raise (HTTPException 500 "MT5 client not initialized")
     | Some _ =>
     try_except
       (let* (init_success, init_msg) := call ensure_initialized in
        if negb init_success then
          raise (HTTPException 502 ("MT5 connection failed: " +:+ init_msg))
        else ret tt)
       (fun conn_error =>
          raise (HTTPException 502 ("MT5 connection error: " +:+ str_exn conn_error))) ;;;
     resolved_symbol <-
       try_except_reraise_http
         (let* (symbol_valid, resolved_symbol, symbol_msg) :=
            call (validate_symbol symbol) in
          if negb symbol_valid then
            raise (HTTPException 404
                     (if String.eqb symbol_msg "" then
                        "Symbol " +:+ symbol +:+ " not found in MT5"
                      else symbol_msg))
          else ret resolved_symbol)
         (fun sym_error =>
            raise (HTTPException 400
                     ("Symbol validation failed: " +:+ str_exn sym_error))) ;;
     w <- get_state ;;
     match orderflow_accumulator w with
     | None => return_ (neutral_order_flow resolved_symbol (utcnow w))
     | Some _ =>
     try_except
       (tick <- mt5_symbol_info_tick resolved_symbol ;;
        match tick with
        | Some tick =>
            let bid := tk_bid tick in
            let ask := tk_ask tick in
            let volume := attr_or_Z (tk_volume tick) 1 in
            w <- get_state ;;
            let tick_time := if (tk_time tick =? 0)%Z then utcnow w else tk_time tick in
            acc <- the_accumulator ;;
            modify (set_accumulator
                      (Some (add_tick acc resolved_symbol bid ask volume
                               (Some tick_time) (now w))))
        | None => ret tt
        end)
       (fun tick_error => ret tt) ;;;
     try_except
       (acc <- the_accumulator ;;
        w <- get_state ;;
        match compute_order_flow acc resolved_symbol None (now w) with
        | None => return_ (neutral_order_flow resolved_symbol (utcnow w))
        | Some order_flow => return_ order_flow
        end)
       (fun flow_error =>
          w <- get_state ;;
          return_ (neutral_order_flow resolved_symbol (utcnow w)))
     end
     end)
    (fun e => raise (HTTPException 500 ("Internal server error: " +:+ str_exn e))).

(** The sleeps taken by [remaining] attempts that all fail, the first of them
    numbered [attempt]: [2 ** attempt] seconds after every attempt but the
    last of [retry_count]. *)
Fixpoint sleeps_from (retry_count : Z) (attempt : Z) (remaining : nat) : list Z :=
  match remaining with
  | O => []
  | S remaining' =>
      (if (attempt <? retry_count - 1)%Z then [2 ^ attempt]%Z else []) ++
      sleeps_from retry_count (attempt + 1) remaining'
  end.

(** ** Specifications of statements *)

(** From any state satisfying the invariant [I], the statement [m] leaves a
    state satisfying [I]; a value it goes on with satisfies [V], a value it
    returns from the function satisfies [Rp], an exception it raises
    satisfies [E]. *)
Definition triple {S R A} (I : S -> Prop) (m : M S R A)
    (V : A -> Prop) (Rp : R -> Prop) (E : exn -> Prop) : Prop :=
  forall s, I s ->
    I (snd (m s)) /\
    match fst (m s) with
    | Val a => V a
    | Ret r => Rp r
    | Raise e => E e
    end.

Definition anything {A} : A -> Prop := fun _ => True.
Definition nothing {A} : A -> Prop := fun _ => False.

(** The client object exists ([mt5_client is not None]). *)
Definition has_client (w : World) : Prop := mt5_client w <> None.

(** The two shapes of a result the HTTP handlers can read: a success flag
    that is set, or a failure carrying a message. *)
Definition readable_result (d : dict) : Prop :=
  dict_get d "success" = Some (VBool true) \/ exists msg, d = failure msg.


(** ** Scenarios

    Concrete terminals, symbols and requests at which the code is evaluated
    below. *)

(** The constants as the MetaTrader5 package defines them. *)
Definition mt5_package : Mt5Const :=
  {| TRADE_ACTION_DEAL := 1; TRADE_ACTION_PENDING := 5; TRADE_ACTION_REMOVE := 8;
     ORDER_TYPE_BUY := 0; ORDER_TYPE_SELL := 1; ORDER_TYPE_BUY_LIMIT := 2;
     ORDER_TYPE_SELL_LIMIT := 3; ORDER_TYPE_BUY_STOP := 4; ORDER_TYPE_SELL_STOP := 5;
     ORDER_FILLING_FOK := 0; ORDER_FILLING_IOC := 1; ORDER_FILLING_RETURN := 2;
     ORDER_TIME_GTC := 0; TRADE_RETCODE_DONE := 10009 |}.

(** A symbol with volume min=0.01, max=50, step=0.01, a point of 0.00001 and
    a stop level of 10 points. *)
Definition eurusd : SymbolInfo :=
  {| si_name := "EURUSD"; volume_min := Some (1 # 100); volume_max := Some 50%Q;
     volume_step := Some (1 # 100); point := 1 # 100000;
     trade_stops_level := Some 10%Z; filling_mode := 3; visible := true |}.

(** A symbol whose maximum volume (1.07) is not a multiple of its step (0.1). *)
Definition off_grid_symbol : SymbolInfo :=
  {| si_name := "XAUUSD"; volume_min := Some (1 # 100); volume_max := Some (107 # 100);
     volume_step := Some (1 # 10); point := 1 # 100;
     trade_stops_level := Some 0%Z; filling_mode := 3; visible := true |}.

(** ** Feeding the accumulator *)

(** A tick as it reaches [add_tick], with its timestamp. *)
Record TickInput := {
  in_symbol : string;
  in_bid : Q;
  in_ask : Q;
  in_volume : Z;
  in_time : Z
}.

Definition tick_of (t : TickInput) : TickData :=
  mk_TickData (in_symbol t) (in_bid t) (in_ask t) (in_volume t) (in_time t).

(** One [add_tick] call per tick, in order. *)
Definition add_ticks (acc : OrderFlowAccumulator) (ticks : list TickInput)
  : OrderFlowAccumulator :=
  fold_left (fun acc t =>
               add_tick acc (in_symbol t) (in_bid t) (in_ask t) (in_volume t)
                 (Some (in_time t)) (in_time t))
            ticks acc.

(** The ticks of one symbol among those fed, as buffer entries. *)
Definition fed_for (symbol : string) (ticks : list TickInput) : list TickData :=
  map tick_of (filter (fun t => in_symbol t = symbol) ticks).

(** The buffer of a symbol; a symbol never seen has none, read as empty. *)
Definition buffer_of (acc : OrderFlowAccumulator) (symbol : string) : list TickData :=
  default [] (tick_buffers acc !! symbol).

(** A buffer in time order: no entry is older than one before it. *)
Definition time_ordered (buf : list TickData) : Prop :=
  StronglySorted (fun a b => (td_time a <= td_time b)%Z) buf.

(** Five EURUSD ticks at seconds 0, 10, 50, 55 and 58. *)
Definition stale_ticks : list TickInput :=
  map (fun time => {| in_symbol := "EURUSD"; in_bid := 11 # 10; in_ask := 11001 # 10000;
                      in_volume := 1; in_time := time |})
      [0; 10; 50; 55; 58]%Z.

(** The accumulator of main.py (60 seconds of lookback) after those ticks. *)
Definition stale_acc : OrderFlowAccumulator := add_ticks (new_accumulator 60) stale_ticks.

(** Thirteen EURUSD ticks, ten seconds apart, from second 0 to second 120. *)
Definition spread_ticks : list TickInput :=
  map (fun time => {| in_symbol := "EURUSD"; in_bid := 11 # 10; in_ask := 11001 # 10000;
                      in_volume := 1; in_time := time |})
      [0; 10; 20; 30; 40; 50; 60; 70; 80; 90; 100; 110; 120]%Z.

Definition demo_account : AccountInfo := {| acc_login := 5001; acc_server := "Demo" |}.

Definition demo_config : MT5Config :=
  {| login := 0; password := ""; server := ""; path := None;
     trading_engine_order_webhook_url := "" |}.

(** A terminal that is logged in, knows EURUSD (bid 1.10000, ask 1.10010) and
    answers [order_send] with [replies]. *)
Definition demo_terminal (replies : list (option OrderSendResult)) : Terminal :=
  {| mt5 := mt5_package; t_path_exists := false; t_initialize := true; t_login := true;
     t_last_error := (1%Z, "Success"); t_account := Some demo_account;
     t_symbols := [eurusd]; t_select_ok := [];
     t_ticks := [("EURUSD", {| tk_bid := 11 # 10; tk_ask := 11001 # 10000;
                               tk_volume := Some 1%Z; tk_time := 100 |})];
     t_positions := Some []; t_orders := Some [];
     t_replies := replies; t_raises := []; t_sent := []; t_calls := [] |}.

(** The service, started and connected, at second [100] of both clocks. *)
Definition demo_world (t : Terminal) (acc : OrderFlowAccumulator) : World :=
  {| term := t;
     mt5_client := Some {| config := demo_config; _initialized := true;
                           _connected := true |};
     order_event_emitter := None;
     orderflow_accumulator := Some acc;
     log := []; tasks := []; now := 100; utcnow := 100 |}.

(** The terminal has no fresh tick to give, and the accumulator holds the
    five stale ticks. *)
Definition stale_world : World :=
  demo_world
    {| mt5 := mt5_package; t_path_exists := false; t_initialize := true; t_login := true;
       t_last_error := (1%Z, "Success"); t_account := Some demo_account;
       t_symbols := [eurusd]; t_select_ok := []; t_ticks := [];
       t_positions := Some []; t_orders := Some [];
       t_replies := []; t_raises := []; t_sent := []; t_calls := [] |}
    stale_acc.

(** A market buy of 0.10 lots of EURUSD with neither stop-loss nor
    take-profit. *)
Definition naked_buy : OpenTradeDict :=
  {| rq_symbol := "EURUSD"; rq_direction := "buy"; rq_order_kind := Some "market";
     rq_lot_size := 1 # 10; rq_entry_price := None;
     rq_stop_loss := None; rq_stop_loss_price := None;
     rq_take_profit := None; rq_take_profit_price := None;
     rq_strategy := Some "low" |}.

(** The same buy with a stop-loss at 1.09 and a take-profit at 1.12. *)
Definition protected_buy : OpenTradeDict :=
  {| rq_symbol := "EURUSD"; rq_direction := "buy"; rq_order_kind := Some "market";
     rq_lot_size := 1 # 10; rq_entry_price := None;
     rq_stop_loss := Some (109 # 100); rq_stop_loss_price := None;
     rq_take_profit := Some (112 # 100); rq_take_profit_price := None;
     rq_strategy := Some "low" |}.

Definition order_done (ticket : Z) : option OrderSendResult :=
  Some {| retcode := 10009; order := ticket; comment := "Request executed" |}.

Definition invalid_stops : option OrderSendResult :=
  Some {| retcode := 10016; order := 0; comment := "Invalid stops" |}.

(** The terminal accepts the first submission. *)
Definition accepting_world : World :=
  demo_world (demo_terminal [order_done 42]) (new_accumulator 60).

(** The terminal rejects the first submission with "invalid stops" and
    accepts the second. *)
Definition invalid_stops_world : World :=
  demo_world (demo_terminal [invalid_stops; order_done 43]) (new_accumulator 60).

(** What [open_trade] would hand to the submission loop for [protected_buy]
    had the volume been normalized to 0.10. *)
Definition protected_submission : Submission :=
  {| sb_symbol := "EURUSD"; sb_direction := "buy"; sb_order_kind := "market";
     sb_strategy := "low"; sb_original_volume := 1 # 10;
     sb_normalized_volume := VFloat (1 # 10); sb_symbol_info := eurusd;
     sb_order_type := ORDER_TYPE_BUY mt5_package;
     sb_entry_price_used := 11001 # 10000;
     sb_action := TRADE_ACTION_DEAL mt5_package;
     sb_filling_modes_to_try := _get_filling_modes mt5_package (Some eurusd) |}.

(** A symbol with volume min=0.01, max=50 and step=0.1. *)
Definition gold : SymbolInfo :=
  {| si_name := "GOLD"; volume_min := Some (1 # 100); volume_max := Some 50%Q;
     volume_step := Some (1 # 10); point := 1 # 100;
     trade_stops_level := Some 0%Z; filling_mode := 3; visible := true |}.

(** An open buy of 0.10 lots of GOLD, ticket 7. *)
Definition gold_position : Position :=
  {| pos_ticket := 7; pos_symbol := "GOLD"; pos_type := 0; pos_volume := 1 # 10;
     pos_price_open := 2000; pos_sl := 0; pos_tp := 0 |}.

(** The terminal holds that position and accepts whatever is submitted. *)
Definition gold_world : World :=
  demo_world
    {| mt5 := mt5_package; t_path_exists := false; t_initialize := true; t_login := true;
       t_last_error := (1%Z, "Success"); t_account := Some demo_account;
       t_symbols := [gold]; t_select_ok := [];
       t_ticks := [("GOLD", {| tk_bid := 2001; tk_ask := 20012 # 10;
                               tk_volume := Some 1%Z; tk_time := 100 |})];
       t_positions := Some [gold_position]; t_orders := Some [];
       t_replies := [order_done 44; order_done 45]; t_raises := [];
       t_sent := []; t_calls := [] |}
    (new_accumulator 60).


(** The body of a market buy of 0.10 lots of EURUSD that names no stop-loss. *)
Definition unprotected_body : OpenTradeRequest :=
  {| symbol := "EURUSD"; direction := "buy"; order_kind := "market"; lot_size := 1 # 10;
     entry_price := None; stop_loss := None; take_profit := None; strategy := "low";
     strategy_id := None; stop_loss_price := None; take_profit_price := None |}.

(** Every POST is answered with HTTP 500. *)
Definition always_500 : nat -> post_outcome :=
  fun _ => PostStatus 500 (inr "Internal Server Error").

Definition failing_emitter : Emitter :=
  {| webhook_url := "http://localhost:3040/api/v1/order-events"; enabled := true;
     em_net := always_500; em_posted := []; em_slept := []; em_log := [] |}.

Definition order_sent_event : dict :=
  [("source", VStr "mt5-connector"); ("event_type", VStr "order_sent");
   ("timestamp", VStr "100Z"); ("ticket", VInt 42); ("symbol", VStr "EURUSD");
   ("direction", VStr "buy"); ("volume", VFloat (1 # 10))].

(** A POST that does not succeed: any status but 200, a timeout, or an error
    of the transport. *)
Definition failing (o : post_outcome) : Prop :=
  match o with
  | PostStatus status _ => status <> 200%Z
  | PostTimeout | PostError _ => True
  end.

(** ** Clearing the accumulator (orderflow_accumulator.py) *)

(** [clear_symbol(symbol)]: [del self.tick_buffers[symbol]] when the symbol
    has a buffer. *)
Definition clear_symbol (self : OrderFlowAccumulator) (symbol : string)
  : OrderFlowAccumulator :=
  match tick_buffers self !! symbol with
  | Some _ =>
      {| lookback_seconds := lookback_seconds self;
         tick_buffers := delete symbol (tick_buffers self);
         large_order_multiplier := large_order_multiplier self |}
  | None => self
  end.

(** [clear_all()]: [self.tick_buffers.clear()]. *)
Definition clear_all (self : OrderFlowAccumulator) : OrderFlowAccumulator :=
  {| lookback_seconds := lookback_seconds self;
     tick_buffers := ∅;
     large_order_multiplier := large_order_multiplier self |}.

(** [get_accumulator()]: the module-level instance, created with 60 seconds
    of lookback on first use; the pair (instance, [_global_accumulator]
    afterwards). *)
Definition get_accumulator (_global_accumulator : option OrderFlowAccumulator)
  : OrderFlowAccumulator * option OrderFlowAccumulator :=
  match _global_accumulator with
  | None => let acc := new_accumulator 60 in (acc, Some acc)
  | Some acc => (acc, Some acc)
  end.

(** The sum of [t.volume or 1] over a list of ticks. *)
Definition total_volume_or_1 (ticks : list TickData) : Z :=
  fold_right Z.add 0%Z (map volume_or_1 ticks).

(** The ticks of a symbol's buffer that lie within the window read at [now]. *)
Definition recent_ticks (acc : OrderFlowAccumulator) (symbol : string)
    (window_seconds : option Z) (now : Z) : list TickData :=
  filter (fun t => (now - attr_or_Z window_seconds (lookback_seconds acc) <= td_time t)%Z)
         (buffer_of acc symbol).

(** A float field of a result dictionary. *)
Definition float_field (d : dict) (k : string) : option Q :=
  match dict_get d k with
  | Some (VFloat q) => Some q
  | _ => None
  end.

Definition str_field (d : dict) (k : string) : option string :=
  match dict_get d k with
  | Some (VStr s) => Some s
  | _ => None
  end.

(** The sleeps of [n] attempts that fail and are followed by another one,
    the first of them numbered [attempt]: [2 ** attempt], [2 ** (attempt + 1)],
    and so on. *)
Definition backoff_sleeps (attempt : Z) (n : nat) : list Z :=
  map (fun i => (2 ^ (attempt + Z.of_nat i))%Z) (seq 0 n).
(** ** Invariants and result shapes for the client operations *)

(** The client object exists and nothing has been submitted to the terminal
    beyond [sent]. *)
Definition quiet (sent : list dict) (w : World) : Prop :=
  has_client w /\ t_sent (term w) = sent.

(** The two shapes of a failure the client returns: a bare message, or the
    standardized error response. *)
Definition failed_result (d : dict) : Prop :=
  (exists msg, d = failure msg) \/
  (exists code msg symbol direction order_kind volume,
     d = _make_error_response code msg symbol direction order_kind volume).
(** An [HTTPException] with one of the given status codes. *)
Definition http_with (codes : list Z) (e : exn) : Prop :=
  match e with
  | HTTPException status_code _ => In status_code codes
  | _ => False
  end.

(** An invariant of the service that holds whatever is logged, whatever the
    flags of the client object become, and whatever changes in the terminal
    apart from its constants, the names of its symbols, its positions and the
    requests it was sent. *)
Record stable (I : World -> Prop) : Prop := {
  stable_client : forall w, I w -> has_client w;
  stable_log : forall r w, I w -> I (add_log r w);
  stable_set_client : forall c w, I w -> I (set_client (Some c) w);
  stable_term : forall t' w, I w ->
    mt5 t' = mt5 (term w) ->
    map si_name (t_symbols t') = map si_name (t_symbols (term w)) ->
    t_positions t' = t_positions (term w) ->
    t_sent t' = t_sent (term w) -> I (set_term t' w)
}.

(** The answer of a native function that changes neither the constants, nor
    the names of the symbols, nor the positions, nor the requests sent. *)
Definition reads_only {A} (answer : Terminal -> A * Terminal) : Prop :=
  forall t,
    mt5 (snd (answer t)) = mt5 t /\
    map si_name (t_symbols (snd (answer t))) = map si_name (t_symbols t) /\
    t_positions (snd (answer t)) = t_positions t /\
    t_sent (snd (answer t)) = t_sent t.

(** ** Closing orders and the close endpoint *)

(** The request [close_trade] builds for a position: the opposite order
    type, the whole volume, the bid for a buy and the ask for a sell. *)
Definition closing_request (c : Mt5Const) (position : Position) (ticket : Z)
    (tick : Tick) (filling_mode : Z) : dict :=
  [("action", VInt (TRADE_ACTION_DEAL c));
   ("symbol", VStr (pos_symbol position));
   ("volume", VFloat (pos_volume position));
   ("type", VInt (if (pos_type position =? ORDER_TYPE_BUY c)%Z then ORDER_TYPE_SELL c
                  else ORDER_TYPE_BUY c));
   ("position", VInt ticket);
   ("price", VFloat (if (pos_type position =? ORDER_TYPE_BUY c)%Z then tk_bid tick
                     else tk_ask tick));
   ("deviation", VInt 20);
   ("magic", VInt 123456);
   ("comment", VStr "ProvidenceX-close");
   ("type_time", VInt (ORDER_TIME_GTC c));
   ("type_filling", VInt filling_mode)].

(** [positions_get(ticket=ticket)[0]], when there is one. *)
Definition position_with (ticket : Z) (positions : option (list Position))
  : option Position :=
  match option_map (filter (fun p => pos_ticket p = ticket)) positions with
  | Some (position :: _) => Some position
  | _ => None
  end.

(** A request that closes the position held under [ticket]. *)
Definition closes (c : Mt5Const) (positions : option (list Position)) (ticket : Z)
    (request : dict) : Prop :=
  exists position tick filling_mode,
    position_with ticket positions = Some position /\
    request = closing_request c position ticket tick filling_mode.

(** Since [sent] the terminal was sent closing orders for [ticket] only. *)
Definition closing_only (c : Mt5Const) (positions : option (list Position))
    (ticket : Z) (sent : list dict) (w : World) : Prop :=
  has_client w /\ mt5 (term w) = c /\ t_positions (term w) = positions /\
  exists requests,
    t_sent (term w) = sent ++ requests /\ Forall (closes c positions ticket) requests.

(** What [close_trade] returns: a set success flag or a failure with a
    message, the latter when no position is held under the ticket. *)
Definition close_result (positions : option (list Position)) (ticket : Z)
    (d : dict) : Prop :=
  readable_result d /\
  (position_with ticket positions = None -> exists msg, d = failure msg).
(** The body of a POST to the close endpoint (models.py, [CloseTradeRequest]). *)
Record CloseTradeRequest := {
  ct_ticket : Z;
  ct_mt5_ticket : option Z;
  ct_reason : option string
}.

(** [CloseTradeRequest.validate_ticket]. *)
Definition validate_CloseTradeRequest (r : CloseTradeRequest) : exn + CloseTradeRequest :=
  let ticket :=
    match ct_mt5_ticket r with
    | Some t => if (ct_ticket r =? 0)%Z then t else ct_ticket r
    | None => ct_ticket r
    end in
  if (ticket <=? 0)%Z then
    inl (HTTPException 422
           "Value error, ticket must be a positive integer (or provide mt5_ticket)")
  else inr {| ct_ticket := ticket; ct_mt5_ticket := ct_mt5_ticket r;
              ct_reason := ct_reason r |}.

(** The ticket the close handler acts on:
    [if request.mt5_ticket and ticket != request.mt5_ticket: ticket = request.mt5_ticket]. *)
Definition close_ticket (request : CloseTradeRequest) : Z :=
  match ct_mt5_ticket request with
  | Some t =>
      if negb (t =? 0)%Z && negb (ct_ticket request =? t)%Z then t
      else ct_ticket request
  | None => ct_ticket request
  end.

(** [POST /api/v1/trades/close]: the handler [close_trade(request)] of main.py. *)
Definition main_close_trade (request : CloseTradeRequest)
  : Py TradeResponse TradeResponse :=
  w <- get_state ;;
  match mt5_client w with
  | None => raise (HTTPException 500 "MT5 client not initialized")
  | Some _ =>
  let ticket := close_ticket request in
  result <- call (close_trade ticket) ;;
  success <- dict_item result "success" ;;
  if truthy success then
    return_ (mk_TradeResponse true None)
  else
    let error_msg := dict_get_or result "error" (VStr "Unknown error") in
    error_lower <- py_lower error_msg ;;
    let status_code :=
      if contains "not found" error_lower then 404%Z
      else if contains "connection" error_lower then 500%Z
      else 400%Z in
    raise (HTTPException status_code
             match error_msg with VStr s => s | _ => "" end)
  end.

(** The close endpoint: validation of the body, then the handler. *)
Definition post_trades_close (body : CloseTradeRequest) : Py TradeResponse TradeResponse :=
  match validate_CloseTradeRequest body with
  | inl e => raise e
  | inr request => main_close_trade request
  end.

(** ** Resolving symbols *)

(** The names [validate_symbol] tries for a symbol: the symbol in upper case,
    its aliases, and the upper-case symbol with each broker suffix. *)
Definition symbol_candidates (symbol : string) : list string :=
  ([upper symbol] ++ default [] (symbol_aliases (upper symbol))) ++
  map (fun suffix => upper symbol +:+ suffix) common_suffixes.

(** The client object exists and the terminal knows the symbols [names]. *)
Definition knows_symbols (names : list string) (w : World) : Prop :=
  has_client w /\ map si_name (t_symbols (term w)) = names.

(** What [validate_symbol] returns for [symbol] on a terminal that knows
    [names]. *)
Definition resolved (symbol : string) (names : list string)
    (r : bool * string * string) : Prop :=
  let '(valid, actual_symbol, _) := r in
  if valid then In actual_symbol (symbol_candidates symbol) /\ In actual_symbol names
  else actual_symbol = symbol.

(** [MT5Client.is_connected]. *)
Definition is_connected : Py bool bool :=
  try_except
    (self <- get_self ;;
     if negb (_initialized self) || negb (_connected self) then return_ false
     else
       account_info <- mt5_account_info ;;
       return_ (match account_info with Some _ => true | None => false end))
    (fun e => return_ false).

(** The flags of the client object, when there is one. *)
Definition client_flags (w : World) : option (bool * bool) :=
  option_map (fun c => (_initialized c, _connected c)) (mt5_client w).

(** ** Modifying the stops of a position (mt5_client.py) *)

(** [x if x else d] on an optional float: [None] and zero are falsy. *)
Definition float_or_else (x : option Q) (d : Q) : Q :=
  match x with
  | Some q => if Qeqb q 0 then d else q
  | None => d
  end.

(** The stops [modify_trade] settles on for a position: the requested ones,
    the current ones where none is requested, adjusted against the open
    price when at least one is requested. *)
Definition modified_stops (symbol_info : SymbolInfo) (c : Mt5Const) (position : Position)
    (stop_loss take_profit : option Q) : option Q * option Q :=
  let new_sl := match stop_loss with Some sl => sl | None => pos_sl position end in
  let new_tp := match take_profit with Some tp => tp | None => pos_tp position end in
  match stop_loss, take_profit with
  | None, None => (Some new_sl, Some new_tp)
  | _, _ =>
      _adjust_stop_loss_take_profit symbol_info (pos_price_open position)
        (Some new_sl) (Some new_tp)
        (if (pos_type position =? ORDER_TYPE_BUY c)%Z then "buy" else "sell")
  end.

(** The request [modify_trade] builds. *)
Definition modify_request (TRADE_ACTION_SLTP : Z) (position : Position) (ticket : Z)
    (new_sl new_tp : option Q) : dict :=
  [("action", VInt TRADE_ACTION_SLTP);
   ("symbol", VStr (pos_symbol position));
   ("position", VInt ticket);
   ("sl", VFloat (float_or_else new_sl (pos_sl position)));
   ("tp", VFloat (float_or_else new_tp (pos_tp position)))].

(** [MT5Client.modify_trade(ticket, stop_loss, take_profit)].  The constant
    [mt5.TRADE_ACTION_SLTP] of the MetaTrader5 package is a parameter. *)
Definition modify_trade (TRADE_ACTION_SLTP : Z) (ticket : Z)
    (stop_loss take_profit : option Q) : Py dict dict :=
  let* (init_success, init_msg) := call ensure_initialized in
  if negb init_success then
    return_ (failure ("MT5 connection failed: " +:+ init_msg))
  else
  try_except
    (c <- mt5_consts ;;
     positions <- mt5_positions_get ticket ;;
     match positions with
     | None | Some [] =>
         return_ (failure ("Position with ticket " +:+ str_Z ticket +:+ " not found"))
     | Some (position :: _) =>
     symbol_info <- mt5_symbol_info (pos_symbol position) ;;
     match symbol_info with
     | None =>
         let* (error_code, error_desc) := mt5_last_error in
         return_ (failure ("Failed to get symbol info for " +:+ pos_symbol position +:+
                           ": " +:+ str_Z error_code +:+ " - " +:+ error_desc))
     | Some symbol_info =>
     let '(new_sl, new_tp) :=
       modified_stops symbol_info c position stop_loss take_profit in
     result <- mt5_order_send
                 (modify_request TRADE_ACTION_SLTP position ticket new_sl new_tp) ;;
     match result with
     | None =>
         let* (error_code, error_desc) := mt5_last_error in
         log_mt5_error "order_send (modify)" error_code error_desc
           [("ticket", VInt ticket)] ;;;
         return_ (failure ("Modify order failed: " +:+ error_desc +:+ " (code: " +:+
                           str_Z error_code +:+ ")"))
     | Some result =>
         if (retcode result =? TRADE_RETCODE_DONE c)%Z then
           log_trade_success "modify_trade" (VInt ticket)
             [("symbol", VStr (pos_symbol position));
              ("new_sl", opt_float new_sl);
              ("new_tp", opt_float new_tp)] ;;;
           return_ [("success", VBool true);
                    ("ticket", VInt ticket);
                    ("new_sl", opt_float new_sl);
                    ("new_tp", opt_float new_tp)]
         else
           log_mt5_error "order_send (modify)" (retcode result)
             (comment_or result "Unknown error") [("ticket", VInt ticket)] ;;;
           return_ (failure ("Modify failed: " +:+ comment result +:+ " (code: " +:+
                             str_Z (retcode result) +:+ ")"))
     end
     end
     end)
    (fun e => return_ (failure ("Exception during modify_trade: " +:+ str_exn e))).

(** ** The partial-close endpoint (models.py, main.py) *)

(** The body of a POST to the partial-close endpoint. *)
Record PartialCloseRequest := {
  pc_ticket : Z;
  pc_volume_percent : Q
}.

(** Validation of [PartialCloseRequest]: [volume_percent] is [gt=0, lt=100]. *)
Definition validate_PartialCloseRequest (r : PartialCloseRequest)
  : exn + PartialCloseRequest :=
  if Qleb (pc_volume_percent r) 0 then
    inl (HTTPException 422 "volume_percent: Input should be greater than 0")
  else if Qgeb (pc_volume_percent r) 100 then
    inl (HTTPException 422 "volume_percent: Input should be less than 100")
  else inr r.

(** [POST /api/v1/trades/partial-close]: the handler
    [partial_close_trade(request)] of main.py. *)
Definition main_partial_close_trade (request : PartialCloseRequest)
  : Py TradeResponse TradeResponse :=
  w <- get_state ;;
  match mt5_client w with
  | None => raise (HTTPException 500 "MT5 client not initialized")
  | Some _ =>
  result <- call (partial_close_trade (pc_ticket request) (pc_volume_percent request)) ;;
  success <- dict_item result "success" ;;
  if truthy success then
    w <- get_state ;;
    (match order_event_emitter w with
     | Some emitter =>
         if enabled emitter then
           c <- mt5_consts ;;
           positions <- mt5_positions_get (pc_ticket request) ;;
           match positions with
           | Some (pos :: _) =>
               create_task "emit_partial_close"
                 [("ticket", VInt (pc_ticket request));
                  ("symbol", VStr (pos_symbol pos));
                  ("direction",
                   VStr (if (pos_type pos =? ORDER_TYPE_BUY c)%Z then "buy" else "sell"));
                  ("volume_closed", dict_get_or result "volume_closed" VNone);
                  ("volume_percent", VFloat (pc_volume_percent request));
                  ("remaining_volume", dict_get_or result "remaining_volume" VNone)]
           | _ => ret tt
           end
         else ret tt
     | None => ret tt
     end) ;;;
    return_ (mk_TradeResponse true (Some (pc_ticket request)))
  else
    let error_msg := dict_get_or result "error" (VStr "Unknown error") in
    raise (HTTPException 400 match error_msg with VStr s => s | _ => "" end)
  end.

(** The partial-close endpoint: validation of the body, then the handler. *)
Definition post_trades_partial_close (body : PartialCloseRequest)
  : Py TradeResponse TradeResponse :=
  match validate_PartialCloseRequest body with
  | inl e => raise e
  | inr request => main_partial_close_trade request
  end.



(* ================================================================== *)
(** * Part II: properties                                              *)
(* ================================================================== *)

(** ** Comparisons and rounding *)

Lemma Qltb_lt x y : Qltb x y = true <-> (x < y)%Q.
Proof.
  unfold Qltb. rewrite Qlt_alt. destruct (x ?= y)%Q; split; congruence.
Qed.

Lemma Qltb_ge x y : Qltb x y = false <-> (y <= x)%Q.
Proof.
  unfold Qltb. destruct (x ?= y)%Q eqn:E; split; intros H; try congruence.
  - apply Qeq_alt in E. rewrite E. apply Qle_refl.
  - apply Qlt_alt in E. exfalso. apply (Qlt_not_le _ _ E H).
  - apply Qgt_alt in E. apply Qlt_le_weak. exact E.
Qed.

Lemma Qleb_le x y : Qleb x y = true <-> (x <= y)%Q.
Proof.
  unfold Qleb. rewrite Qle_alt. destruct (x ?= y)%Q; split; congruence.
Qed.

Lemma Qleb_gt x y : Qleb x y = false <-> (y < x)%Q.
Proof.
  unfold Qleb. destruct (x ?= y)%Q eqn:E; split; intros H; try congruence.
  - apply Qeq_alt in E. rewrite E in H. exfalso. apply (Qlt_irrefl _ H).
  - apply Qlt_alt in E. exfalso. apply (Qlt_irrefl x). eapply Qlt_trans; eauto.
  - apply Qgt_alt in E. exact E.
Qed.

Lemma Qgtb_gt x y : Qgtb x y = true <-> (y < x)%Q.
Proof. apply Qltb_lt. Qed.
Lemma Qgtb_le x y : Qgtb x y = false <-> (x <= y)%Q.
Proof. apply Qltb_ge. Qed.
Lemma Qgeb_ge x y : Qgeb x y = true <-> (y <= x)%Q.
Proof. apply Qleb_le. Qed.
Lemma Qgeb_lt x y : Qgeb x y = false <-> (x < y)%Q.
Proof. apply Qleb_gt. Qed.

Lemma Qeqb_eq x y : Qeqb x y = true <-> (x == y)%Q.
Proof.
  unfold Qeqb. rewrite Qeq_alt. destruct (x ?= y)%Q; split; congruence.
Qed.

Ltac reflect_Q :=
  repeat match goal with
  | H : Qltb _ _ = true |- _ => apply Qltb_lt in H
  | H : Qltb _ _ = false |- _ => apply Qltb_ge in H
  | H : Qleb _ _ = true |- _ => apply Qleb_le in H
  | H : Qleb _ _ = false |- _ => apply Qleb_gt in H
  | H : Qgtb _ _ = true |- _ => apply Qgtb_gt in H
  | H : Qgtb _ _ = false |- _ => apply Qgtb_le in H
  | H : Qgeb _ _ = true |- _ => apply Qgeb_ge in H
  | H : Qgeb _ _ = false |- _ => apply Qgeb_lt in H
  | H : Qeqb _ _ = true |- _ => apply Qeqb_eq in H
  end.

(** [round] moves a number by at most one half. *)
Lemma py_round_bounds x :
  (x - (1 # 2) <= inject_Z (py_round x) <= x + (1 # 2))%Q.
Proof.
  unfold py_round.
  pose proof (Qfloor_le x) as Hlo.
  pose proof (Qlt_floor x) as Hhi.
  rewrite inject_Z_plus in Hhi. change (inject_Z 1) with 1%Q in Hhi.
  destruct (x - inject_Z (Qfloor x) ?= 1 # 2)%Q eqn:E.
  - apply Qeq_alt in E.
    destruct (Z.even (Qfloor x)).
    + split; lra.
    + rewrite inject_Z_plus. change (inject_Z 1) with 1%Q. split; lra.
  - apply Qlt_alt in E. split; lra.
  - apply Qgt_alt in E. rewrite inject_Z_plus. change (inject_Z 1) with 1%Q.
    split; lra.
Qed.


(** ** The volume normalizer *)

Section NormalizeVolume.
Variables (requested : Q) (symbol_info : SymbolInfo) (symbol : string).

Let min_vol := attr_or (volume_min symbol_info) (1 # 100).
Let max_vol := attr_or (volume_max symbol_info) 100.
Let step := attr_or (volume_step symbol_info) (1 # 100).

(** A request below the minimum is rejected, with volume zero. *)
Lemma normalize_volume_below_min :
  (requested < min_vol)%Q ->
  exists msg, _normalize_volume requested symbol_info symbol = (0%Q, Some msg).
Proof.
  intros H. unfold _normalize_volume. fold min_vol.
  apply Qltb_lt in H. rewrite H. eauto.
Qed.

(** A request more than 10% over the maximum is rejected. *)
Lemma normalize_volume_far_over_max :
  (max_vol < requested)%Q -> (max_vol * (11 # 10) < requested)%Q ->
  exists msg, _normalize_volume requested symbol_info symbol = (0%Q, Some msg).
Proof.
  intros H1 H2. unfold _normalize_volume. fold min_vol max_vol.
  destruct (Qltb requested min_vol); [eauto |].
  apply Qgtb_gt in H1, H2. rewrite H1, H2. eauto.
Qed.



End NormalizeVolume.

(** C4 (at the failing input).  For the broker constraints min=0.01,
    max=1.07, step=0.1 and a requested volume of 1.06, which is inside
    [min, max], [_normalize_volume] accepts the request and returns 1.1: a
    multiple of the step, but above the maximum.  The volume is snapped after
    the clamp and only the minimum is checked again. *)
Theorem normalize_volume_exceeds_off_grid_max :
  exists vol,
    _normalize_volume (106 # 100) off_grid_symbol "XAUUSD" = (vol, None) /\
    (vol == 11 # 10)%Q /\
    (attr_or (volume_min off_grid_symbol) (1 # 100) <= 106 # 100)%Q /\
    (106 # 100 <= attr_or (volume_max off_grid_symbol) 100)%Q /\
    (attr_or (volume_max off_grid_symbol) 100 < vol)%Q.
Proof.
  eexists. split; [vm_compute; reflexivity |].
  repeat split; vm_compute; congruence.
Qed.

(** ** The stop adjuster *)

Ltac break_tests :=
  repeat match goal with
  | |- context [if ?b then _ else _] => destruct b eqn:?
  | H : context [if ?b then _ else _] |- _ => destruct b eqn:?
  end.

(** C5.  [_adjust_stop_loss_take_profit] never returns a stop on the wrong
    side of the entry: for a buy every returned stop-loss is strictly below
    the entry and every returned take-profit strictly above it, and for a
    sell the reverse; a requested stop on the wrong side (or on the entry
    itself) is returned as absent; and a requested (positive) stop on the
    right side but nearer to the entry than the minimum stop distance is
    returned as exactly entry minus the distance (below) or entry plus the
    distance (above). *)
Theorem adjust_stops_directional (symbol_info : SymbolInfo) (entry_price : Q)
    (requested_sl requested_tp : option Q) (direction : string) :
  let result :=
    _adjust_stop_loss_take_profit symbol_info entry_price requested_sl requested_tp
      direction in
  let d := min_stop_distance_price symbol_info in
  if String.eqb (lower direction) "buy" then
    (forall sl, fst result = Some sl -> (sl < entry_price)%Q) /\
    (forall tp, snd result = Some tp -> (entry_price < tp)%Q) /\
    (forall sl, requested_sl = Some sl -> (entry_price <= sl)%Q -> fst result = None) /\
    (forall tp, requested_tp = Some tp -> (tp <= entry_price)%Q -> snd result = None) /\
    (forall sl, requested_sl = Some sl -> (0 < sl)%Q -> (sl < entry_price)%Q ->
                (entry_price - sl < d)%Q -> fst result = Some (entry_price - d)%Q) /\
    (forall tp, requested_tp = Some tp -> (0 < tp)%Q -> (entry_price < tp)%Q ->
                (tp - entry_price < d)%Q -> snd result = Some (entry_price + d)%Q)
  else
    (forall sl, fst result = Some sl -> (entry_price < sl)%Q) /\
    (forall tp, snd result = Some tp -> (tp < entry_price)%Q) /\
    (forall sl, requested_sl = Some sl -> (sl <= entry_price)%Q -> fst result = None) /\
    (forall tp, requested_tp = Some tp -> (entry_price <= tp)%Q -> snd result = None) /\
    (forall sl, requested_sl = Some sl -> (0 < sl)%Q -> (entry_price < sl)%Q ->
                (sl - entry_price < d)%Q -> fst result = Some (entry_price + d)%Q) /\
    (forall tp, requested_tp = Some tp -> (0 < tp)%Q -> (tp < entry_price)%Q ->
                (entry_price - tp < d)%Q -> snd result = Some (entry_price - d)%Q).
Proof.
  intros result d. subst result d. unfold _adjust_stop_loss_take_profit.
  set (d := min_stop_distance_price symbol_info).
  destruct (String.eqb (lower direction) "buy"); cbn [fst snd];
    repeat split; intros x;
    try (intros ->); try destruct requested_sl as [sl |];
    try destruct requested_tp as [tp |]; intros;
    break_tests; reflect_Q;
    repeat match goal with
    | H : Some _ = Some _ |- _ => injection H as <-
    | H : None = Some _ |- _ => discriminate H
    | H : Some _ = None |- _ => discriminate H
    end;
    try reflexivity; try lra; exfalso; lra.
Qed.

(** The stops of a buy at 1.10000 with a minimum stop distance of 0.00010:
    a stop-loss at 1.09995 is too near and a take-profit at 1.09 is on the
    wrong side. *)
Lemma adjust_stops_directional_witness :
  fst (_adjust_stop_loss_take_profit eurusd (11 # 10) (Some (109995 # 100000))
         (Some (109 # 100)) "BUY")
    = Some ((11 # 10) - min_stop_distance_price eurusd)%Q /\
  snd (_adjust_stop_loss_take_profit eurusd (11 # 10) (Some (109995 # 100000))
         (Some (109 # 100)) "BUY") = None.
Proof.
  pose proof (adjust_stops_directional eurusd (11 # 10) (Some (109995 # 100000))
                (Some (109 # 100)) "BUY") as H.
  cbv zeta in H. change (String.eqb (lower "BUY") "buy") with true in H.
  cbv iota in H.
  destruct H as (_ & _ & _ & Htp & Hsl & _).
  split.
  - apply (Hsl (109995 # 100000)); [reflexivity | | |]; vm_compute; reflexivity.
  - apply (Htp (109 # 100)); [reflexivity |]. vm_compute. congruence.
Defined.

(** ** The tick buffer *)




Lemma time_ordered_snoc buf tick :
  time_ordered buf -> Forall (fun t => (td_time t <= td_time tick)%Z) buf ->
  time_ordered (buf ++ [tick]).
Proof.
  unfold time_ordered. induction 1 as [| a l Hs IH Ha]; simpl; intros Hle.
  - repeat constructor.
  - inversion Hle as [| ? ? Hat Hl]; subst.
    constructor; [apply IH; exact Hl |].
    apply Forall_app. split; [exact Ha | constructor; [exact Hat | constructor]].
Qed.


(** What [add_tick] leaves in the buffer of the symbol it is called for. *)
Lemma add_tick_buffer acc symbol bid ask volume time now :
  let time' := match time with Some t => t | None => now end in
  buffer_of (add_tick acc symbol bid ask volume time now) symbol =
  evict (time' - lookback_seconds acc)
        (buffer_of acc symbol ++ [mk_TickData symbol bid ask volume time']).
Proof.
  unfold buffer_of, add_tick. cbn [tick_buffers lookback_seconds].
  rewrite lookup_insert_eq. cbn [default].
  destruct (tick_buffers acc !! symbol) as [buf |] eqn:E.
  - rewrite E. reflexivity.
  - rewrite lookup_insert_eq. reflexivity.
Qed.

(** ... and in the buffers of the other symbols: nothing changes. *)
Lemma add_tick_other acc symbol bid ask volume time now other :
  other <> symbol ->
  buffer_of (add_tick acc symbol bid ask volume time now) other = buffer_of acc other.
Proof.
  intros Hne. unfold buffer_of, add_tick. cbn [tick_buffers].
  rewrite lookup_insert_ne by congruence.
  destruct (tick_buffers acc !! symbol); [reflexivity |].
  rewrite lookup_insert_ne by congruence. reflexivity.
Qed.

Lemma add_tick_lookback acc symbol bid ask volume time now :
  lookback_seconds (add_tick acc symbol bid ask volume time now) = lookback_seconds acc.
Proof. reflexivity. Qed.




Lemma add_ticks_lookback ticks : forall acc,
  lookback_seconds (add_ticks acc ticks) = lookback_seconds acc.
Proof.
  induction ticks as [| t ticks IH]; intros acc; simpl; [reflexivity |].
  rewrite IH. reflexivity.
Qed.




(** ** Evaluations of the order executor *)

(** C1 (at the failing input).  A market buy of 0.10 lots on a symbol with
    volume min=0.01, max=50, step=0.01, with neither stop-loss nor
    take-profit, on a connected terminal that would accept the order:
    [open_trade] calls [_normalize_volume] with two of its three arguments,
    the [TypeError] is caught by its own [except Exception], and the result
    is a failure with the local code -10011; nothing is submitted to the
    terminal.  (The normalizer itself accepts 0.10 for this symbol.) *)
Theorem open_trade_naked_market_buy_fails :
  exists result w',
    run (open_trade naked_buy) accepting_world = (inr result, w') /\
    dict_get result "success" = Some (VBool false) /\
    dict_get result "error_code" = Some (VInt (-10011)) /\
    dict_get result "error_message" =
      Some (VStr ("Exception during open_trade: " +:+ missing_symbol_argument)) /\
    t_sent (term w') = [] /\
    t_replies (term w') = [order_done 42] /\
    exists vol, _normalize_volume (1 # 10) eurusd "EURUSD" = (vol, None) /\
                (vol == 1 # 10)%Q.
Proof.
  eexists _, _. split; [vm_compute; reflexivity |].
  repeat split; try (vm_compute; reflexivity).
  eexists. split; vm_compute; reflexivity.
Qed.

(** C2 (at the failing input).  Closing 60% of a 0.10-lot position on a symbol
    with step 0.1: the volume to close, 0.06, normalizes to 0.10, which is
    not below the position volume, so a full close is due.
    [partial_close_trade] calls [_normalize_volume] with two of its three
    arguments; the [TypeError] is caught by its own [except Exception] and
    the result is a failure.  Neither a full close nor a partial close is
    submitted. *)
Theorem partial_close_never_redirects :
  exists result w',
    run (partial_close_trade 7 60) gold_world = (inr result, w') /\
    result = failure ("Exception during partial_close_trade: " +:+ missing_symbol_argument) /\
    t_sent (term w') = [] /\
    exists vol, _normalize_volume (pos_volume gold_position * 60 / 100) gold "GOLD"
                  = (vol, None) /\
                (vol == 1 # 10)%Q /\ (pos_volume gold_position <= vol)%Q.
Proof.
  eexists _, _. split; [vm_compute; reflexivity |].
  repeat split; try (vm_compute; reflexivity).
  eexists. repeat split; vm_compute; try reflexivity; congruence.
Qed.

(** C6 (at the failing input).  A market buy with a stop-loss and a
    take-profit, on a terminal that would reject the first submission with
    "invalid stops" (10016) and accept the second: [open_trade] fails with
    the local code -10011 before anything is submitted, so no submission is
    rejected and none is retried. *)
Theorem open_trade_never_reaches_retry :
  exists result w',
    run (open_trade protected_buy) invalid_stops_world = (inr result, w') /\
    dict_get result "success" = Some (VBool false) /\
    dict_get result "error_code" = Some (VInt (-10011)) /\
    dict_get result "error_message" =
      Some (VStr ("Exception during open_trade: " +:+ missing_symbol_argument)) /\
    t_sent (term w') = [] /\
    t_replies (term w') = [invalid_stops; order_done 43].
Proof.
  eexists _, _. split; [vm_compute; reflexivity |].
  repeat split; vm_compute; reflexivity.
Qed.

(** The submission loop on its own, entered with the volume normalized: the
    order rejected with "invalid stops" is sent once more with both stops at
    zero, and when that succeeds the result is a success whose dictionary
    holds neither stops nor a retry flag; the flag is in the record written
    by [log_trade_success]. *)
Lemma submit_order_retries_without_stops :
  exists result w' first second context,
    run (submit_order mt5_package protected_submission (Some (109 # 100)) (Some (112 # 100)))
        invalid_stops_world = (inr result, w') /\
    t_sent (term w') = [first; second] /\
    dict_get first "sl" = Some (VFloat (109 # 100)) /\
    dict_get first "tp" = Some (VFloat (112 # 100)) /\
    second = dict_set (dict_set first "sl" (VFloat 0)) "tp" (VFloat 0) /\
    dict_get result "success" = Some (VBool true) /\
    dict_get result "ticket" = Some (VInt 43) /\
    map fst result =
      ["success"; "ticket"; "symbol"; "volume"; "price"; "direction"; "order_kind"] /\
    log w' = [TradeSuccess "open_trade" (VInt 43) context] /\
    dict_get context "retry_without_stops" = Some (VBool true) /\
    dict_get context "stop_loss" = Some (VFloat 0) /\
    dict_get context "take_profit" = Some (VFloat 0).
Proof.
  eexists _, _, _, _, _. split; [vm_compute; reflexivity |].
  repeat split; vm_compute; reflexivity.
Qed.

(** ** The webhook emitter *)

(** C7 (at the failing input).  When every POST is answered with HTTP 500,
    [_emit_event] posts three times, sleeps 1 second and then 2 seconds,
    never 4, logs the failure and returns [False]. *)
Theorem emit_event_backoff_stops_at_two_seconds :
  exists em',
    _emit_event_default order_sent_event failing_emitter = (false, em') /\
    em_posted em' = [order_sent_event; order_sent_event; order_sent_event] /\
    em_slept em' = [1; 2]%Z /\
    last (em_log em') =
      Some (ERROR, "[OrderEventEmitter] Failed to emit event after 3 attempts: order_sent").
Proof.
  eexists. split; [reflexivity |]. repeat split; vm_compute; reflexivity.
Qed.

(** The sleeps of [remaining] failing attempts, the first numbered
    [attempt]. *)
Lemma emit_attempts_all_fail (event : dict) (retry_count : Z) (remaining : nat) :
  forall (attempt : Z) (em : Emitter),
    (forall n, failing (em_net em n)) ->
    exists em',
      emit_attempts event retry_count remaining attempt em = (None, em') /\
      em_net em' = em_net em /\
      em_posted em' = em_posted em ++ repeat event remaining /\
      em_slept em' = em_slept em ++ sleeps_from retry_count attempt remaining.
Proof.
  induction remaining as [| n IH]; intros attempt em Hfail.
  - exists em. cbn [emit_attempts repeat sleeps_from]. rewrite !app_nil_r. auto.
  - assert (Hnext : forall level msg,
        exists em',
          emit_attempts event retry_count n (attempt + 1)
            (backoff attempt retry_count (em_logger level msg (snd (em_post event em))))
            = (None, em') /\
          em_net em' = em_net em /\
          em_posted em' = em_posted em ++ repeat event (S n) /\
          em_slept em' = em_slept em ++ sleeps_from retry_count attempt (S n)).
    { intros level msg.
      set (em1 := backoff attempt retry_count (em_logger level msg (snd (em_post event em)))).
      assert (Hnet : em_net em1 = em_net em)
        by (subst em1; unfold backoff; destruct (attempt <? retry_count - 1)%Z; reflexivity).
      assert (Hposted : em_posted em1 = em_posted em ++ [event])
        by (subst em1; unfold backoff; destruct (attempt <? retry_count - 1)%Z; reflexivity).
      assert (Hslept : em_slept em1 =
                       em_slept em ++ (if (attempt <? retry_count - 1)%Z
                                       then [2 ^ attempt]%Z else []))
        by (subst em1; unfold backoff; destruct (attempt <? retry_count - 1)%Z;
            cbn [em_slept em_sleep em_logger em_post snd]; rewrite ?app_nil_r; reflexivity).
      destruct (IH (attempt + 1)%Z em1) as (em' & Hrun & Hn & Hp & Hs).
      { intros k. rewrite Hnet. apply Hfail. }
      exists em'. split; [exact Hrun |]. split; [congruence |].
      split.
      - rewrite Hp, Hposted, <- app_assoc. reflexivity.
      - rewrite Hs, Hslept, <- app_assoc. reflexivity. }
    pose proof (Hfail (length (em_posted em))) as Hf.
    cbn [emit_attempts]. unfold em_post at 1. cbn [fst].
    change {| webhook_url := webhook_url em; enabled := enabled em;
              em_net := em_net em; em_posted := em_posted em ++ [event];
              em_slept := em_slept em; em_log := em_log em |}
      with (snd (em_post event em)).
    destruct (em_net em (length (em_posted em))) as [status [e | text] | | e].
    + cbn [failing] in Hf. apply Z.eqb_neq in Hf. rewrite Hf.
      destruct e; apply Hnext.
    + cbn [failing] in Hf. apply Z.eqb_neq in Hf. rewrite Hf. apply Hnext.
    + apply Hnext.
    + destruct e; apply Hnext.
Qed.

(** Whatever the failures are, a non-200 status, a timeout or an error of the
    transport, in any mix: three posts, a sleep of 1 second and one of 2
    seconds, the failure logged last, and [False] returned. *)
Lemma emit_event_all_attempts_fail (event : dict) (em : Emitter) :
  enabled em = true ->
  webhook_url em <> "" ->
  (forall n, failing (em_net em n)) ->
  fst (_emit_event_default event em) = false /\
  em_posted (snd (_emit_event_default event em)) = em_posted em ++ [event; event; event] /\
  em_slept (snd (_emit_event_default event em)) = em_slept em ++ [1; 2]%Z /\
  last (em_log (snd (_emit_event_default event em))) =
    Some (ERROR, "[OrderEventEmitter] Failed to emit event after 3 attempts: " +:+
                 event_type_text event).
Proof.
  intros Hen Hurl Hfail.
  unfold _emit_event_default, _emit_event.
  rewrite Hen. cbn [negb].
  destruct (String.eqb (webhook_url em) "") eqn:E;
    [apply String.eqb_eq in E; contradiction |].
  destruct (emit_attempts_all_fail event 3 (Z.to_nat 3) 0 em Hfail)
    as (em' & Hrun & _ & Hp & Hs).
  rewrite Hrun. cbn [fst snd em_logger em_posted em_slept em_log].
  split; [reflexivity |]. split; [exact Hp |]. split; [exact Hs |].
  apply last_snoc.
Qed.

(** ** Rules for statements *)

Section Rules.
Context {S R : Type} (I : S -> Prop).

Lemma triple_ret {A} (a : A) (V : A -> Prop) (Rp : R -> Prop) E :
  V a -> triple I (ret a) V Rp E.
Proof. intros H s Hs. split; assumption. Qed.

Lemma triple_return {A} (r : R) (V : A -> Prop) (Rp : R -> Prop) E :
  Rp r -> triple I (return_ r : M S R A) V Rp E.
Proof. intros H s Hs. split; assumption. Qed.

Lemma triple_raise {A} (e : exn) (V : A -> Prop) (Rp : R -> Prop) (E : exn -> Prop) :
  E e -> triple I (raise e : M S R A) V Rp E.
Proof. intros H s Hs. split; assumption. Qed.

Lemma triple_get_state (V : S -> Prop) (Rp : R -> Prop) E :
  (forall s, I s -> V s) -> triple I (get_state : M S R S) V Rp E.
Proof. intros H s Hs. split; [assumption | apply H, Hs]. Qed.

Lemma triple_modify (f : S -> S) (V : unit -> Prop) (Rp : R -> Prop) E :
  (forall s, I s -> I (f s)) -> V tt -> triple I (modify f : M S R unit) V Rp E.
Proof. intros Hf Hv s Hs. split; [apply Hf, Hs | exact Hv]. Qed.

Lemma triple_bind {A B} (m : M S R A) (k : A -> M S R B) (V1 : A -> Prop)
    (V : B -> Prop) (Rp : R -> Prop) (E : exn -> Prop) :
  triple I m V1 Rp E ->
  (forall a, V1 a -> triple I (k a) V Rp E) ->
  triple I (bind m k) V Rp E.
Proof.
  intros Hm Hk s Hs. unfold bind.
  destruct (Hm s Hs) as [Hi Ho]. destruct (m s) as [[a | r | e] s']; simpl in *.
  - apply Hk; assumption.
  - split; assumption.
  - split; assumption.
Qed.

Lemma triple_try {A} (body : M S R A) (handler : exn -> M S R A)
    (V : A -> Prop) (Rp : R -> Prop) (E1 E : exn -> Prop) :
  triple I body V Rp E1 ->
  (forall e, E1 e -> triple I (handler e) V Rp E) ->
  triple I (try_except body handler) V Rp E.
Proof.
  intros Hb Hh s Hs. unfold try_except.
  destruct (Hb s Hs) as [Hi Ho]. destruct (body s) as [[a | r | e] s']; simpl in *.
  - split; assumption.
  - split; assumption.
  - apply Hh; assumption.
Qed.

Lemma triple_call {R' : Type} (body : M S R R) (V1 R1 : R -> Prop)
    (V : R -> Prop) (Rp : R' -> Prop) (E : exn -> Prop) :
  triple I body V1 R1 E ->
  (forall r, V1 r -> V r) -> (forall r, R1 r -> V r) ->
  triple I (call body : M S R' R) V Rp E.
Proof.
  intros Hb HV HR s Hs. unfold call.
  destruct (Hb s Hs) as [Hi Ho]. destruct (body s) as [[a | r | e] s']; simpl in *;
    split; auto.
Qed.

Lemma triple_weaken {A} (m : M S R A) (V1 V : A -> Prop) (R1 Rp : R -> Prop)
    (E1 E : exn -> Prop) :
  triple I m V1 R1 E1 ->
  (forall a, V1 a -> V a) -> (forall r, R1 r -> Rp r) -> (forall e, E1 e -> E e) ->
  triple I m V Rp E.
Proof.
  intros Hm HV HR HE s Hs. destruct (Hm s Hs) as [Hi Ho].
  split; [exact Hi |]. destruct (fst (m s)); auto.
Qed.

Lemma triple_for_each {A} (xs : list A) (body : A -> M S R unit)
    (Rp : R -> Prop) (E : exn -> Prop) :
  (forall x, triple I (body x) anything Rp E) ->
  triple I (for_each xs body) anything Rp E.
Proof.
  intros Hb. induction xs as [| x xs IH]; simpl.
  - apply triple_ret. exact Logic.I.
  - eapply triple_bind; [apply Hb |]. intros _ _. exact IH.
Qed.
End Rules.



(** ** No raw exception leaves the client *)







Ltac triple_unfold :=
  unfold set_flags, log_mt5_error, log_trade_success, log_mt5_connection,
    mt5_initialize, mt5_shutdown, mt5_login, mt5_last_error, mt5_account_info,
    mt5_symbol_info, mt5_symbols_get, mt5_symbol_info_tick, mt5_symbol_select,
    mt5_positions_get, mt5_orders_get, mt5_order_send.








Lemma lower_app a b : lower (a +:+ b) = lower a +:+ lower b.
Proof.
  unfold lower. induction a as [| c a IH]; simpl; [reflexivity |].
  rewrite IH. reflexivity.
Qed.

Lemma contains_app sub a b : contains sub b = true -> contains sub (a +:+ b) = true.
Proof.
  intros H. induction a as [| c a IH]; simpl; [exact H |].
  rewrite IH. apply orb_true_r.
Qed.


(** On a connected client [ensure_initialized] only probes the account. *)
Lemma ensure_initialized_connected w c a :
  mt5_client w = Some c -> _initialized c = true -> _connected c = true ->
  t_account (term w) = Some a -> t_raises (term w) = [] ->
  ensure_initialized w = (Ret (true, "Already connected"), called "account_info" w).
Proof.
  intros Hc Hi Hn Ha Hr.
  unfold ensure_initialized, bind, get_self. rewrite Hc, Hi, Hn. cbn [andb].
  unfold try_except, bind, mt5_account_info, native. cbn. rewrite Hr. cbn.
  rewrite Ha. reflexivity.
Qed.

#[local] Arguments str_Z : simpl never.
#[local] Arguments str_Q : simpl never.
#[local] Arguments lower : simpl never.
#[local] Arguments upper : simpl never.
#[local] Arguments contains : simpl never.
#[local] Arguments String.append : simpl never.




(** ** The open-trade endpoint *)

Lemma validate_OpenTradeRequest_error body e :
  validate_OpenTradeRequest body = inl e -> exists detail, e = HTTPException 422 detail.
Proof.
  unfold validate_OpenTradeRequest.
  repeat match goal with
  | |- context [if ?b then _ else _] => destruct b
  end; intros [= <-]; eauto.
Qed.

Lemma validate_OpenTradeRequest_stop_loss body request :
  validate_OpenTradeRequest body = inr request ->
  stop_loss request = mapped_stop_loss body.
Proof.
  unfold validate_OpenTradeRequest.
  repeat match goal with
  | |- context [if ?b then _ else _] => destruct b
  end; intros [= <-]; reflexivity.
Qed.

(** C10.  Once the service has started ([mt5_client] is set), every body
    posted to the open-trade endpoint whose stop-loss, after the mapping of
    [stop_loss_price], is absent or not positive is answered with a client
    error, 422 from the validation of the body or 400 from the handler's own
    check, whatever the order kind, and the state of the service is left as
    it was: the client's [open_trade] is not called, the terminal sees no
    call, nothing is logged or scheduled. *)
Theorem open_trade_requires_stop_loss (w : World) (c : MT5Client) (body : OpenTradeRequest) :
  mt5_client w = Some c ->
  no_stop_loss (mapped_stop_loss body) ->
  exists status detail,
    run (post_trades_open body) w = (inl (HTTPException status detail), w) /\
    (status = 422 \/ status = 400)%Z.
Proof.
  intros Hc Hsl. unfold post_trades_open.
  destruct (validate_OpenTradeRequest body) as [e | request] eqn:Hv.
  - apply validate_OpenTradeRequest_error in Hv as [detail ->].
    exists 422%Z, detail. split; [reflexivity | left; reflexivity].
  - apply validate_OpenTradeRequest_stop_loss in Hv.
    unfold run, main_open_trade, bind, get_state. rewrite Hc, Hv.
    unfold no_stop_loss in Hsl.
    destruct (mapped_stop_loss body) as [sl |].
    + apply Qleb_le in Hsl. rewrite Hsl.
      eexists 400%Z, _. split; [reflexivity | right; reflexivity].
    + eexists 400%Z, _. split; [reflexivity | right; reflexivity].
Qed.

(** A market buy posted without a stop-loss to the connected service: the 400
    answer, and the state is the one before. *)
Lemma open_trade_requires_stop_loss_witness :
  exists status detail,
    run (post_trades_open unprotected_body) accepting_world =
      (inl (HTTPException status detail), accepting_world) /\
    (status = 422 \/ status = 400)%Z.
Proof.
  apply (open_trade_requires_stop_loss accepting_world
           {| config := demo_config; _initialized := true; _connected := true |}
           unprotected_body).
  - reflexivity.
  - exact Logic.I.
Defined.

(** ** The order-flow endpoint *)

(** [compute_order_flow] answers "insufficient data" exactly when the symbol
    has fewer than five buffered ticks or none of them lies in the window. *)
Lemma compute_order_flow_None acc symbol window now :
  compute_order_flow acc symbol window now = None <->
  (length (buffer_of acc symbol) < 5)%nat \/
  filter (fun t => (now - attr_or_Z window (lookback_seconds acc) <= td_time t)%Z)
         (buffer_of acc symbol) = [].
Proof.
  unfold compute_order_flow, buffer_of.
  destruct (tick_buffers acc !! symbol) as [ticks |]; cbn [default from_option id].
  - destruct (length ticks <? 5)%nat eqn:Hlen.
    + apply Nat.ltb_lt in Hlen. split; [intros _; left; exact Hlen | reflexivity].
    + apply Nat.ltb_ge in Hlen.
      destruct (filter _ ticks) as [| first rest].
      * split; [intros _; right; reflexivity | reflexivity].
      * destruct (attribute_volume first rest (0%Q, 0%Q)) as [bid_volume ask_volume].
        destruct (Qeqb bid_volume 0 && Qeqb ask_volume 0);
          (split; [discriminate | intros [H | H]; [lia | discriminate]]).
  - split; [intros _; left; simpl; lia | reflexivity].
Qed.

(** On a terminal that raises nothing and lists the symbol as visible,
    [validate_symbol] resolves the upper-cased name at the first try. *)
Lemma validate_symbol_visible w symbol si :
  find_symbol (upper symbol) (t_symbols (term w)) = Some si ->
  visible si = true -> t_raises (term w) = [] ->
  validate_symbol symbol w =
    (Ret (true, upper symbol, "Symbol valid"), called "symbol_info" w).
Proof.
  intros Hs Hv Hr.
  unfold validate_symbol, try_except, bind. cbn [app for_each].
  unfold bind, mt5_symbol_info, native. cbn. rewrite Hr. cbn.
  unfold find_symbol in Hs. rewrite Hs, Hv. reflexivity.
Qed.

(** The shape of what the order-flow endpoint answers on a connected terminal
    that raises nothing and lists the symbol: the metrics of the accumulator
    as it is after the fresh tick, if any, was added, or the neutral answer
    when those are "insufficient data". *)
Lemma get_order_flow_connected w c a si acc symbol :
  mt5_client w = Some c -> _initialized c = true -> _connected c = true ->
  t_account (term w) = Some a -> t_raises (term w) = [] ->
  find_symbol (upper symbol) (t_symbols (term w)) = Some si -> visible si = true ->
  orderflow_accumulator w = Some acc ->
  let '(result, w') := run (main_get_order_flow symbol) w in
  exists acc',
    orderflow_accumulator w' = Some acc' /\
    result = inr match compute_order_flow acc' (upper symbol) None (now w) with
                 | Some metrics => metrics
                 | None => neutral_order_flow (upper symbol) (utcnow w)
                 end.
Proof.
  intros Hc Hi Hn Ha Hr Hs Hv Hacc.
  destruct (run (main_get_order_flow symbol) w) as [result w'] eqn:E.
  unfold run, main_get_order_flow, try_except_reraise_http, try_except in E.
  unfold bind at 1 in E. unfold get_state at 1 in E. rewrite Hc in E.
  unfold bind at 1 in E. unfold bind at 1 in E. unfold call at 1 in E.
  rewrite (ensure_initialized_connected w c a Hc Hi Hn Ha Hr) in E.
  cbn [negb] in E. unfold ret at 1 in E.
  unfold bind at 1 in E. unfold bind at 1 in E. unfold call at 1 in E.
  rewrite (validate_symbol_visible (called "account_info" w) symbol si Hs Hv Hr) in E.
  cbn [negb] in E. unfold ret at 1 in E.
  unfold bind at 1 in E. unfold get_state at 1 in E.
  change (orderflow_accumulator (called "symbol_info" (called "account_info" w)))
    with (orderflow_accumulator w) in E.
  rewrite Hacc in E.
  unfold bind at 1 in E. unfold bind at 1 in E.
  unfold mt5_symbol_info_tick at 1, native at 1 in E.
  change (t_raises (t_called "symbol_info_tick"
            (term (called "symbol_info" (called "account_info" w)))))
    with (t_raises (term w)) in E.
  rewrite Hr in E. cbn [assoc] in E.
  change (t_ticks (t_called "symbol_info_tick"
            (term (called "symbol_info" (called "account_info" w)))))
    with (t_ticks (term w)) in E.
  destruct (assoc (upper symbol) (t_ticks (term w))) as [tick |].
  - unfold bind, get_state, the_accumulator, modify in E. cbn in E. rewrite Hacc in E.
    cbn in E.
    match type of E with
    | context [compute_order_flow ?acc' _ _ _] =>
        destruct (compute_order_flow acc' (upper symbol) None (now w)) eqn:Hflow;
        cbn in E; injection E as <- <-; exists acc';
        (split; [reflexivity | rewrite Hflow; reflexivity])
    end.
  - unfold bind, get_state, the_accumulator, ret in E. cbn in E. rewrite Hacc in E.
    cbn in E.
    destruct (compute_order_flow acc (upper symbol) None (now w)) eqn:Hflow;
      cbn in E; injection E as <- <-; exists acc;
      (split; [exact Hacc | rewrite Hflow; reflexivity]).
Qed.

(** C8 (counterexample).  Five ticks are buffered for EURUSD, stamped at
    seconds 0, 10, 50, 55 and 58; at second 100 only three of them lie in
    the last 60 seconds and the terminal has no fresh tick to add.
    [compute_order_flow] still returns metrics, with a [tick_count] of 3, and
    the order-flow endpoint answers with those metrics, not with the neutral
    defaults. *)
Lemma order_flow_three_recent_ticks_get_metrics :
  length (filter (fun t => (now stale_world - 60 <= td_time t)%Z)
            (buffer_of stale_acc "EURUSD")) = 3%nat /\
  exists metrics,
    compute_order_flow stale_acc "EURUSD" (Some 60%Z) (now stale_world) = Some metrics /\
    dict_get metrics "tick_count" = Some (VInt 3) /\
    fst (run (main_get_order_flow "EURUSD") stale_world) = inr metrics /\
    metrics <> neutral_order_flow "EURUSD" (utcnow stale_world).
Proof.
  split; [vm_compute; reflexivity |].
  eexists. split; [vm_compute; reflexivity |].
  split; [vm_compute; reflexivity |].
  split; [vm_compute; reflexivity |].
  vm_compute. discriminate.
Qed.

(** C8 (amended).  [compute_order_flow] reports insufficient data exactly
    when fewer than 5 ticks are buffered for the symbol or none of the
    buffered ticks lies within the requested window; and on a connected
    terminal that resolves the symbol, the order-flow endpoint answers with
    the metrics of the accumulator (after the fresh tick, if the terminal
    has one, was added), or, when those are insufficient data, with the
    neutral defaults: zero bid and ask volumes, zero delta with a neutral
    sign, 50/50 imbalance percentages and an empty list of large orders. *)
Theorem order_flow_insufficient_data :
  (forall acc symbol window now,
     compute_order_flow acc symbol window now = None <->
     (length (buffer_of acc symbol) < 5)%nat \/
     filter (fun t => (now - attr_or_Z window (lookback_seconds acc) <= td_time t)%Z)
            (buffer_of acc symbol) = []) /\
  (forall w c a si acc symbol,
     mt5_client w = Some c -> _initialized c = true -> _connected c = true ->
     t_account (term w) = Some a -> t_raises (term w) = [] ->
     find_symbol (upper symbol) (t_symbols (term w)) = Some si -> visible si = true ->
     orderflow_accumulator w = Some acc ->
     let '(result, w') := run (main_get_order_flow symbol) w in
     exists acc',
       orderflow_accumulator w' = Some acc' /\
       result = inr match compute_order_flow acc' (upper symbol) None (now w) with
                    | Some metrics => metrics
                    | None => neutral_order_flow (upper symbol) (utcnow w)
                    end) /\
  (forall symbol utcnow,
     let neutral := neutral_order_flow symbol utcnow in
     dict_get neutral "bid_volume" = Some (VFloat 0) /\
     dict_get neutral "ask_volume" = Some (VFloat 0) /\
     dict_get neutral "delta" = Some (VFloat 0) /\
     dict_get neutral "delta_sign" = Some (VStr "neutral") /\
     dict_get neutral "imbalance_buy_pct" = Some (VFloat 50) /\
     dict_get neutral "imbalance_sell_pct" = Some (VFloat 50) /\
     dict_get neutral "large_orders" = Some (VList [])).
Proof.
  split; [exact compute_order_flow_None |].
  split; [exact get_order_flow_connected |].
  intros symbol utcnow. repeat split.
Qed.

(** The endpoint on the connected service with an empty accumulator: the one
    fresh tick is added, and the answer is the one the theorem gives. *)
Lemma order_flow_insufficient_data_witness :
  let '(result, w') := run (main_get_order_flow "EURUSD") accepting_world in
  exists acc',
    orderflow_accumulator w' = Some acc' /\
    result = inr match compute_order_flow acc' (upper "EURUSD") None (now accepting_world) with
                 | Some metrics => metrics
                 | None => neutral_order_flow (upper "EURUSD") (utcnow accepting_world)
                 end.
Proof.
  apply (proj1 (proj2 order_flow_insufficient_data) accepting_world
           {| config := demo_config; _initialized := true; _connected := true |}
           demo_account eurusd (new_accumulator 60) "EURUSD");
    reflexivity.
Defined.


(** ** Instances of the general lemmas *)


(** The emitter whose webhook always answers 500, on an [order_sent]
    event. *)
Lemma emit_event_all_attempts_fail_witness :
  fst (_emit_event_default order_sent_event failing_emitter) = false /\
  em_slept (snd (_emit_event_default order_sent_event failing_emitter)) = [1; 2]%Z.
Proof.
  destruct (emit_event_all_attempts_fail order_sent_event failing_emitter)
    as (Hresult & _ & Hslept & _).
  - reflexivity.
  - discriminate.
  - intros n. cbn. discriminate.
  - split; [exact Hresult | exact Hslept].
Defined.

(** ** More on rounding *)

(** [round] reads its argument as a number: equal rationals round alike. *)
Lemma py_round_comp x y : (x == y)%Q -> py_round x = py_round y.
Proof.
  intros H. unfold py_round.
  assert (Hf : Qfloor x = Qfloor y) by (apply Qfloor_comp; exact H).
  rewrite Hf.
  assert (Hc : (x - inject_Z (Qfloor y) ?= 1 # 2)%Q = (y - inject_Z (Qfloor y) ?= 1 # 2)%Q).
  { apply Qcompare_comp; [rewrite H; reflexivity | reflexivity]. }
  rewrite Hc. reflexivity.
Qed.

Lemma inject_Z_minus a b : (inject_Z (a - b) == inject_Z a - inject_Z b)%Q.
Proof.
  unfold Z.sub. rewrite inject_Z_plus, inject_Z_opp. reflexivity.
Qed.

(** The result is the nearest integer, and at a tie the even one. *)
Lemma py_round_tie x :
  (inject_Z (py_round x) == x - (1 # 2) \/ inject_Z (py_round x) == x + (1 # 2))%Q ->
  Z.even (py_round x) = true.
Proof.
  unfold py_round.
  pose proof (Qfloor_le x) as Hlo.
  pose proof (Qlt_floor x) as Hhi.
  rewrite inject_Z_plus in Hhi. change (inject_Z 1) with 1%Q in Hhi.
  destruct (x - inject_Z (Qfloor x) ?= 1 # 2)%Q eqn:E.
  - apply Qeq_alt in E. intros _.
    destruct (Z.even (Qfloor x)) eqn:Hev; [exact Hev |].
    rewrite Z.even_add, Hev. reflexivity.
  - apply Qlt_alt in E. intros [H | H]; exfalso; lra.
  - apply Qgt_alt in E. rewrite inject_Z_plus. change (inject_Z 1) with 1%Q.
    intros [H | H]; exfalso; lra.
Qed.

(** ... and that determines it. *)
Lemma py_round_unique x r :
  (x - (1 # 2) <= inject_Z r <= x + (1 # 2))%Q ->
  ((inject_Z r == x - (1 # 2) \/ inject_Z r == x + (1 # 2))%Q -> Z.even r = true) ->
  py_round x = r.
Proof.
  intros Hr Hev.
  pose proof (py_round_bounds x) as Hp.
  pose proof (py_round_tie x) as Hpe.
  set (p := py_round x) in *.
  assert (Hd : (inject_Z p - inject_Z r <= 1 /\ inject_Z r - inject_Z p <= 1)%Q)
    by (split; lra).
  rewrite <- !inject_Z_minus in Hd.
  change 1%Q with (inject_Z 1) in Hd. rewrite <- !Zle_Qle in Hd.
  destruct (Z.eq_dec p r) as [E | E]; [exact E | exfalso].
  assert (Hcase : (p = r + 1 \/ r = p + 1)%Z) by lia.
  destruct Hcase as [-> | ->].
  - rewrite inject_Z_plus in Hp, Hpe. change (inject_Z 1) with 1%Q in Hp, Hpe.
    assert (E1 : Z.even (r + 1) = true) by (apply Hpe; right; lra).
    assert (E2 : Z.even r = true) by (apply Hev; left; lra).
    rewrite Z.even_add, E2 in E1. discriminate E1.
  - rewrite inject_Z_plus in Hr, Hev. change (inject_Z 1) with 1%Q in Hr, Hev.
    assert (E1 : Z.even (p + 1) = true) by (apply Hev; right; lra).
    assert (E2 : Z.even p = true) by (apply Hpe; left; lra).
    rewrite Z.even_add, E2 in E1. discriminate E1.
Qed.

Lemma py_round_Z k : py_round (inject_Z k) = k.
Proof.
  apply py_round_unique; [split; lra |]. intros [H | H]; exfalso; lra.
Qed.

Lemma py_round_mono x y : (x <= y)%Q -> (py_round x <= py_round y)%Z.
Proof.
  intros Hxy.
  pose proof (py_round_bounds x) as Hx.
  pose proof (py_round_bounds y) as Hy.
  pose proof (py_round_tie x) as Hxe.
  pose proof (py_round_tie y) as Hye.
  destruct (Z_le_gt_dec (py_round x) (py_round y)) as [H | H]; [exact H | exfalso].
  assert (Hd : (inject_Z (py_round x) - inject_Z (py_round y) <= 1)%Q) by lra.
  rewrite <- inject_Z_minus in Hd. change 1%Q with (inject_Z 1) in Hd.
  rewrite <- Zle_Qle in Hd.
  assert (E : py_round x = (py_round y + 1)%Z) by lia.
  rewrite E in Hx, Hxe. rewrite inject_Z_plus in Hx, Hxe.
  change (inject_Z 1) with 1%Q in Hx, Hxe.
  assert (E1 : Z.even (py_round y + 1) = true) by (apply Hxe; right; lra).
  assert (E2 : Z.even (py_round y) = true) by (apply Hye; left; lra).
  rewrite Z.even_add, E2 in E1. discriminate E1.
Qed.

(** ** The volume normalizer, in full *)


(** ** Stops, once adjusted *)

(** Every stop [_adjust_stop_loss_take_profit] returns keeps the minimum
    distance from the entry, on its side: for a buy the stop-loss is at most
    entry minus the distance and the take-profit at least entry plus the
    distance, for a sell the reverse.  A positive stop that already does so
    (and is on the right side of the entry) is returned as it is.  And when
    the distance is not negative and smaller than the entry, adjusting the
    adjusted stops once more changes nothing. *)
Theorem adjust_stops_keep_distance (symbol_info : SymbolInfo) (entry_price : Q)
    (requested_sl requested_tp : option Q) (direction : string) :
  let result :=
    _adjust_stop_loss_take_profit symbol_info entry_price requested_sl requested_tp
      direction in
  let d := min_stop_distance_price symbol_info in
  (if String.eqb (lower direction) "buy" then
     (forall sl, fst result = Some sl -> (sl <= entry_price - d)%Q) /\
     (forall tp, snd result = Some tp -> (entry_price + d <= tp)%Q) /\
     (forall sl, requested_sl = Some sl -> (0 < sl)%Q -> (sl < entry_price)%Q ->
                 (sl <= entry_price - d)%Q -> fst result = Some sl) /\
     (forall tp, requested_tp = Some tp -> (0 < tp)%Q -> (entry_price < tp)%Q ->
                 (entry_price + d <= tp)%Q -> snd result = Some tp)
   else
     (forall sl, fst result = Some sl -> (entry_price + d <= sl)%Q) /\
     (forall tp, snd result = Some tp -> (tp <= entry_price - d)%Q) /\
     (forall sl, requested_sl = Some sl -> (0 < sl)%Q -> (entry_price < sl)%Q ->
                 (entry_price + d <= sl)%Q -> fst result = Some sl) /\
     (forall tp, requested_tp = Some tp -> (0 < tp)%Q -> (tp < entry_price)%Q ->
                 (tp <= entry_price - d)%Q -> snd result = Some tp)) /\
  ((0 <= d)%Q -> (d < entry_price)%Q ->
   _adjust_stop_loss_take_profit symbol_info entry_price (fst result) (snd result)
     direction = result).
Proof.
  intros result d. subst result d. unfold _adjust_stop_loss_take_profit.
  set (d := min_stop_distance_price symbol_info).
  split.
  - destruct (String.eqb (lower direction) "buy"); cbn [fst snd];
      repeat split; intros x;
      try (intros ->); try destruct requested_sl as [sl |];
      try destruct requested_tp as [tp |]; intros;
      break_tests; reflect_Q;
      repeat match goal with
      | H : Some _ = Some _ |- _ => injection H as <-
      | H : None = Some _ |- _ => discriminate H
      | H : Some _ = None |- _ => discriminate H
      end;
      try reflexivity; try lra; exfalso; lra.
  - intros Hd Hentry.
    assert (Hsl : forall a b : option Q, forall p q : option Q,
               a = p -> b = q -> (a, b) = (p, q)) by (intros; subst; reflexivity).
    destruct (String.eqb (lower direction) "buy"); cbn [fst snd]; apply Hsl.
    + destruct requested_sl as [sl |]; [| reflexivity].
      destruct (Qgtb sl 0) eqn:H0; [| reflexivity].
      destruct (Qgeb sl entry_price) eqn:H1; [reflexivity |].
      destruct (Qgtb sl (entry_price - d)) eqn:H2.
      * destruct (Qgtb (entry_price - d) 0) eqn:H3;
          [| reflect_Q; exfalso; lra].
        destruct (Qgeb (entry_price - d) entry_price) eqn:H4;
          [reflect_Q; exfalso; lra |].
        destruct (Qgtb (entry_price - d) (entry_price - d)) eqn:H5;
          [reflect_Q; exfalso; lra | reflexivity].
      * rewrite H0, H1, H2. reflexivity.
    + destruct requested_tp as [tp |]; [| reflexivity].
      destruct (Qgtb tp 0) eqn:H0; [| reflexivity].
      destruct (Qleb tp entry_price) eqn:H1; [reflexivity |].
      destruct (Qltb tp (entry_price + d)) eqn:H2.
      * destruct (Qgtb (entry_price + d) 0) eqn:H3;
          [| reflect_Q; exfalso; lra].
        destruct (Qleb (entry_price + d) entry_price) eqn:H4;
          [reflect_Q; exfalso; lra |].
        destruct (Qltb (entry_price + d) (entry_price + d)) eqn:H5;
          [reflect_Q; exfalso; lra | reflexivity].
      * rewrite H0, H1, H2. reflexivity.
    + destruct requested_sl as [sl |]; [| reflexivity].
      destruct (Qgtb sl 0) eqn:H0; [| reflexivity].
      destruct (Qleb sl entry_price) eqn:H1; [reflexivity |].
      destruct (Qltb sl (entry_price + d)) eqn:H2.
      * destruct (Qgtb (entry_price + d) 0) eqn:H3;
          [| reflect_Q; exfalso; lra].
        destruct (Qleb (entry_price + d) entry_price) eqn:H4;
          [reflect_Q; exfalso; lra |].
        destruct (Qltb (entry_price + d) (entry_price + d)) eqn:H5;
          [reflect_Q; exfalso; lra | reflexivity].
      * rewrite H0, H1, H2. reflexivity.
    + destruct requested_tp as [tp |]; [| reflexivity].
      destruct (Qgtb tp 0) eqn:H0; [| reflexivity].
      destruct (Qgeb tp entry_price) eqn:H1; [reflexivity |].
      destruct (Qgtb tp (entry_price - d)) eqn:H2.
      * destruct (Qgtb (entry_price - d) 0) eqn:H3;
          [| reflect_Q; exfalso; lra].
        destruct (Qgeb (entry_price - d) entry_price) eqn:H4;
          [reflect_Q; exfalso; lra |].
        destruct (Qgtb (entry_price - d) (entry_price - d)) eqn:H5;
          [reflect_Q; exfalso; lra | reflexivity].
      * rewrite H0, H1, H2. reflexivity.
Qed.

(** A sell at 1.10000 with a minimum stop distance of 0.00010: a stop-loss
    at 1.10005 is moved to 1.10010, a take-profit at 1.09 stays, and a
    second adjustment gives the same pair. *)
Lemma adjust_stops_keep_distance_witness :
  let result :=
    _adjust_stop_loss_take_profit eurusd (11 # 10) (Some (110005 # 100000))
      (Some (109 # 100)) "sell" in
  snd result = Some (109 # 100) /\
  _adjust_stop_loss_take_profit eurusd (11 # 10) (fst result) (snd result) "sell" = result.
Proof.
  pose proof (adjust_stops_keep_distance eurusd (11 # 10) (Some (110005 # 100000))
                (Some (109 # 100)) "sell") as H.
  cbv zeta in H. change (String.eqb (lower "sell") "buy") with false in H.
  cbv iota in H.
  destruct H as [(_ & _ & _ & Htp) Hidem].
  split.
  - apply (Htp (109 # 100)); [reflexivity | | |]; vm_compute; congruence.
  - apply Hidem; vm_compute; congruence.
Defined.
(** ** Filling modes *)

(** [_get_filling_modes] never returns an empty list, so the submission
    loops always have a mode to try; what it returns is taken from RETURN,
    IOC, FOK in that order of preference; and for a known symbol a mode is
    returned only when the symbol's bitmask flags it, unless the bitmask
    flags none of the three, in which case all three are returned. *)
Theorem get_filling_modes_preference (c : Mt5Const) (symbol_info : option SymbolInfo) :
  let all_modes := [ORDER_FILLING_RETURN c; ORDER_FILLING_IOC c; ORDER_FILLING_FOK c] in
  let modes := _get_filling_modes c symbol_info in
  modes <> [] /\
  modes `sublist_of` all_modes /\
  match symbol_info with
  | None => modes = all_modes
  | Some info =>
      modes = all_modes /\
        Forall (fun m => Z.land (filling_mode info) m = 0%Z) all_modes \/
      Forall (fun m => Z.land (filling_mode info) m <> 0%Z) modes
  end.
Proof.
  intros all_modes modes. subst all_modes modes.
  destruct symbol_info as [info |]; cbn [_get_filling_modes].
  - destruct (Z.land (filling_mode info) (ORDER_FILLING_RETURN c) =? 0)%Z eqn:Hr;
      destruct (Z.land (filling_mode info) (ORDER_FILLING_IOC c) =? 0)%Z eqn:Hi;
      destruct (Z.land (filling_mode info) (ORDER_FILLING_FOK c) =? 0)%Z eqn:Hf;
      cbn [app];
      repeat match goal with
      | H : (_ =? _)%Z = true |- _ => apply Z.eqb_eq in H
      | H : (_ =? _)%Z = false |- _ => apply Z.eqb_neq in H
      end;
      (split; [discriminate |]);
      (split;
       [ repeat first [ apply sublist_nil_l | apply sublist_skip | apply sublist_cons ] |]);
      first [ solve [left; split; [reflexivity | repeat (constructor; try assumption)]]
            | solve [right; repeat (constructor; try assumption)] ].
  - split; [discriminate |]. split; reflexivity.
Qed.
(** ** The metrics of the order flow *)

Lemma py_round_nd_comp x y n : (x == y)%Q -> py_round_nd x n = py_round_nd y n.
Proof.
  intros H. unfold py_round_nd.
  rewrite (py_round_comp (x * _) (y * inject_Z (10 ^ Z.of_nat n))); [reflexivity |].
  rewrite H. reflexivity.
Qed.

Lemma scale_pos n : (0 < inject_Z (10 ^ Z.of_nat n))%Q.
Proof.
  change 0%Q with (inject_Z 0). rewrite <- Zlt_Qlt. apply Z.pow_pos_nonneg; lia.
Qed.

Lemma py_round_nd_mono x y n : (x <= y)%Q -> (py_round_nd x n <= py_round_nd y n)%Q.
Proof.
  intros H. unfold py_round_nd.
  pose proof (scale_pos n) as Hs. set (s := inject_Z (10 ^ Z.of_nat n)) in *.
  assert (Hr : (py_round (x * s) <= py_round (y * s))%Z).
  { apply py_round_mono. apply Qmult_le_compat_r; lra. }
  rewrite Zle_Qle in Hr.
  unfold Qdiv. apply Qmult_le_compat_r; [exact Hr |].
  apply Qlt_le_weak, Qinv_lt_0_compat, Hs.
Qed.

Lemma py_round_nd_0 n : (py_round_nd 0 n == 0)%Q.
Proof.
  unfold py_round_nd.
  rewrite (py_round_comp (0 * _) (inject_Z 0)) by ring.
  rewrite py_round_Z. pose proof (scale_pos n). field. lra.
Qed.

(** What a metrics answer is made of: the ticks in the window, the volumes
    attributed to the two sides, and the fields computed from them. *)
Lemma compute_order_flow_fields acc symbol window now d :
  compute_order_flow acc symbol window now = Some d ->
  exists first rest bid_volume ask_volume,
    recent_ticks acc symbol window now = first :: rest /\
    (5 <= length (buffer_of acc symbol))%nat /\
    (bid_volume, ask_volume) =
      (let '(b, a) := attribute_volume first rest (0%Q, 0%Q) in
       if Qeqb b 0 && Qeqb a 0 then
         ((average_volume (first :: rest) * (1 # 2))%Q,
          (average_volume (first :: rest) * (1 # 2))%Q)
       else (b, a)) /\
    float_field d "bid_volume" = Some (py_round_nd bid_volume 2) /\
    float_field d "ask_volume" = Some (py_round_nd ask_volume 2) /\
    float_field d "delta" = Some (py_round_nd (ask_volume - bid_volume) 2) /\
    str_field d "delta_sign" =
      Some (if Qgtb (ask_volume - bid_volume) 0 then "buying_pressure"
            else if Qltb (ask_volume - bid_volume) 0 then "selling_pressure"
            else "neutral") /\
    float_field d "imbalance_buy_pct" =
      Some (py_round_nd (if Qgtb (bid_volume + ask_volume) 0
                         then ask_volume / (bid_volume + ask_volume) * 100
                         else 50) 1) /\
    float_field d "imbalance_sell_pct" =
      Some (py_round_nd (if Qgtb (bid_volume + ask_volume) 0
                         then bid_volume / (bid_volume + ask_volume) * 100
                         else 50) 1).
Proof.
  unfold compute_order_flow, recent_ticks, buffer_of.
  destruct (tick_buffers acc !! symbol) as [ticks |]; [| discriminate].
  cbn [default from_option id].
  destruct (length ticks <? 5)%nat eqn:Hlen; [discriminate |].
  apply Nat.ltb_ge in Hlen.
  destruct (filter _ ticks) as [| first rest] eqn:Hrecent; [discriminate |].
  destruct (attribute_volume first rest (0%Q, 0%Q)) as [b a] eqn:Hattr.
  destruct (Qeqb b 0 && Qeqb a 0) eqn:Hzero;
    intros [= <-]; eexists first, rest, _, _;
    (split; [reflexivity |]); (split; [exact Hlen |]);
    rewrite Hattr, Hzero;
    (split; [reflexivity |]); repeat split.
Qed.


(** The sign of the delta agrees with what is reported: under
    "buying_pressure" the reported ask volume is not below the reported bid
    volume and the reported delta is not negative; under "selling_pressure"
    the reverse; under "neutral" the two volumes are equal and the delta is
    zero.  No other sign is reported. *)
Theorem order_flow_delta_sign acc symbol window now d :
  compute_order_flow acc symbol window now = Some d ->
  exists bid ask delta sign,
    float_field d "bid_volume" = Some bid /\
    float_field d "ask_volume" = Some ask /\
    float_field d "delta" = Some delta /\
    str_field d "delta_sign" = Some sign /\
    (sign = "buying_pressure" /\ (bid <= ask)%Q /\ (0 <= delta)%Q \/
     sign = "selling_pressure" /\ (ask <= bid)%Q /\ (delta <= 0)%Q \/
     sign = "neutral" /\ (ask == bid)%Q /\ (delta == 0)%Q).
Proof.
  intros H.
  apply compute_order_flow_fields in H
    as (first & rest & b & a & _ & _ & _ & Hbid & Hask & Hdelta & Hsign & _).
  eexists _, _, _, _. split; [exact Hbid |]. split; [exact Hask |].
  split; [exact Hdelta |]. split; [exact Hsign |].
  pose proof (py_round_nd_0 2) as H0.
  destruct (Qgtb (a - b) 0) eqn:Hpos; [| destruct (Qltb (a - b) 0) eqn:Hneg]; reflect_Q.
  - left. split; [reflexivity |]. split.
    + apply py_round_nd_mono. lra.
    + rewrite <- H0. apply py_round_nd_mono. lra.
  - right; left. split; [reflexivity |]. split.
    + apply py_round_nd_mono. lra.
    + rewrite <- H0. apply py_round_nd_mono. lra.
  - right; right. split; [reflexivity |]. split.
    + rewrite (py_round_nd_comp a b) by lra. reflexivity.
    + rewrite (py_round_nd_comp (a - b) 0) by lra. exact H0.
Qed.

Lemma order_flow_delta_sign_witness :
  exists d bid ask,
    compute_order_flow stale_acc "EURUSD" None 100 = Some d /\
    float_field d "bid_volume" = Some bid /\
    float_field d "ask_volume" = Some ask /\
    str_field d "delta_sign" = Some "neutral" /\
    (ask == bid)%Q.
Proof.
  destruct (compute_order_flow stale_acc "EURUSD" None 100) as [d |] eqn:E;
    [| vm_compute in E; discriminate E].
  destruct (order_flow_delta_sign stale_acc "EURUSD" None 100%Z d E)
    as (bid & ask & delta & sign & Hb & Ha & _ & Hs & Hcases).
  exists d, bid, ask. split; [reflexivity |]. split; [exact Hb |]. split; [exact Ha |].
  assert (Hn : str_field d "delta_sign" = Some "neutral")
    by (vm_compute in E; injection E as <-; reflexivity).
  split; [exact Hn |].
  rewrite Hn in Hs. injection Hs as <-.
  destruct Hcases as [[Hc _] | [[Hc _] | (_ & Heq & _)]];
    [discriminate Hc | discriminate Hc | exact Heq].
Defined.
(** The attribution loop hands out each tick's volume in full, whole or in
    two halves. *)
Lemma attribute_volume_total rest : forall prev b0 a0,
  exists m n : Z,
    (fst (attribute_volume prev rest (b0, a0)) == b0 + inject_Z m * (1 # 2))%Q /\
    (snd (attribute_volume prev rest (b0, a0)) == a0 + inject_Z n * (1 # 2))%Q /\
    (m + n = 2 * total_volume_or_1 rest)%Z /\
    (Forall (fun t => (0 <= td_volume t)%Z) rest -> (0 <= m)%Z /\ (0 <= n)%Z).
Proof.
  induction rest as [| curr rest IH]; intros prev b0 a0.
  - exists 0%Z, 0%Z. cbn. repeat split; try lia; ring.
  - cbn [attribute_volume].
    assert (Hv : Forall (fun t => (0 <= td_volume t)%Z) (curr :: rest) ->
                 (1 <= volume_or_1 curr)%Z /\
                 Forall (fun t => (0 <= td_volume t)%Z) rest).
    { intros H. inversion H as [| ? ? Hc Hr]; subst. split; [| exact Hr].
      unfold volume_or_1. destruct (td_volume curr =? 0)%Z eqn:E; [lia |].
      apply Z.eqb_neq in E. lia. }
    set (v := volume_or_1 curr) in *.
    assert (Ht : total_volume_or_1 (curr :: rest) = (v + total_volume_or_1 rest)%Z)
      by reflexivity.
    destruct (Qgtb (mid_price curr) (mid_price prev));
      [| destruct (Qltb (mid_price curr) (mid_price prev))].
    + destruct (IH curr b0 (a0 + inject_Z v)%Q) as (m & n & Hb & Ha & Hsum & Hpos).
      exists m, (n + 2 * v)%Z. rewrite Hb, Ha, Ht.
      rewrite inject_Z_plus, inject_Z_mult.
      split; [reflexivity |]. split; [change (inject_Z 2) with 2%Q; ring |].
      split; [lia |]. intros H. apply Hv in H as [H1 H2]. apply Hpos in H2. lia.
    + destruct (IH curr (b0 + inject_Z v)%Q a0) as (m & n & Hb & Ha & Hsum & Hpos).
      exists (m + 2 * v)%Z, n. rewrite Hb, Ha, Ht.
      rewrite inject_Z_plus, inject_Z_mult.
      split; [change (inject_Z 2) with 2%Q; ring |]. split; [reflexivity |].
      split; [lia |]. intros H. apply Hv in H as [H1 H2]. apply Hpos in H2. lia.
    + destruct (IH curr (b0 + inject_Z v * (1 # 2))%Q (a0 + inject_Z v * (1 # 2))%Q)
        as (m & n & Hb & Ha & Hsum & Hpos).
      exists (m + v)%Z, (n + v)%Z. rewrite Hb, Ha, Ht.
      rewrite !inject_Z_plus.
      split; [ring |]. split; [ring |].
      split; [lia |]. intros H. apply Hv in H as [H1 H2]. apply Hpos in H2. lia.
Qed.

Lemma total_volume_or_1_pos rest :
  rest <> [] -> Forall (fun t => (0 <= td_volume t)%Z) rest ->
  (1 <= total_volume_or_1 rest)%Z.
Proof.
  intros Hne H. induction H as [| t rest Ht Hr IH]; [contradiction |].
  assert (Hv : (1 <= volume_or_1 t)%Z).
  { unfold volume_or_1. destruct (td_volume t =? 0)%Z eqn:E; [lia |].
    apply Z.eqb_neq in E. lia. }
  change (total_volume_or_1 (t :: rest)) with (volume_or_1 t + total_volume_or_1 rest)%Z.
  destruct rest as [| t' rest']; [cbn; lia |].
  assert (1 <= total_volume_or_1 (t' :: rest'))%Z by (apply IH; discriminate). lia.
Qed.

(** A whole number of halves is its own rounding to two decimals. *)
Lemma py_round_nd_half m x :
  (x == inject_Z m * (1 # 2))%Q -> (py_round_nd x 2 == x)%Q.
Proof.
  intros H. unfold py_round_nd.
  assert (E : (x * inject_Z (10 ^ Z.of_nat 2) == inject_Z (50 * m))%Q).
  { rewrite H, inject_Z_mult. change (inject_Z (10 ^ Z.of_nat 2)) with 100%Q.
    change (inject_Z 50) with 50%Q. ring. }
  rewrite (py_round_comp _ _ E), py_round_Z, H, inject_Z_mult.
  change (inject_Z (10 ^ Z.of_nat 2)) with 100%Q. change (inject_Z 50) with 50%Q.
  field.
Qed.

(** Volume is conserved.  When at least two ticks lie in the window and no
    tick after the first carries a negative volume, the reported bid and ask
    volumes are not negative and add up to the volume of the ticks after the
    first (a tick without volume counting as 1): each of these ticks is
    attributed in full, to one side or half to each. *)
Theorem order_flow_volume_conserved acc symbol window now d first rest :
  compute_order_flow acc symbol window now = Some d ->
  recent_ticks acc symbol window now = first :: rest ->
  rest <> [] ->
  Forall (fun t => (0 <= td_volume t)%Z) rest ->
  exists bid ask,
    float_field d "bid_volume" = Some bid /\
    float_field d "ask_volume" = Some ask /\
    (0 <= bid)%Q /\ (0 <= ask)%Q /\
    (bid + ask == inject_Z (total_volume_or_1 rest))%Q.
Proof.
  intros H Hrecent Hne Hvol.
  apply compute_order_flow_fields in H
    as (first' & rest' & b & a & Hrecent' & _ & Hba & Hbid & Hask & _).
  rewrite Hrecent in Hrecent'. injection Hrecent' as <- <-.
  destruct (attribute_volume_total rest first 0%Q 0%Q) as (m & n & Hb & Ha & Hsum & Hpos).
  destruct (Hpos Hvol) as [Hm Hn].
  pose proof (total_volume_or_1_pos rest Hne Hvol) as Htotal.
  destruct (attribute_volume first rest (0%Q, 0%Q)) as [b' a'] eqn:Hattr.
  cbn [fst snd] in Hb, Ha.
  assert (Hmq : (0 <= inject_Z m)%Q) by (change 0%Q with (inject_Z 0); rewrite <- Zle_Qle; exact Hm).
  assert (Hnq : (0 <= inject_Z n)%Q) by (change 0%Q with (inject_Z 0); rewrite <- Zle_Qle; exact Hn).
  assert (Hsq : (inject_Z m + inject_Z n == 2 * inject_Z (total_volume_or_1 rest))%Q).
  { rewrite <- inject_Z_plus, Hsum, inject_Z_mult. reflexivity. }
  assert (Htq : (1 <= inject_Z (total_volume_or_1 rest))%Q)
    by (change 1%Q with (inject_Z 1); rewrite <- Zle_Qle; exact Htotal).
  assert (Hz : Qeqb b' 0 && Qeqb a' 0 = false).
  { destruct (Qeqb b' 0) eqn:E1; [| reflexivity].
    destruct (Qeqb a' 0) eqn:E2; [| reflexivity].
    reflect_Q. exfalso. lra. }
  rewrite Hz in Hba. injection Hba as -> ->.
  exists (py_round_nd b' 2), (py_round_nd a' 2).
  split; [exact Hbid |]. split; [exact Hask |].
  assert (Eb : (b' == inject_Z m * (1 # 2))%Q) by (rewrite Hb; ring).
  assert (Ea : (a' == inject_Z n * (1 # 2))%Q) by (rewrite Ha; ring).
  rewrite (py_round_nd_half m b' Eb), (py_round_nd_half n a' Ea).
  repeat split; lra.
Qed.

(** The five stale ticks read at second 100: three ticks in the window, the
    two after the first carrying volume 1 each. *)
Lemma order_flow_volume_conserved_witness :
  exists d bid ask,
    compute_order_flow stale_acc "EURUSD" None 100 = Some d /\
    float_field d "bid_volume" = Some bid /\
    float_field d "ask_volume" = Some ask /\
    (bid + ask == 2)%Q.
Proof.
  destruct (compute_order_flow stale_acc "EURUSD" None 100) as [d |] eqn:E;
    [| vm_compute in E; discriminate E].
  destruct (recent_ticks stale_acc "EURUSD" None 100) as [| first rest] eqn:Hr;
    [vm_compute in Hr; discriminate Hr |].
  assert (Hrest : rest = map tick_of (drop 3 stale_ticks) /\ first = tick_of
            {| in_symbol := "EURUSD"; in_bid := 11 # 10; in_ask := 11001 # 10000;
               in_volume := 1; in_time := 50 |}).
  { vm_compute in Hr. injection Hr as <- <-. split; reflexivity. }
  destruct Hrest as [Hrest _].
  destruct (order_flow_volume_conserved stale_acc "EURUSD" None 100%Z d first rest E Hr)
    as (bid & ask & Hb & Ha & _ & _ & Hsum).
  - rewrite Hrest. discriminate.
  - rewrite Hrest. repeat constructor; vm_compute; congruence.
  - exists d, bid, ask. split; [reflexivity |]. split; [exact Hb |]. split; [exact Ha |].
    rewrite Hsum, Hrest. reflexivity.
Defined.
(** ** Clearing and refilling the buffers *)

(** After [clear_symbol] the symbol has no buffer: [compute_order_flow]
    reports insufficient data for it whatever the window, the next tick
    starts a buffer of its own, and the buffers of the other symbols, hence
    their metrics, are what they were.  After [clear_all] every symbol
    reports insufficient data. *)
Theorem clear_symbol_forgets (acc : OrderFlowAccumulator) (symbol : string) :
  (forall window now,
     compute_order_flow (clear_symbol acc symbol) symbol window now = None) /\
  (forall bid ask volume time now,
     buffer_of (add_tick (clear_symbol acc symbol) symbol bid ask volume time now) symbol =
     evict (match time with Some t => t | None => now end - lookback_seconds acc)
           [mk_TickData symbol bid ask volume
              match time with Some t => t | None => now end]) /\
  (forall other window now,
     other <> symbol ->
     buffer_of (clear_symbol acc symbol) other = buffer_of acc other /\
     compute_order_flow (clear_symbol acc symbol) other window now =
     compute_order_flow acc other window now) /\
  (forall other window now,
     compute_order_flow (clear_all acc) other window now = None).
Proof.
  assert (Hgone : tick_buffers (clear_symbol acc symbol) !! symbol = None).
  { unfold clear_symbol. destruct (tick_buffers acc !! symbol) eqn:E.
    - cbn [tick_buffers]. apply lookup_delete_eq.
    - exact E. }
  assert (Hlook : lookback_seconds (clear_symbol acc symbol) = lookback_seconds acc).
  { unfold clear_symbol. destruct (tick_buffers acc !! symbol); reflexivity. }
  assert (Hmult : large_order_multiplier (clear_symbol acc symbol) =
                  large_order_multiplier acc).
  { unfold clear_symbol. destruct (tick_buffers acc !! symbol); reflexivity. }
  assert (Hother : forall other, other <> symbol ->
            tick_buffers (clear_symbol acc symbol) !! other = tick_buffers acc !! other).
  { intros other Hne. unfold clear_symbol.
    destruct (tick_buffers acc !! symbol); [| reflexivity].
    cbn [tick_buffers]. apply lookup_delete_ne. congruence. }
  split; [| split; [| split]].
  - intros window now. unfold compute_order_flow. rewrite Hgone. reflexivity.
  - intros bid ask volume time now. rewrite add_tick_buffer, Hlook.
    unfold buffer_of. rewrite Hgone. reflexivity.
  - intros other window now Hne. split.
    + unfold buffer_of. rewrite Hother by exact Hne. reflexivity.
    + unfold compute_order_flow. rewrite Hother by exact Hne.
      rewrite Hlook, Hmult. reflexivity.
  - intros other window now. unfold compute_order_flow, clear_all.
    cbn [tick_buffers]. rewrite lookup_empty. reflexivity.
Qed.

(** Clearing EURUSD leaves the buffer of another symbol as it was. *)
Lemma clear_symbol_forgets_witness :
  compute_order_flow (clear_symbol stale_acc "EURUSD") "EURUSD" None 100 = None /\
  buffer_of (clear_symbol stale_acc "EURUSD") "GOLD" = buffer_of stale_acc "GOLD".
Proof.
  destruct (clear_symbol_forgets stale_acc "EURUSD") as (Hnone & _ & Hother & _).
  split; [apply Hnone |].
  apply (Hother "GOLD" None 100%Z). discriminate.
Defined.

(** [get_accumulator] creates the instance once: a second call returns the
    instance of the first, with whatever it has accumulated since. *)
Lemma get_accumulator_once global :
  let '(acc, global') := get_accumulator global in
  global' = Some acc /\
  (global = None -> acc = new_accumulator 60) /\
  forall acc', get_accumulator (Some acc') = (acc', Some acc').
Proof.
  destruct global as [acc |]; cbn; repeat split; congruence.
Qed.

(** ** Ticks that arrive in time order *)

Lemma filter_all {A} (P : A -> Prop) `{!forall x, Decision (P x)} (l : list A) :
  Forall P l -> filter P l = l.
Proof.
  induction 1 as [| x l Hx _ IH]; [reflexivity |].
  rewrite filter_cons, decide_True by exact Hx. f_equal. exact IH.
Qed.

Lemma time_ordered_filter (P : TickData -> Prop) `{!forall x, Decision (P x)} buf :
  time_ordered buf -> time_ordered (filter P buf).
Proof.
  unfold time_ordered. induction 1 as [| t r Hr IH Ht]; [constructor |].
  rewrite filter_cons. destruct (decide (P t)); [| exact IH].
  constructor; [exact IH |].
  rewrite Forall_forall in Ht |- *. intros x Hx.
  apply list_elem_of_filter in Hx as [_ Hx]. apply Ht, Hx.
Qed.

(** On a buffer in time order, eviction keeps exactly the entries that are
    not older than the cutoff. *)
Lemma evict_time_ordered cutoff buf :
  time_ordered buf ->
  evict cutoff buf = filter (fun t => (cutoff <= td_time t)%Z) buf.
Proof.
  unfold time_ordered. induction 1 as [| t r Hr IH Ht]; [reflexivity |].
  cbn [evict]. rewrite filter_cons.
  destruct (td_time t <? cutoff)%Z eqn:E.
  - apply Z.ltb_lt in E. rewrite decide_False by lia. exact IH.
  - apply Z.ltb_ge in E. rewrite decide_True by lia. f_equal.
    symmetry. apply filter_all.
    eapply Forall_impl; [exact Ht |]. cbn. intros; lia.
Qed.

Lemma add_ticks_snoc acc ticks t :
  add_ticks acc (ticks ++ [t]) =
  add_tick (add_ticks acc ticks) (in_symbol t) (in_bid t) (in_ask t) (in_volume t)
    (Some (in_time t)) (in_time t).
Proof. unfold add_ticks. rewrite fold_left_app. reflexivity. Qed.

Lemma fed_for_snoc symbol ticks t :
  fed_for symbol (ticks ++ [t]) =
  fed_for symbol ticks ++ (if decide (in_symbol t = symbol) then [tick_of t] else []).
Proof.
  unfold fed_for. rewrite filter_app, map_app. f_equal.
  rewrite filter_cons, filter_nil. destruct (decide (in_symbol t = symbol)); reflexivity.
Qed.

Lemma time_ordered_app_inv l1 l2 :
  time_ordered (l1 ++ l2) ->
  time_ordered l1 /\
  forall a b, a ∈ l1 -> b ∈ l2 -> (td_time a <= td_time b)%Z.
Proof.
  unfold time_ordered. induction l1 as [| x l1 IH]; cbn [app]; intros H.
  - split; [constructor |]. intros a b Ha. inversion Ha.
  - inversion H as [| ? ? Hs Hall]; subst.
    destruct (IH Hs) as [H1 H2].
    rewrite Forall_app in Hall. destruct Hall as [Hall1 Hall2].
    split; [constructor; assumption |].
    intros a b Ha Hb. apply elem_of_cons in Ha as [-> | Ha].
    + rewrite Forall_forall in Hall2. apply Hall2, Hb.
    + apply H2; assumption.
Qed.

(** When the ticks of a symbol arrive in time order, its buffer holds
    exactly the ticks stamped within the lookback of the latest one: nothing
    older is kept and nothing younger is lost. *)
Theorem add_ticks_in_order (lookback : Z) (ticks : list TickInput) (symbol : string) :
  time_ordered (fed_for symbol ticks) ->
  buffer_of (add_ticks (new_accumulator lookback) ticks) symbol =
  match last (fed_for symbol ticks) with
  | None => []
  | Some latest =>
      filter (fun t => (td_time latest - lookback <= td_time t)%Z) (fed_for symbol ticks)
  end.
Proof.
  induction ticks as [| t ticks IH] using rev_ind; intros Hord.
  - unfold buffer_of. cbn. rewrite lookup_empty. reflexivity.
  - rewrite add_ticks_snoc. rewrite fed_for_snoc in Hord |- *.
    destruct (decide (in_symbol t = symbol)) as [Hs | Hs].
    + apply time_ordered_app_inv in Hord as [Hprev Hle].
      specialize (IH Hprev).
      rewrite last_snoc. rewrite Hs. rewrite add_tick_buffer.
      rewrite add_ticks_lookback. cbn [lookback_seconds new_accumulator].
      rewrite <- Hs at 2.
      change (mk_TickData (in_symbol t) (in_bid t) (in_ask t) (in_volume t) (in_time t))
        with (tick_of t).
      change (td_time (tick_of t)) with (in_time t).
      assert (Hbuf : time_ordered
                (buffer_of (add_ticks (new_accumulator lookback) ticks) symbol
                 ++ [tick_of t])).
      { rewrite IH. apply time_ordered_snoc.
        - destruct (last (fed_for symbol ticks)); [| constructor].
          apply time_ordered_filter, Hprev.
        - rewrite Forall_forall. intros x Hx. apply Hle; [| apply list_elem_of_singleton; reflexivity].
          destruct (last (fed_for symbol ticks)); [| inversion Hx].
          apply list_elem_of_filter in Hx as [_ Hx]. exact Hx. }
      rewrite (evict_time_ordered _ _ Hbuf), !filter_app. f_equal.
      rewrite IH. destruct (last (fed_for symbol ticks)) as [latest |] eqn:Hlast.
      * apply list_filter_filter_l. intros x Hx.
        assert (td_time latest <= td_time (tick_of t))%Z.
        { apply Hle; [apply last_Some_elem_of, Hlast | apply list_elem_of_singleton; reflexivity]. }
        change (td_time (tick_of t)) with (in_time t) in *. lia.
      * apply last_None in Hlast. rewrite Hlast. reflexivity.
    + rewrite add_tick_other by congruence. rewrite app_nil_r in Hord |- *.
      apply IH, Hord.
Qed.

(** The thirteen ticks ten seconds apart: after the last one, at second 120,
    the buffer holds the seven ticks from second 60 on. *)
Lemma add_ticks_in_order_witness :
  buffer_of (add_ticks (new_accumulator 60) spread_ticks) "EURUSD" =
  map tick_of (drop 6 spread_ticks).
Proof.
  rewrite (add_ticks_in_order 60 spread_ticks "EURUSD").
  - vm_compute. reflexivity.
  - repeat constructor; vm_compute; congruence.
Defined.

(** ** The webhook emitter, whatever the network does *)

Lemma backoff_sleeps_S attempt n :
  backoff_sleeps attempt (S n) = (2 ^ attempt)%Z :: backoff_sleeps (attempt + 1) n.
Proof.
  unfold backoff_sleeps. cbn [seq map]. rewrite Z.add_0_r. f_equal.
  rewrite <- seq_shift, map_map. apply map_ext. intros i.
  f_equal. lia.
Qed.

(** The loop of [_emit_event], entered with [remaining] attempts left of
    [retry_count]: [n] posts are made; all but the last fail and are each
    followed by a sleep; the loop ends on a post answered with 200, or runs
    out when the last post fails too. *)
Lemma emit_attempts_spec (event : dict) (retry_count : Z) (remaining : nat) :
  forall (attempt : Z) (em : Emitter),
    (attempt + Z.of_nat remaining = retry_count)%Z ->
    let result := emit_attempts event retry_count remaining attempt em in
    exists n : nat,
      (n <= remaining)%nat /\ ((1 <= remaining)%nat -> (1 <= n)%nat) /\
      em_net (snd result) = em_net em /\
      em_posted (snd result) = em_posted em ++ repeat event n /\
      em_slept (snd result) = em_slept em ++ backoff_sleeps attempt (n - 1) /\
      (forall i, (i < n - 1)%nat -> failing (em_net em (length (em_posted em) + i))) /\
      match fst result with
      | Some delivered =>
          delivered = true /\ (1 <= n)%nat /\
          exists text, em_net em (length (em_posted em) + (n - 1)) = PostStatus 200 text
      | None =>
          n = remaining /\
          forall i, (i < n)%nat -> failing (em_net em (length (em_posted em) + i))
      end.
Proof.
  induction remaining as [| r IH]; intros attempt em Hrc result; subst result.
  - exists 0%nat. cbn [emit_attempts fst snd repeat backoff_sleeps Nat.sub seq map].
    rewrite !app_nil_r. repeat split; try lia; intros; lia.
  - assert (Hnext : forall level msg,
        failing (em_net em (length (em_posted em))) ->
        let result :=
          emit_attempts event retry_count r (attempt + 1)
            (backoff attempt retry_count (em_logger level msg (snd (em_post event em)))) in
        exists n : nat,
          (n <= S r)%nat /\ ((1 <= S r)%nat -> (1 <= n)%nat) /\
          em_net (snd result) = em_net em /\
          em_posted (snd result) = em_posted em ++ repeat event n /\
          em_slept (snd result) = em_slept em ++ backoff_sleeps attempt (n - 1) /\
          (forall i, (i < n - 1)%nat -> failing (em_net em (length (em_posted em) + i))) /\
          match fst result with
          | Some delivered =>
              delivered = true /\ (1 <= n)%nat /\
              exists text,
                em_net em (length (em_posted em) + (n - 1)) = PostStatus 200 text
          | None =>
              n = S r /\
              forall i, (i < n)%nat -> failing (em_net em (length (em_posted em) + i))
          end).
    { intros level msg Hfail result.
      set (em1 := backoff attempt retry_count (em_logger level msg (snd (em_post event em))))
        in *.
      assert (Hnet : em_net em1 = em_net em)
        by (subst em1; unfold backoff; destruct (attempt <? retry_count - 1)%Z; reflexivity).
      assert (Hposted : em_posted em1 = em_posted em ++ [event])
        by (subst em1; unfold backoff; destruct (attempt <? retry_count - 1)%Z; reflexivity).
      assert (Hslept : em_slept em1 =
                       em_slept em ++ (if (attempt <? retry_count - 1)%Z
                                       then [2 ^ attempt]%Z else []))
        by (subst em1; unfold backoff; destruct (attempt <? retry_count - 1)%Z;
            [reflexivity | cbn; rewrite app_nil_r; reflexivity]).
      destruct (IH (attempt + 1)%Z em1 ltac:(lia))
        as (n & Hn & Hn1 & Hnet' & Hposted' & Hslept' & Hfails & Hend).
      fold result in Hnet', Hposted', Hslept', Hend.
      rewrite Hnet in Hnet', Hfails, Hend.
      rewrite Hposted in Hposted', Hfails, Hend. rewrite Hslept in Hslept'.
      rewrite length_app in Hfails, Hend. cbn [length] in Hfails, Hend.
      exists (S n). split; [lia |]. split; [lia |]. split; [exact Hnet' |].
      split; [rewrite Hposted', <- app_assoc; reflexivity |].
      assert (Hshift : forall i, em_net em (length (em_posted em) + 1 + i)
                                 = em_net em (length (em_posted em) + S i))
        by (intros i; f_equal; lia).
      split; [| split].
      - rewrite Hslept', <- app_assoc. f_equal.
        replace (S n - 1)%nat with n by lia.
        destruct r as [| r'].
        + assert (n = 0)%nat by lia. subst n.
          rewrite (proj2 (Z.ltb_ge _ _)) by lia. reflexivity.
        + rewrite (proj2 (Z.ltb_lt _ _)) by lia.
          destruct n as [| n']; [lia |].
          rewrite backoff_sleeps_S. replace (S n' - 1)%nat with n' by lia. reflexivity.
      - intros i Hi. destruct i as [| i'].
        + rewrite Nat.add_0_r. exact Hfail.
        + rewrite <- Hshift. apply Hfails. lia.
      - destruct (fst result) as [delivered |].
        + destruct Hend as (Hd & Hge & text & Htext).
          split; [exact Hd |]. split; [lia |]. exists text.
          rewrite <- Htext. f_equal. lia.
        + destruct Hend as [-> Hall]. split; [reflexivity |].
          intros i Hi. destruct i as [| i'].
          * rewrite Nat.add_0_r. exact Hfail.
          * rewrite <- Hshift. apply Hall. lia. }
    cbn [emit_attempts em_post].
    change {| webhook_url := webhook_url em; enabled := enabled em; em_net := em_net em;
              em_posted := em_posted em ++ [event]; em_slept := em_slept em;
              em_log := em_log em |} with (snd (em_post event em)).
    destruct (em_net em (length (em_posted em))) as [status text | | e] eqn:Hout.
    + destruct (status =? 200)%Z eqn:Hs.
      * apply Z.eqb_eq in Hs. subst status.
        exists 1%nat. cbn [fst snd em_logger em_post em_net em_posted em_slept repeat
                            Nat.sub backoff_sleeps seq map].
        rewrite app_nil_r, Nat.add_0_r.
        split; [lia |]. split; [lia |]. split; [reflexivity |]. split; [reflexivity |].
        split; [reflexivity |]. split; [intros; lia |].
        split; [reflexivity |]. split; [lia |]. exists text. exact Hout.
      * apply Z.eqb_neq in Hs.
        destruct text as [[] | text]; apply Hnext; exact Hs.
    + apply Hnext. exact Logic.I.
    + destruct e; apply Hnext; exact Logic.I.
Qed.

(** Whatever the network does, [_emit_event] on an enabled emitter with a
    webhook URL makes at most [retry_count] POSTs of the event: the first
    [n - 1] fail and each is followed by one sleep, of 1, 2, 4, ... seconds
    (so no sleep follows the last POST); it returns [True] exactly when the
    last POST was answered with status 200, and returns [False] only after
    [retry_count] failed POSTs. *)
Theorem emit_event_attempts (event : dict) (retry_count : Z) (em : Emitter) :
  enabled em = true -> webhook_url em <> "" -> (0 <= retry_count)%Z ->
  let result := _emit_event event retry_count em in
  exists n : nat,
    (Z.of_nat n <= retry_count)%Z /\
    em_posted (snd result) = em_posted em ++ repeat event n /\
    em_slept (snd result) = em_slept em ++ backoff_sleeps 0 (n - 1) /\
    (forall i, (i < n - 1)%nat -> failing (em_net em (length (em_posted em) + i))) /\
    if fst result then
      (1 <= n)%nat /\
      exists text, em_net em (length (em_posted em) + (n - 1)) = PostStatus 200 text
    else
      Z.of_nat n = retry_count /\
      forall i, (i < n)%nat -> failing (em_net em (length (em_posted em) + i)).
Proof.
  intros Hen Hurl Hrc result. subst result. unfold _emit_event.
  rewrite Hen. cbn [negb].
  destruct (String.eqb (webhook_url em) "") eqn:E;
    [apply String.eqb_eq in E; contradiction |].
  destruct (emit_attempts_spec event retry_count (Z.to_nat retry_count) 0 em ltac:(lia))
    as (n & Hn & _ & _ & Hposted & Hslept & Hfails & Hend).
  destruct (emit_attempts event retry_count (Z.to_nat retry_count) 0 em)
    as [[delivered |] em'] eqn:Hrun; cbn [fst snd] in *.
  - destruct Hend as (-> & Hge & Htext).
    exists n. split; [lia |]. auto.
  - destruct Hend as [-> Hall].
    exists (Z.to_nat retry_count). split; [lia |].
    split; [exact Hposted |]. split; [exact Hslept |]. split; [exact Hfails |].
    split; [lia | exact Hall].
Qed.

(** The webhook that always answers 500, with the default of three attempts:
    three posts and two sleeps. *)
Lemma emit_event_attempts_witness :
  exists n : nat,
    em_posted (snd (_emit_event order_sent_event 3 failing_emitter)) =
      repeat order_sent_event n /\
    em_slept (snd (_emit_event order_sent_event 3 failing_emitter)) =
      backoff_sleeps 0 (n - 1).
Proof.
  destruct (emit_event_attempts order_sent_event 3 failing_emitter)
    as (n & _ & Hposted & Hslept & _).
  - reflexivity.
  - discriminate.
  - lia.
  - exists n. split; [exact Hposted | exact Hslept].
Defined.

(** ** Invariants the client operations keep *)

Section Stable.
Context (I : World -> Prop) (HI : stable I).

Lemma stable_native {R A} (name : string) (answer : Terminal -> A * Terminal)
    (Rp : R -> Prop) :
  reads_only answer ->
  triple I (native name answer : Py R A) anything Rp anything.
Proof.
  intros Hread w Hw. unfold native.
  assert (Hcalled : I (set_term (t_called name (term w)) w))
    by (apply (stable_term I HI); [exact Hw | reflexivity ..]).
  destruct (assoc name (t_raises (t_called name (term w)))); simpl.
  - split; [exact Hcalled | exact Logic.I].
  - destruct (Hread (t_called name (term w))) as (Hc & Hy & Hp & Hs).
    destruct (answer (t_called name (term w))) as [a t']. simpl in *.
    split; [| exact Logic.I].
    apply (stable_term I HI); [exact Hw | exact Hc | exact Hy | exact Hp | exact Hs].
Qed.

Lemma stable_get_self {R} (Rp : R -> Prop) E :
  triple I (get_self : Py R MT5Client) anything Rp E.
Proof.
  intros w Hw. unfold get_self.
  pose proof (stable_client I HI w Hw) as Hc. unfold has_client in Hc.
  destruct (mt5_client w); [| contradiction]. simpl.
  split; [exact Hw | exact Logic.I].
Qed.

Lemma stable_consts {R} (Rp : R -> Prop) E :
  triple I (mt5_consts : Py R Mt5Const) anything Rp E.
Proof. intros w Hw. split; [exact Hw | exact Logic.I]. Qed.

Lemma stable_call_total {R R' : Type} (body : Py R R) (V1 R1 V : R -> Prop)
    (Rp : R' -> Prop) (E : exn -> Prop) :
  triple I body V1 R1 nothing ->
  (forall r, V1 r -> V r) -> (forall r, R1 r -> V r) ->
  triple I (call body : Py R' R) V Rp E.
Proof.
  intros Hb HV HR. eapply triple_call; [| exact HV | exact HR].
  eapply triple_weaken; [exact Hb | auto | auto | intros e []].
Qed.
End Stable.

Lemma symbol_select_reads_only symbol :
  reads_only (fun t =>
    if existsb (String.eqb symbol) (t_select_ok t)
    then (true,
          t_update t
            (map (fun si => if String.eqb (si_name si) symbol then set_visible si else si)
                 (t_symbols t))
            (t_replies t) (t_sent t) (t_calls t))
    else (false, t)).
Proof.
  intros t. destruct (existsb _ _); repeat split.
  cbn [snd t_update t_symbols]. rewrite map_map. apply map_ext.
  intros si. destruct (String.eqb (si_name si) symbol); reflexivity.
Qed.

Ltac stable_step HI :=
  lazymatch goal with
  | |- triple _ (ret _) _ _ _ => apply triple_ret
  | |- triple _ (return_ _) _ _ _ => apply triple_return
  | |- triple _ (raise _) _ _ _ => apply triple_raise
  | |- triple _ (bind _ _) _ _ _ =>
      eapply triple_bind with (V1 := anything); [| intros ? _]
  | |- triple _ (try_except _ _) _ _ _ =>
      eapply triple_try with (E1 := anything); [| intros ? _]
  | |- triple _ (for_each _ _) _ _ _ => apply triple_for_each; intros ?
  | |- triple _ (native _ _) _ _ _ =>
      apply (stable_native _ HI);
      first [apply symbol_select_reads_only | intros ?; repeat split]
  | |- triple _ get_self _ _ _ => apply (stable_get_self _ HI)
  | |- triple _ mt5_consts _ _ _ => apply stable_consts
  | |- triple _ (modify (add_log _)) _ _ _ =>
      apply triple_modify; [intros ?; apply (stable_log _ HI) |]
  | |- triple _ (modify (set_client (Some _))) _ _ _ =>
      apply triple_modify; [intros ?; apply (stable_set_client _ HI) |]
  | |- triple _ (if ?b then _ else _) _ _ _ => destruct b
  | |- triple _ (match ?x with _ => _ end) _ _ _ => destruct x
  | |- anything _ => exact Logic.I
  end.

Ltac stable_call HI lemma :=
  eapply stable_call_total; [apply (lemma _ HI) | auto | auto].

(** The connection manager and the symbol resolver never raise, submit
    nothing and leave the positions alone. *)
Lemma shutdown_stable I (HI : stable I) : triple I shutdown anything anything nothing.
Proof.
  unfold shutdown. triple_unfold. repeat stable_step HI.
Qed.

Lemma _login_stable I (HI : stable I) : triple I _login anything anything nothing.
Proof.
  unfold _login. triple_unfold. repeat stable_step HI.
Qed.

Lemma initialize_stable I (HI : stable I) : triple I initialize anything anything nothing.
Proof.
  unfold initialize. triple_unfold.
  repeat first
    [ stable_step HI | stable_call HI shutdown_stable | stable_call HI _login_stable ].
Qed.

Lemma ensure_initialized_stable I (HI : stable I) :
  triple I ensure_initialized anything anything nothing.
Proof.
  unfold ensure_initialized. triple_unfold.
  repeat first [ stable_step HI | stable_call HI initialize_stable ].
Qed.

Lemma validate_symbol_stable I (HI : stable I) symbol :
  triple I (validate_symbol symbol) anything anything nothing.
Proof.
  unfold validate_symbol. triple_unfold. repeat stable_step HI.
Qed.

(** ** What [open_trade] and [partial_close_trade] never do *)

Lemma quiet_stable sent : stable (quiet sent).
Proof.
  split.
  - intros w [Hw _]. exact Hw.
  - intros r w H. exact H.
  - intros c w [_ Hs]. split; [discriminate | exact Hs].
  - intros t' w [Hw Hs] _ _ _ Hsent. split; [exact Hw | cbn; congruence].
Qed.

Ltac failed := first [left; eexists; reflexivity | right; do 6 eexists; reflexivity].

Lemma order_plan_stable I c symbol direction order_kind lot_size entry_price bid ask E :
  triple I (order_plan c symbol direction order_kind lot_size entry_price bid ask)
    anything failed_result E.
Proof.
  unfold order_plan.
  repeat first
    [ lazymatch goal with
      | |- triple _ (ret _) _ _ _ => apply triple_ret; exact Logic.I
      | |- triple _ (return_ _) _ _ _ => apply triple_return; failed
      | |- triple _ (if ?b then _ else _) _ _ _ => destruct b
      | |- triple _ (match ?x with _ => _ end) _ _ _ => destruct x
      end ].
Qed.

(** [open_trade] submits nothing and returns a failure, whatever the request
    and whatever the terminal does. *)
Lemma open_trade_quiet sent request :
  triple (quiet sent) (open_trade request) nothing failed_result nothing.
Proof.
  pose proof (quiet_stable sent) as HI.
  unfold open_trade. triple_unfold.
  eapply triple_bind with (V1 := anything); [stable_call HI ensure_initialized_stable |].
  intros [init_success init_msg] _.
  destruct (negb init_success); [apply triple_return; failed |].
  eapply triple_bind with (V1 := anything).
  { eapply stable_call_total; [apply (validate_symbol_stable _ HI) | auto | auto]. }
  intros [[symbol_valid actual_symbol] symbol_msg] _.
  destruct (negb symbol_valid); [repeat first [stable_step HI | failed] |].
  eapply triple_try with (E1 := anything); [| intros e _; apply triple_return; failed].
  repeat first
    [ lazymatch goal with
      | |- triple _ (bind (call_normalize_volume _) _) _ _ _ =>
          eapply triple_bind with (V1 := nothing);
          [apply triple_raise; exact Logic.I | intros ? []]
      | |- triple _ (bind (order_plan _ _ _ _ _ _ _ _) _) _ _ _ =>
          eapply triple_bind with (V1 := anything);
          [apply order_plan_stable | intros [[? ?] ?] _]
      end
    | stable_step HI | failed ].
Qed.

(** [partial_close_trade] submits nothing and returns a failure. *)
Lemma partial_close_trade_quiet sent ticket volume_percent :
  triple (quiet sent) (partial_close_trade ticket volume_percent) nothing
    (fun d => exists msg, d = failure msg) nothing.
Proof.
  pose proof (quiet_stable sent) as HI.
  unfold partial_close_trade. triple_unfold.
  eapply triple_bind with (V1 := anything); [stable_call HI ensure_initialized_stable |].
  intros [init_success init_msg] _.
  destruct (negb init_success); [apply triple_return; eexists; reflexivity |].
  eapply triple_try with (E1 := anything);
    [| intros e _; apply triple_return; eexists; reflexivity].
  repeat first
    [ lazymatch goal with
      | |- triple _ (bind (call_normalize_volume _) _) _ _ _ =>
          eapply triple_bind with (V1 := nothing);
          [apply triple_raise; exact Logic.I | intros ? []]
      end
    | stable_step HI | eexists; reflexivity ].
Qed.
(** Every call of [open_trade] fails, and submits nothing to the terminal:
    whatever the request, the state of the connection and the answers of the
    terminal, the call ends before the submission loop, in one of the
    failures returned on the way or in the [TypeError] of the call of
    [_normalize_volume], which the function's own handler turns into a
    failure. *)
Theorem open_trade_never_submits (request : OpenTradeDict) (w : World) :
  has_client w ->
  exists result,
    fst (run (open_trade request) w) = inr result /\
    failed_result result /\
    dict_get result "success" = Some (VBool false) /\
    t_sent (term (snd (run (open_trade request) w))) = t_sent (term w).
Proof.
  intros Hw.
  destruct (open_trade_quiet (t_sent (term w)) request w (conj Hw eq_refl))
    as [[_ Hsent] Hout].
  unfold run. destruct (open_trade request w) as [[result | result | e] w'];
    cbn [fst snd] in *; [destruct Hout | | destruct Hout].
  exists result. split; [reflexivity |]. split; [exact Hout |].
  split; [| exact Hsent].
  destruct Hout as [[msg ->] | (code & msg & s & dir & kind & vol & ->)]; reflexivity.
Qed.

(** The terminal would accept the order; nothing reaches it. *)
Lemma open_trade_never_submits_witness :
  exists result,
    fst (run (open_trade protected_buy) accepting_world) = inr result /\
    dict_get result "success" = Some (VBool false) /\
    t_sent (term (snd (run (open_trade protected_buy) accepting_world))) = [].
Proof.
  destruct (open_trade_never_submits protected_buy accepting_world)
    as (result & Hr & _ & Hs & Hsent).
  - discriminate.
  - exists result. split; [exact Hr |]. split; [exact Hs | exact Hsent].
Defined.

(** Every call of [partial_close_trade] fails, and submits nothing to the
    terminal, neither a partial close nor the full close it would redirect
    to: a percentage outside (0, 100), an unknown ticket and an unknown
    symbol are refused on the way, and for the rest the call of
    [_normalize_volume] raises the [TypeError] that the function's own
    handler turns into a failure. *)
Theorem partial_close_never_submits (ticket : Z) (volume_percent : Q) (w : World) :
  has_client w ->
  exists msg,
    fst (run (partial_close_trade ticket volume_percent) w) = inr (failure msg) /\
    t_sent (term (snd (run (partial_close_trade ticket volume_percent) w))) =
      t_sent (term w).
Proof.
  intros Hw.
  destruct (partial_close_trade_quiet (t_sent (term w)) ticket volume_percent w
              (conj Hw eq_refl)) as [[_ Hsent] Hout].
  unfold run.
  destruct (partial_close_trade ticket volume_percent w) as [[result | result | e] w'];
    cbn [fst snd] in *; [destruct Hout | | destruct Hout].
  destruct Hout as [msg ->]. exists msg. split; [reflexivity | exact Hsent].
Qed.

(** Half of the GOLD position: nothing is submitted. *)
Lemma partial_close_never_submits_witness :
  exists msg,
    fst (run (partial_close_trade 7 50) gold_world) = inr (failure msg) /\
    t_sent (term (snd (run (partial_close_trade 7 50) gold_world))) = [].
Proof.
  destruct (partial_close_never_submits 7 50 gold_world) as (msg & Hr & Hsent).
  - discriminate.
  - exists msg. split; [exact Hr | exact Hsent].
Defined.
(** ** The open-trade endpoint never succeeds *)

Lemma main_open_trade_quiet sent request :
  triple (quiet sent) (main_open_trade request) nothing nothing (http_with [400; 500]%Z).
Proof.
  unfold main_open_trade.
  eapply triple_bind with (V1 := anything);
    [apply triple_get_state; intros; exact Logic.I |].
  intros w0 _.
  destruct (mt5_client w0); [| apply triple_raise; cbn; tauto].
  destruct (match stop_loss request with Some sl => Qleb sl 0 | None => true end);
    [apply triple_raise; cbn; tauto |].
  eapply triple_bind with (V1 := failed_result).
  { eapply stable_call_total; [apply open_trade_quiet | intros r [] | auto]. }
  intros result Hres s Hs.
  destruct Hres as [[msg ->] | (code & msg & sy & dir & kind & vol & ->)].
  - unfold bind, dict_item, py_or, py_lower, raise. cbn.
    destruct (negb (String.eqb msg "")); cbn;
      (split; [exact Hs |]);
      match goal with
      | |- context [if ?b then 500%Z else 400%Z] => destruct b; cbn; tauto
      end.
  - unfold bind, dict_item, py_or, py_lower, raise. cbn.
    split; [exact Hs |].
    match goal with
    | |- context [if ?b then 500%Z else 400%Z] => destruct b; cbn; tauto
    end.
Qed.

(** No POST to the open-trade endpoint is answered with success and none
    submits an order: a body that fails validation gets status 422, and every
    other body gets an [HTTPException] with status 400 or 500, because the
    [open_trade] of the client always fails. *)
Theorem post_trades_open_never_succeeds (body : OpenTradeRequest) (w : World) :
  exists status_code detail,
    fst (run (post_trades_open body) w) = inl (HTTPException status_code detail) /\
    In status_code [400; 422; 500]%Z /\
    t_sent (term (snd (run (post_trades_open body) w))) = t_sent (term w).
Proof.
  unfold post_trades_open.
  destruct (validate_OpenTradeRequest body) as [e | request] eqn:Hv.
  - apply validate_OpenTradeRequest_error in Hv as [detail ->].
    exists 422%Z, detail. cbn. tauto.
  - destruct (mt5_client w) as [c |] eqn:Hc.
    + assert (Hq : quiet (t_sent (term w)) w)
        by (split; [unfold has_client; rewrite Hc; discriminate | reflexivity]).
      destruct (main_open_trade_quiet (t_sent (term w)) request w Hq) as [[_ Hsent] Hout].
      unfold run.
      destruct (main_open_trade request w) as [[r | r | e] w'];
        cbn [fst snd] in *; [destruct Hout | destruct Hout |].
      destruct e as [| | | | | | status_code detail]; try (exfalso; exact Hout).
      exists status_code, detail. split; [reflexivity |]. split; [| exact Hsent].
      cbn in Hout |- *. tauto.
    + exists 500%Z, "MT5 client not initialized".
      unfold run, main_open_trade, bind, get_state. rewrite Hc. cbn. tauto.
Qed.

(** ** What [close_trade] submits *)

Section Closing.
Context (c : Mt5Const) (positions : option (list Position)) (ticket : Z)
        (sent : list dict).

Let J := closing_only c positions ticket sent.

Lemma closing_only_stable : stable J.
Proof.
  split.
  - intros w (Hw & _). exact Hw.
  - intros r w H. exact H.
  - intros cl w (_ & Hc & Hp & Hs). split; [discriminate |]. auto.
  - intros t' w (Hw & Hc & Hp & Hs) Hc' _ Hp' Hs'.
    split; [exact Hw |]. cbn. rewrite Hc', Hp', Hs'. auto.
Qed.

Lemma closing_consts {R} (Rp : R -> Prop) E :
  triple J (mt5_consts : Py R Mt5Const) (fun c' => c' = c) Rp E.
Proof. intros w Hw. split; [exact Hw |]. destruct Hw as (_ & Hc & _). exact Hc. Qed.

Lemma closing_positions_get {R} (Rp : R -> Prop) :
  triple J (mt5_positions_get ticket : Py R (option (list Position)))
    (fun found => position_with ticket positions =
                  match found with Some (position :: _) => Some position | _ => None end)
    Rp anything.
Proof.
  intros w Hw. unfold mt5_positions_get, native.
  assert (Hcalled : J (set_term (t_called "positions_get" (term w)) w))
    by (apply (stable_term J closing_only_stable); [exact Hw | reflexivity ..]).
  destruct (assoc "positions_get" (t_raises (t_called "positions_get" (term w)))); simpl.
  - split; [exact Hcalled | exact Logic.I].
  - split; [exact Hcalled |].
    destruct Hw as (_ & _ & Hp & _). unfold position_with. rewrite <- Hp. reflexivity.
Qed.

Lemma closing_order_send {R} (Rp : R -> Prop) position tick filling_mode :
  position_with ticket positions = Some position ->
  triple J (mt5_order_send (closing_request c position ticket tick filling_mode)
              : Py R (option OrderSendResult))
    anything Rp anything.
Proof.
  intros Hpos w Hw. unfold mt5_order_send, native.
  assert (Hcalled : J (set_term (t_called "order_send" (term w)) w))
    by (apply (stable_term J closing_only_stable); [exact Hw | reflexivity ..]).
  destruct (assoc "order_send" (t_raises (t_called "order_send" (term w)))); simpl.
  - split; [exact Hcalled | exact Logic.I].
  - assert (Hsent : J (set_term
              (t_update (t_called "order_send" (term w)) (t_symbols (term w))
                 (tl (t_replies (term w)))
                 (t_sent (term w) ++ [closing_request c position ticket tick filling_mode])
                 (t_calls (term w) ++ ["order_send"])) w)).
    { destruct Hw as (Hw & Hc & Hp & requests & Hs & Hall).
      split; [exact Hw |]. split; [exact Hc |]. split; [exact Hp |].
      exists (requests ++ [closing_request c position ticket tick filling_mode]).
      split; [cbn; rewrite Hs, app_assoc; reflexivity |].
      apply Forall_app. split; [exact Hall |].
      constructor; [| constructor]. exists position, tick, filling_mode. auto. }
    destruct (t_replies (term w)) as [| r rest]; simpl in *;
      (split; [exact Hsent | exact Logic.I]).
Qed.

Lemma close_with_modes_closing position tick what op
    (on_done : Z -> Py dict dict) modes :
  position_with ticket positions = Some position ->
  (forall m, triple J (on_done m) (close_result positions ticket)
               (close_result positions ticket) anything) ->
  forall last_error,
    triple J
      (close_with_modes c what op ticket (closing_request c position ticket tick)
         on_done modes last_error)
      anything (close_result positions ticket) anything.
Proof.
  intros Hpos Hdone.
  assert (Hfail : forall msg, close_result positions ticket (failure msg)).
  { intros msg. split; [right |]; eexists; reflexivity. }
  pose proof closing_only_stable as HI.
  induction modes as [| filling_mode rest IH]; intros last_error;
    cbn [close_with_modes]; [apply triple_ret; exact Logic.I |].
  triple_unfold.
  eapply triple_bind with (V1 := anything);
    [apply (closing_order_send _ position tick filling_mode Hpos) |].
  intros result _. destruct result as [result |].
  - destruct (retcode result =? TRADE_RETCODE_DONE c)%Z.
    + eapply triple_bind; [apply Hdone |]. intros r Hr. apply triple_return. exact Hr.
    + destruct (retcode result =? 10030)%Z; [apply IH |].
      repeat first [stable_step HI | apply Hfail].
  - eapply triple_bind with (V1 := anything);
      [unfold mt5_last_error; stable_step HI |].
    intros [error_code error_desc] _.
    destruct (error_code =? 10030)%Z; [apply IH |].
    repeat first [stable_step HI | apply Hfail].
Qed.

(** [close_trade] never raises, and keeps to closing orders. *)
Lemma close_trade_closing :
  triple J (close_trade ticket) nothing (close_result positions ticket) nothing.
Proof.
  assert (Hfail : forall msg, close_result positions ticket (failure msg)).
  { intros msg. split; [right |]; eexists; reflexivity. }
  pose proof closing_only_stable as HI.
  unfold close_trade. triple_unfold.
  eapply triple_bind with (V1 := anything); [stable_call HI ensure_initialized_stable |].
  intros [init_success init_msg] _.
  destruct (negb init_success); [apply triple_return; apply Hfail |].
  eapply triple_try with (E1 := anything); [| intros e _; apply triple_return; apply Hfail].
  eapply triple_bind; [apply closing_consts |]. intros c' ->.
  eapply triple_bind; [apply closing_positions_get |]. intros found Hfound.
  destruct found as [[| position others] |];
    [apply triple_return; apply Hfail | | apply triple_return; apply Hfail].
  eapply triple_bind with (V1 := anything); [stable_step HI |].
  intros tick _. destruct tick as [tick |];
    [| repeat first [stable_step HI | apply Hfail]].
  eapply triple_bind with (V1 := anything); [stable_step HI |].
  intros symbol_info _.
  eapply triple_bind with (V1 := anything);
    [| intros last_error _; apply triple_return; apply Hfail].
  apply (close_with_modes_closing position tick "Close" "close" _ _ Hfound).
  intros m.
  eapply triple_bind with (V1 := anything); [stable_step HI; exact Logic.I |].
  intros _ _. apply triple_ret.
  split; [left; reflexivity | rewrite Hfound; discriminate].
Qed.
End Closing.

(** [close_trade] never raises, whatever the terminal does, and whatever it
    submits closes the position held under the ticket: each request is for
    that position, its symbol and its whole volume, with the opposite order
    type, at the bid (for a buy) or the ask (for a sell) of some tick.  When
    no position is held under the ticket, nothing is submitted and the
    result is a failure; otherwise the result is a success flag or a failure
    with a message. *)
Theorem close_trade_only_closes (ticket : Z) (w : World) :
  has_client w ->
  exists result requests,
    fst (run (close_trade ticket) w) = inr result /\
    readable_result result /\
    t_sent (term (snd (run (close_trade ticket) w))) = t_sent (term w) ++ requests /\
    match position_with ticket (t_positions (term w)) with
    | Some position =>
        Forall (fun request => exists tick filling_mode,
                  request = closing_request (mt5 (term w)) position ticket tick filling_mode)
               requests
    | None => requests = [] /\ exists msg, result = failure msg
    end.
Proof.
  intros Hw.
  assert (Hstart : closing_only (mt5 (term w)) (t_positions (term w)) ticket
                     (t_sent (term w)) w).
  { split; [exact Hw |]. split; [reflexivity |]. split; [reflexivity |].
    exists []. rewrite app_nil_r. split; [reflexivity | constructor]. }
  destruct (close_trade_closing (mt5 (term w)) (t_positions (term w)) ticket
              (t_sent (term w)) w Hstart)
    as [(_ & _ & _ & requests & Hsent & Hall) Hout].
  unfold run. destruct (close_trade ticket w) as [[result | result | e] w'];
    cbn [fst snd] in *; [destruct Hout | | destruct Hout].
  destruct Hout as [Hread Hnone].
  exists result, requests. split; [reflexivity |]. split; [exact Hread |].
  split; [exact Hsent |].
  destruct (position_with ticket (t_positions (term w))) as [position |] eqn:Hpos.
  - eapply Forall_impl; [exact Hall |]. cbn.
    intros request (p & tick & m & Hp & ->). rewrite Hpos in Hp.
    injection Hp as ->. eauto.
  - split; [| apply Hnone; reflexivity].
    destruct Hall as [| request rest (p & _ & _ & Hp & _) _]; [reflexivity |].
    rewrite Hpos in Hp. discriminate Hp.
Qed.

(** The GOLD position, ticket 7, on a terminal that accepts: what is
    submitted closes that position. *)
Lemma close_trade_only_closes_witness :
  exists result requests,
    fst (run (close_trade 7) gold_world) = inr result /\
    t_sent (term (snd (run (close_trade 7) gold_world))) = requests /\
    Forall (fun request => exists tick filling_mode,
              request = closing_request mt5_package gold_position 7 tick filling_mode)
           requests.
Proof.
  destruct (close_trade_only_closes 7 gold_world) as (result & requests & Hr & _ & Hs & Hall).
  - discriminate.
  - exists result, requests. split; [exact Hr |]. split; [exact Hs |]. exact Hall.
Defined.
(** ** The close endpoint *)

Lemma main_close_trade_closing c positions sent request :
  triple (closing_only c positions (close_ticket request) sent)
    (main_close_trade request) nothing
    (fun response => tr_success response = true) (http_with [400; 404; 500]%Z).
Proof.
  unfold main_close_trade.
  eapply triple_bind with (V1 := anything);
    [apply triple_get_state; intros; exact Logic.I |].
  intros w0 _. destruct (mt5_client w0); [| apply triple_raise; cbn; tauto].
  eapply triple_bind with (V1 := readable_result).
  { eapply stable_call_total;
      [apply close_trade_closing | intros r [] | intros r [Hr _]; exact Hr]. }
  intros result [Hs | [msg ->]] s Hs'.
  - unfold bind, dict_item. rewrite Hs. simpl. split; [exact Hs' | reflexivity].
  - unfold bind, dict_item, py_lower, raise. cbn.
    split; [exact Hs' |].
    destruct (contains "not found" (lower msg)); [cbn; tauto |].
    destruct (contains "connection" (lower msg)); cbn; tauto.
Qed.

(** Whatever the body and whatever the terminal does, the close endpoint
    answers with a success or with an [HTTPException] of status 400, 404,
    422 or 500, never with a raw exception; and whatever it has submitted to
    the terminal closes the position held under the ticket it acts on (a
    body that fails validation submits nothing). *)
Theorem post_trades_close_contract (body : CloseTradeRequest) (w : World) :
  let outcome := run (post_trades_close body) w in
  match fst outcome with
  | inr response => tr_success response = true
  | inl e => http_with [400; 404; 422; 500]%Z e
  end /\
  exists requests,
    t_sent (term (snd outcome)) = t_sent (term w) ++ requests /\
    match validate_CloseTradeRequest body with
    | inl _ => requests = []
    | inr request =>
        Forall (closes (mt5 (term w)) (t_positions (term w)) (close_ticket request))
               requests
    end.
Proof.
  intros outcome. subst outcome. unfold post_trades_close.
  destruct (validate_CloseTradeRequest body) as [e | request] eqn:Hv.
  - unfold validate_CloseTradeRequest in Hv.
    destruct (_ <=? 0)%Z; [| discriminate]. injection Hv as <-.
    split; [cbn; tauto |]. exists []. cbn. rewrite app_nil_r. auto.
  - destruct (mt5_client w) as [cl |] eqn:Hc.
    + assert (Hstart : closing_only (mt5 (term w)) (t_positions (term w))
                         (close_ticket request) (t_sent (term w)) w).
      { split; [unfold has_client; rewrite Hc; discriminate |].
        split; [reflexivity |]. split; [reflexivity |].
        exists []. rewrite app_nil_r. split; [reflexivity | constructor]. }
      destruct (main_close_trade_closing _ _ _ request w Hstart)
        as [(_ & _ & _ & requests & Hsent & Hall) Hout].
      unfold run.
      destruct (main_close_trade request w) as [[r | r | e] w'];
        cbn [fst snd] in *; [destruct Hout | |].
      * split; [exact Hout |]. exists requests. auto.
      * split; [| exists requests; auto].
        destruct e; try (exfalso; exact Hout). cbn in Hout |- *. tauto.
    + unfold run, main_close_trade, bind, get_state. rewrite Hc. cbn.
      split; [tauto |]. exists []. rewrite app_nil_r. auto.
Qed.
Lemma get_filling_modes_cons c symbol_info :
  exists m rest, _get_filling_modes c symbol_info = m :: rest.
Proof.
  destruct symbol_info as [info |]; cbn [_get_filling_modes]; [| eauto].
  destruct (Z.land (filling_mode info) (ORDER_FILLING_RETURN c) =? 0)%Z;
    destruct (Z.land (filling_mode info) (ORDER_FILLING_IOC c) =? 0)%Z;
    destruct (Z.land (filling_mode info) (ORDER_FILLING_FOK c) =? 0)%Z;
    cbn [app]; eauto.
Qed.

Lemma position_not_found_is_404 ticket :
  contains "not found" (lower ("Position with ticket " +:+ str_Z ticket +:+ " not found"))
    = true.
Proof.
  rewrite !lower_app. apply contains_app, contains_app. reflexivity.
Qed.

(** A native call on a terminal that raises nothing. *)
Lemma native_answers {R A} name (answer : Terminal -> A * Terminal) w :
  t_raises (term w) = [] ->
  (native name answer : Py R A) w =
  (Val (fst (answer (t_called name (term w)))),
   set_term (snd (answer (t_called name (term w)))) w).
Proof.
  intros Hr. unfold native. cbn [t_called t_update t_raises]. rewrite Hr. cbn [assoc].
  destruct (answer _). reflexivity.
Qed.

(** On a connected terminal that raises nothing: a ticket under which no
    position is held gets the 404 answer and nothing is submitted; for a
    position whose symbol has a tick, on a terminal that accepts, the one
    request submitted is the closing request with the first filling mode and
    the answer is a success. *)
Theorem close_connected w cl a body request :
  mt5_client w = Some cl -> _initialized cl = true -> _connected cl = true ->
  t_account (term w) = Some a -> t_raises (term w) = [] ->
  validate_CloseTradeRequest body = inr request ->
  let ticket := close_ticket request in
  let '(result, w') := run (post_trades_close body) w in
  match position_with ticket (t_positions (term w)) with
  | None =>
      result =
        inl (HTTPException 404 ("Position with ticket " +:+ str_Z ticket +:+ " not found")) /\
      t_sent (term w') = t_sent (term w)
  | Some position =>
      forall tick reply replies,
        assoc (pos_symbol position) (t_ticks (term w)) = Some tick ->
        t_replies (term w) = Some reply :: replies ->
        retcode reply = TRADE_RETCODE_DONE (mt5 (term w)) ->
        exists filling_mode,
          head (_get_filling_modes (mt5 (term w))
                  (find_symbol (pos_symbol position) (t_symbols (term w))))
            = Some filling_mode /\
          result = inr (mk_TradeResponse true None) /\
          t_sent (term w') =
            t_sent (term w) ++
            [closing_request (mt5 (term w)) position ticket tick filling_mode] /\
          t_replies (term w') = replies
  end.
Proof.
  intros Hc Hi Hn Ha Hr Hv ticket.
  destruct (run (post_trades_close body) w) as [result w'] eqn:E.
  unfold post_trades_close in E. rewrite Hv in E.
  unfold run, main_close_trade, bind, get_state in E. rewrite Hc in E.
  fold ticket in E.
  unfold close_trade, call, bind in E.
  rewrite (ensure_initialized_connected w cl a Hc Hi Hn Ha Hr) in E.
  cbn [negb] in E.
  set (w1 := called "account_info" w) in E.
  assert (Hr1 : t_raises (term w1) = []) by exact Hr.
  unfold try_except, bind, mt5_consts, mt5_positions_get in E.
  rewrite (native_answers "positions_get" _ w1 Hr1) in E.
  cbn [fst snd] in E.
  unfold position_with.
  change (t_positions (t_called "positions_get" (term w1))) with (t_positions (term w)) in E.
  destruct (option_map (filter (fun p => pos_ticket p = ticket)) (t_positions (term w)))
    as [[| position others] |] eqn:Hpos.
  - cbn in E. rewrite position_not_found_is_404 in E.
    injection E as <- <-. split; reflexivity.
  - intros tick reply replies Htick Hreplies Hdone.
    destruct (get_filling_modes_cons (mt5 (term w))
                (find_symbol (pos_symbol position) (t_symbols (term w))))
      as (m & rest & Hmodes).
    exists m. rewrite Hmodes. split; [reflexivity |].
    set (w2 := set_term (t_called "positions_get" (term w1)) w1) in E.
    assert (Hr2 : t_raises (term w2) = []) by exact Hr.
    unfold mt5_symbol_info_tick in E.
    rewrite (native_answers "symbol_info_tick" _ w2 Hr2) in E.
    cbn [fst snd] in E.
    change (t_ticks (t_called "symbol_info_tick" (term w2))) with (t_ticks (term w)) in E.
    rewrite Htick in E.
    set (w3 := set_term (t_called "symbol_info_tick" (term w2)) w2) in E.
    assert (Hr3 : t_raises (term w3) = []) by exact Hr.
    unfold mt5_symbol_info in E.
    rewrite (native_answers "symbol_info" _ w3 Hr3) in E.
    cbn [fst snd] in E.
    change (t_symbols (t_called "symbol_info" (term w3))) with (t_symbols (term w)) in E.
    change (mt5 (term w1)) with (mt5 (term w)) in E.
    rewrite Hmodes in E.
    set (w4 := set_term (t_called "symbol_info" (term w3)) w3) in E.
    assert (Hr4 : t_raises (term w4) = []) by exact Hr.
    cbn [close_with_modes] in E. unfold bind, mt5_order_send in E.
    rewrite (native_answers "order_send" _ w4 Hr4) in E.
    change (t_replies (t_called "order_send" (term w4))) with (t_replies (term w)) in E.
    rewrite Hreplies in E. cbn [fst snd] in E.
    rewrite Hdone, Z.eqb_refl in E.
    cbn in E. injection E as <- <-.
    split; [reflexivity |]. split; reflexivity.
  - cbn in E. rewrite position_not_found_is_404 in E.
    injection E as <- <-. split; reflexivity.
Qed.

(** Closing ticket 7 on the terminal that holds the GOLD position and
    accepts: one closing request at the bid, and a success. *)
Lemma close_connected_witness :
  exists filling_mode,
    fst (run (post_trades_close {| ct_ticket := 7; ct_mt5_ticket := None;
                                   ct_reason := None |}) gold_world)
      = inr (mk_TradeResponse true None) /\
    t_sent (term (snd (run (post_trades_close {| ct_ticket := 7; ct_mt5_ticket := None;
                                                 ct_reason := None |}) gold_world)))
      = [closing_request mt5_package gold_position 7
           {| tk_bid := 2001; tk_ask := 20012 # 10; tk_volume := Some 1%Z; tk_time := 100 |}
           filling_mode].
Proof.
  pose proof (close_connected gold_world
                {| config := demo_config; _initialized := true; _connected := true |}
                demo_account
                {| ct_ticket := 7; ct_mt5_ticket := None; ct_reason := None |}
                {| ct_ticket := 7; ct_mt5_ticket := None; ct_reason := None |}
                eq_refl eq_refl eq_refl eq_refl eq_refl eq_refl) as H.
  cbv zeta in H.
  destruct (run (post_trades_close _) gold_world) as [result w'].
  change (position_with _ _) with (Some gold_position) in H. cbv iota in H.
  destruct (H {| tk_bid := 2001; tk_ask := 20012 # 10; tk_volume := Some 1%Z;
                 tk_time := 100 |}
              {| retcode := 10009; order := 44; comment := "Request executed" |}
              [order_done 45] eq_refl eq_refl eq_refl)
    as (m & _ & Hres & Hsent & _).
  exists m. split; [exact Hres | exact Hsent].
Defined.

(** ** The symbol resolver *)

Lemma triple_for_each_in {S R A} (I : S -> Prop) (xs : list A) (body : A -> M S R unit)
    (Rp : R -> Prop) (E : exn -> Prop) :
  (forall x, In x xs -> triple I (body x) anything Rp E) ->
  triple I (for_each xs body) anything Rp E.
Proof.
  induction xs as [| x xs IH]; intros Hb; simpl.
  - apply triple_ret. exact Logic.I.
  - eapply triple_bind; [apply Hb; left; reflexivity |].
    intros _ _. apply IH. intros y Hy. apply Hb. right. exact Hy.
Qed.

Lemma knows_symbols_stable names : stable (knows_symbols names).
Proof.
  split.
  - intros w [Hw _]. exact Hw.
  - intros r w H. exact H.
  - intros c w [_ Hs]. split; [discriminate | exact Hs].
  - intros t' w [Hw Hs] _ Hnames _ _. split; [exact Hw | cbn; congruence].
Qed.

Lemma find_symbol_name name symbols si :
  find_symbol name symbols = Some si -> In name (map si_name symbols).
Proof.
  unfold find_symbol. intros H. apply find_some in H as [Hin Heq].
  apply String.eqb_eq in Heq. subst name. apply in_map, Hin.
Qed.

(** The terminal answers [symbol_info] only for names it knows. *)
Lemma knows_symbol_info {R} names (Rp : R -> Prop) variant :
  triple (knows_symbols names) (mt5_symbol_info variant : Py R (option SymbolInfo))
    (fun r => r <> None -> In variant names) Rp anything.
Proof.
  intros w Hw. unfold mt5_symbol_info, native.
  assert (Hcalled : knows_symbols names (set_term (t_called "symbol_info" (term w)) w))
    by (apply (stable_term _ (knows_symbols_stable names)); [exact Hw | reflexivity ..]).
  destruct (assoc "symbol_info" (t_raises (t_called "symbol_info" (term w)))); simpl.
  - split; [exact Hcalled | exact Logic.I].
  - split; [exact Hcalled |]. intros Hsome.
    destruct Hw as [_ <-].
    destruct (find_symbol variant (t_symbols (term w))) as [si |] eqn:Hf;
      [| contradiction].
    eapply find_symbol_name, Hf.
Qed.

Lemma validate_symbol_resolved names symbol :
  triple (knows_symbols names) (validate_symbol symbol) nothing
    (resolved symbol names) nothing.
Proof.
  pose proof (knows_symbols_stable names) as HI.
  unfold validate_symbol. triple_unfold.
  eapply triple_try with (E1 := anything);
    [| intros e _; apply triple_return; reflexivity].
  eapply triple_bind with (V1 := anything).
  { apply triple_for_each_in. intros variant Hin.
    eapply triple_bind; [apply knows_symbol_info |]. intros found Hfound.
    destruct found as [info |]; [| apply triple_ret; exact Logic.I].
    eapply triple_bind with (V1 := anything);
      [destruct (negb (visible info)); stable_step HI; exact Logic.I |].
    intros selected _. destruct selected; [| apply triple_ret; exact Logic.I].
    apply triple_return. split; [| apply Hfound; discriminate].
    unfold symbol_candidates. apply in_or_app. left. exact Hin. }
  intros _ _.
  eapply triple_bind with (V1 := anything).
  { apply triple_for_each_in. intros suffix Hin.
    eapply triple_bind; [apply knows_symbol_info |]. intros found Hfound.
    destruct found as [info |]; [| apply triple_ret; exact Logic.I].
    eapply triple_bind with (V1 := anything);
      [destruct (negb (visible info)); stable_step HI; exact Logic.I |].
    intros selected _. destruct selected; [| apply triple_ret; exact Logic.I].
    apply triple_return. split; [| apply Hfound; discriminate].
    unfold symbol_candidates. apply in_or_app. right.
    apply (in_map (fun suffix => upper symbol +:+ suffix)), Hin. }
  intros _ _.
  repeat first [stable_step HI | reflexivity].
Qed.

(** [validate_symbol] never raises.  A symbol it accepts comes back under a
    name that is the symbol in upper case, one of its aliases or the symbol
    with a broker suffix, and that the terminal knows; a symbol it rejects
    comes back as it was given. *)
Theorem validate_symbol_resolves (symbol : string) (w : World) :
  has_client w ->
  exists valid actual_symbol msg,
    fst (run (validate_symbol symbol) w) = inr (valid, actual_symbol, msg) /\
    if valid then
      In actual_symbol (symbol_candidates symbol) /\
      In actual_symbol (map si_name (t_symbols (term w)))
    else actual_symbol = symbol.
Proof.
  intros Hw.
  destruct (validate_symbol_resolved (map si_name (t_symbols (term w))) symbol w
              (conj Hw eq_refl)) as [_ Hout].
  unfold run. destruct (validate_symbol symbol w) as [[r | r | e] w'];
    cbn [fst snd] in *; [destruct Hout | | destruct Hout].
  destruct r as [[valid actual_symbol] msg]. exists valid, actual_symbol, msg.
  split; [reflexivity | exact Hout].
Qed.

(** XAUUSD on a terminal that lists the metal as GOLD: resolved to GOLD. *)
Lemma validate_symbol_resolves_witness :
  exists msg,
    fst (run (validate_symbol "xauusd") gold_world) = inr (true, "GOLD", msg) /\
    In "GOLD" (symbol_candidates "xauusd").
Proof.
  destruct (validate_symbol_resolves "xauusd" gold_world)
    as (valid & actual_symbol & msg & Hr & Hres).
  - discriminate.
  - assert (E : fst (run (validate_symbol "xauusd") gold_world)
                = inr (true, "GOLD", "Symbol valid")) by (vm_compute; reflexivity).
    rewrite E in Hr. injection Hr as <- <- <-.
    exists "Symbol valid". split; [exact E | exact (proj1 Hres)].
Defined.

(** ** Validation of the open-trade body *)

Lemma upper_ascii_idem c : upper_ascii (upper_ascii c) = upper_ascii c.
Proof. destruct c as [[] [] [] [] [] [] [] []]; reflexivity. Qed.

Lemma lower_ascii_idem c : lower_ascii (lower_ascii c) = lower_ascii c.
Proof. destruct c as [[] [] [] [] [] [] [] []]; reflexivity. Qed.

Lemma upper_idem s : upper (upper s) = upper s.
Proof.
  unfold upper. induction s as [| c s IH]; [reflexivity |].
  cbn [str_map]. rewrite upper_ascii_idem, IH. reflexivity.
Qed.

Lemma lower_idem s : lower (lower s) = lower s.
Proof.
  unfold lower. induction s as [| c s IH]; [reflexivity |].
  cbn [str_map]. rewrite lower_ascii_idem, IH. reflexivity.
Qed.

(** A body that passes validation comes out normalized: the symbol in upper
    case, the direction in lower case, a positive lot size, an order kind
    among market, limit and stop with a positive entry price for the last
    two, the alternative stop-loss and take-profit fields folded in, and a
    strategy that is not empty.  Validation is idempotent: the validated
    request passes again, unchanged. *)
Theorem validate_OpenTradeRequest_normalizes (body request : OpenTradeRequest) :
  validate_OpenTradeRequest body = inr request ->
  symbol request = upper (symbol body) /\
  direction request = lower (direction body) /\
  (0 < lot_size request)%Q /\
  (order_kind request = "market" \/
   (order_kind request = "limit" \/ order_kind request = "stop") /\
   exists price, entry_price request = Some price /\ (0 < price)%Q) /\
  stop_loss request = mapped_stop_loss body /\
  (take_profit body = None -> take_profit request = take_profit_price body) /\
  strategy request <> "" /\
  validate_OpenTradeRequest request = inr request.
Proof.
  unfold validate_OpenTradeRequest.
  destruct (String.eqb (order_kind body) "market") eqn:Hm;
    destruct (String.eqb (order_kind body) "limit") eqn:Hl;
    destruct (String.eqb (order_kind body) "stop") eqn:Hs;
    cbn [orb negb andb]; try discriminate;
    (destruct (Qleb (lot_size body) 0) eqn:Hlot; [discriminate |]);
    try (destruct (entry_price body) as [price |] eqn:Hentry; [| discriminate];
         destruct (Qleb price 0) eqn:Hprice; [discriminate |]);
    intros [= <-]; cbn [symbol direction lot_size order_kind entry_price stop_loss
                         take_profit strategy strategy_id stop_loss_price
                         take_profit_price];
    rewrite ?Hm, ?Hl, ?Hs, ?Hlot; cbn [orb negb andb]; rewrite ?Hentry, ?Hprice;
    rewrite ?upper_idem, ?lower_idem;
    reflect_Q; rewrite ?String.eqb_eq in *;
    (split; [reflexivity |]); (split; [reflexivity |]); (split; [lra |]);
    (split; [first [left; assumption
                   | right; split; [tauto | eexists; split; [reflexivity | lra]]] |]);
    (split; [reflexivity |]);
    (split; [intros ->; reflexivity |]);
    (assert (Hstrategy :
       (if String.eqb (strategy body) ""
        then match strategy_id body with
             | Some s => if String.eqb s "" then "low" else s
             | None => "low"
             end
        else strategy body) <> "");
     [ destruct (String.eqb (strategy body) "") eqn:Hst;
       [ destruct (strategy_id body) as [sid |];
         [ destruct (String.eqb sid "") eqn:Hsid;
           [discriminate | apply String.eqb_neq in Hsid; exact Hsid]
         | discriminate ]
       | apply String.eqb_neq in Hst; exact Hst ]
     |]);
    (split; [exact Hstrategy |]);
    apply String.eqb_neq in Hstrategy; rewrite Hstrategy;
    unfold mapped_stop_loss;
    cbn [symbol direction lot_size order_kind entry_price stop_loss
         take_profit strategy strategy_id stop_loss_price take_profit_price];
    destruct (stop_loss body), (take_profit body), (stop_loss_price body),
      (take_profit_price body); reflexivity.
Qed.

(** A limit buy sent in mixed case with the alternative stop field. *)
Lemma validate_OpenTradeRequest_normalizes_witness :
  exists request,
    validate_OpenTradeRequest
      {| symbol := "eurusd"; direction := "BUY"; order_kind := "limit"; lot_size := 1 # 10;
         entry_price := Some (109 # 100); stop_loss := None; take_profit := None;
         strategy := ""; strategy_id := Some "high"; stop_loss_price := Some (108 # 100);
         take_profit_price := None |} = inr request /\
    symbol request = "EURUSD" /\ direction request = "buy" /\
    stop_loss request = Some (108 # 100) /\
    validate_OpenTradeRequest request = inr request.
Proof.
  eexists. split; [vm_compute; reflexivity |].
  match goal with
  | |- context [validate_OpenTradeRequest ?r = inr ?r] =>
      destruct (validate_OpenTradeRequest_normalizes
                  {| symbol := "eurusd"; direction := "BUY"; order_kind := "limit";
                     lot_size := 1 # 10; entry_price := Some (109 # 100);
                     stop_loss := None; take_profit := None; strategy := "";
                     strategy_id := Some "high"; stop_loss_price := Some (108 # 100);
                     take_profit_price := None |} r)
        as (Hsym & Hdir & _ & _ & Hsl & _ & _ & Hidem);
      [vm_compute; reflexivity |]
  end.
  split; [exact Hsym |]. split; [exact Hdir |]. split; [exact Hsl | exact Hidem].
Defined.

(** ** The connection manager *)

(** On a terminal whose native functions do not raise, [initialize] returns
    [True] exactly when [mt5.initialize] succeeds and, with credentials
    configured, [mt5.login] succeeds too.  It leaves the client marked
    initialized and connected when it returns [True], and not marked
    initialized when it returns [False]: a terminal that was initialized but
    refused the login is shut down again. *)
Theorem initialize_outcome (w : World) (cl : MT5Client) :
  mt5_client w = Some cl -> t_raises (term w) = [] ->
  let ok := t_initialize (term w) && (negb (validate (config cl)) || t_login (term w)) in
  let outcome := run initialize w in
  (exists msg, fst outcome = inr (ok, msg)) /\
  (if ok then client_flags (snd outcome) = Some (true, true)
   else exists connected, client_flags (snd outcome) = Some (false, connected)) /\
  (ok = false -> t_initialize (term w) = true ->
   client_flags (snd outcome) = Some (false, false) /\
   last (t_calls (term (snd outcome))) = Some "shutdown").
Proof.
  intros Hc Hr ok outcome. subst ok outcome.
  destruct w as [t c e a l ts n u]. destruct t. cbn in Hc, Hr. subst.
  destruct cl as [cfg initialized connected].
  unfold client_flags.
  destruct initialized, t_initialize0, (validate cfg) eqn:Hv, t_login0;
    destruct t_last_error0 as [code desc];
    unfold run, initialize, shutdown, _login, try_except, bind, call, get_self, set_flags,
      mt5_initialize, mt5_shutdown, mt5_login, mt5_last_error, log_mt5_connection,
      log_mt5_error, modify, native;
    cbn; rewrite ?Hv; cbn;
    repeat split; eauto; try discriminate; try (rewrite last_snoc; reflexivity).
Qed.

(** A terminal that initializes but refuses the login, with credentials
    configured: [False], and the terminal is shut down again. *)
Lemma initialize_outcome_witness :
  let w :=
    demo_world
      {| mt5 := mt5_package; t_path_exists := false; t_initialize := true;
         t_login := false; t_last_error := ((-6)%Z, "Authorization failed");
         t_account := None; t_symbols := []; t_select_ok := []; t_ticks := [];
         t_positions := None; t_orders := None; t_replies := []; t_raises := [];
         t_sent := []; t_calls := [] |} (new_accumulator 60) in
  let w := set_client (Some {| config := {| login := 5001; password := "secret";
                                            server := "Demo"; path := None;
                                            trading_engine_order_webhook_url := "" |};
                               _initialized := false; _connected := false |}) w in
  client_flags (snd (run initialize w)) = Some (false, false) /\
  last (t_calls (term (snd (run initialize w)))) = Some "shutdown".
Proof.
  cbv zeta.
  match goal with
  | |- context [run initialize ?w] =>
      destruct (initialize_outcome w
                  {| config := {| login := 5001; password := "secret"; server := "Demo";
                                  path := None; trading_engine_order_webhook_url := "" |};
                     _initialized := false; _connected := false |} eq_refl eq_refl)
        as (_ & _ & H)
  end.
  apply H; reflexivity.
Defined.
(** [is_connected] never raises.  It answers [True] exactly when the client
    is marked initialized and connected and [mt5.account_info] answers with
    an account without raising; and an [ensure_initialized] that follows such
    an answer finds the connection alive: it returns "Already connected"
    after one more probe of the account, without initializing, logging in or
    shutting down. *)
Theorem is_connected_then_ensure_initialized (w : World) :
  exists connected,
    fst (run is_connected w) = inr connected /\
    (connected = true <->
     client_flags w = Some (true, true) /\
     assoc "account_info" (t_raises (term w)) = None /\
     t_account (term w) <> None) /\
    (connected = true ->
     let w1 := snd (run is_connected w) in
     fst (run ensure_initialized w1) = inr (true, "Already connected") /\
     client_flags (snd (run ensure_initialized w1)) = Some (true, true) /\
     t_calls (term (snd (run ensure_initialized w1))) =
       t_calls (term w) ++ ["account_info"; "account_info"]).
Proof.
  destruct w as [t c e a l ts n u]. destruct t.
  unfold client_flags. cbn [mt5_client term t_raises t_account t_calls option_map].
  destruct c as [[cfg initialized connected] |];
    [destruct initialized, connected |];
    unfold run, is_connected, ensure_initialized, try_except, bind, call, get_self,
      mt5_account_info, native;
    cbn;
    try (eexists; split; [reflexivity |]; split;
         [split; [discriminate | intros (H & _); discriminate H] | discriminate]).
  destruct (assoc "account_info" t_raises0) eqn:Hra; cbn.
  - eexists; split; [reflexivity |]; split;
      [split; [discriminate | intros (_ & H & _); discriminate H] | discriminate].
  - destruct t_account0 as [account |]; cbn.
    + exists true. split; [reflexivity |]. split; [split; [| reflexivity] |].
      * intros _. repeat split. discriminate.
      * intros _. rewrite Hra. cbn. rewrite <- app_assoc. repeat split.
    + eexists; split; [reflexivity |]; split;
        [split; [discriminate | intros (_ & _ & H); contradiction] | discriminate].
Qed.

(** The connected service: [is_connected] says yes and [ensure_initialized]
    only probes the account. *)
Lemma is_connected_then_ensure_initialized_witness :
  fst (run is_connected accepting_world) = inr true /\
  t_calls (term (snd (run ensure_initialized (snd (run is_connected accepting_world))))) =
    ["account_info"; "account_info"].
Proof.
  destruct (is_connected_then_ensure_initialized accepting_world)
    as (connected & Hrun & _ & Hthen).
  assert (E : fst (run is_connected accepting_world) = inr true) by reflexivity.
  rewrite E in Hrun. injection Hrun as <-.
  split; [exact E |]. apply Hthen. reflexivity.
Defined.

(** ** The retry without stops *)

(** The submission loop of [open_trade], entered for a market order on a
    terminal that raises nothing and answers the first submission with
    "invalid stops" (10016): the same request is submitted once more with
    [sl] and [tp] set to zero, and nothing after that.  When the terminal
    accepts the second submission the result is the success response for
    its ticket, and the record of the success carries the flag
    [retry_without_stops]; otherwise the result is the standardized error
    response with the return code of the second submission. *)
Theorem submit_order_invalid_stops_retry (c : Mt5Const) (sb : Submission)
    (adjusted_sl adjusted_tp : option Q) (w : World)
    (first retry : OrderSendResult) (replies : list (option OrderSendResult))
    (filling_mode : Z) (modes : list Z) :
  t_raises (term w) = [] ->
  sb_order_kind sb = "market" ->
  sb_action sb = TRADE_ACTION_DEAL c ->
  sb_filling_modes_to_try sb = filling_mode :: modes ->
  t_replies (term w) = Some first :: Some retry :: replies ->
  retcode first = 10016%Z ->
  TRADE_RETCODE_DONE c <> 10016%Z ->
  let request :=
    trade_request c sb (default 0%Q adjusted_sl) (default 0%Q adjusted_tp) filling_mode in
  let outcome := run (submit_order c sb adjusted_sl adjusted_tp) w in
  t_sent (term (snd outcome)) =
    t_sent (term w) ++ [request; dict_set (dict_set request "sl" (VFloat 0)) "tp" (VFloat 0)] /\
  t_replies (term (snd outcome)) = replies /\
  if (retcode retry =? TRADE_RETCODE_DONE c)%Z then
    fst outcome =
      inr (_make_success_response (VInt (order retry)) (sb_symbol sb)
             (sb_normalized_volume sb) (sb_entry_price_used sb) (sb_direction sb)
             (sb_order_kind sb)) /\
    exists context,
      log (snd outcome) = log w ++ [TradeSuccess "open_trade" (VInt (order retry)) context] /\
      dict_get context "retry_without_stops" = Some (VBool true) /\
      dict_get context "stop_loss" = Some (VFloat 0) /\
      dict_get context "take_profit" = Some (VFloat 0)
  else
    exists result,
      fst outcome = inr result /\
      dict_get result "success" = Some (VBool false) /\
      dict_get result "error_code" = Some (VInt (retcode retry)).
Proof.
  intros Hr Hkind Haction Hmodes Hreplies Hfirst Hdone request outcome.
  subst request outcome.
  destruct w as [t cl e a l ts n u]. destruct t. cbn in Hr, Hreplies. subst.
  destruct sb. cbn in Hkind, Haction, Hmodes. subst.
  destruct first as [retcode1 order1 comment1]. cbn in Hfirst. subst.
  assert (H1 : (10016 =? TRADE_RETCODE_DONE c)%Z = false) by (apply Z.eqb_neq; congruence).
  unfold run, submit_order, bind. cbn [sb_filling_modes_to_try send_modes].
  unfold bind, send_once, mt5_order_send, native.
  cbn -[Z.eqb]. rewrite Z.eqb_refl. cbn -[Z.eqb]. rewrite H1.
  cbn -[Z.eqb]. rewrite Z.eqb_refl. cbn -[Z.eqb].
  destruct (retcode retry =? TRADE_RETCODE_DONE c)%Z eqn:H2; cbn -[Z.eqb].
  - split; [rewrite <- app_assoc; reflexivity |]. split; [reflexivity |].
    split; [reflexivity |]. eexists. split; [reflexivity |]. repeat split.
  - split; [rewrite <- app_assoc; reflexivity |]. split; [reflexivity |].
    eexists. split; [reflexivity |]. split; reflexivity.
Qed.

(** The protected buy whose first submission is rejected with "invalid
    stops" and whose second is accepted with ticket 43. *)
Lemma submit_order_invalid_stops_retry_witness :
  exists result first second,
    run (submit_order mt5_package protected_submission (Some (109 # 100)) (Some (112 # 100)))
        invalid_stops_world = (inr result, snd (run (submit_order mt5_package
          protected_submission (Some (109 # 100)) (Some (112 # 100))) invalid_stops_world)) /\
    dict_get result "ticket" = Some (VInt 43) /\
    t_sent (term (snd (run (submit_order mt5_package protected_submission
                              (Some (109 # 100)) (Some (112 # 100))) invalid_stops_world)))
      = [first; second] /\
    dict_get second "sl" = Some (VFloat 0).
Proof.
  pose proof (submit_order_invalid_stops_retry mt5_package protected_submission
                (Some (109 # 100)) (Some (112 # 100)) invalid_stops_world
                {| retcode := 10016; order := 0; comment := "Invalid stops" |}
                {| retcode := 10009; order := 43; comment := "Request executed" |}
                [] 2%Z [1%Z] eq_refl eq_refl eq_refl eq_refl eq_refl eq_refl
                ltac:(discriminate)) as H.
  cbv zeta in H. destruct H as (Hsent & _ & Hres).
  change (10009 =? TRADE_RETCODE_DONE mt5_package)%Z with true in Hres.
  cbv iota in Hres. destruct Hres as [Hres _].
  eexists _, _, _. split; [| split; [| split; [exact Hsent |]]].
  - rewrite <- Hres. destruct (run _ _). reflexivity.
  - reflexivity.
  - reflexivity.
Defined.

(** ** Modifying the stops of a position *)

(** The stop-loss [modify_trade] submits for a buy position is the
    position's current one, or a price below the open price by at least the
    minimum stop distance. *)
Lemma modified_stop_loss_of_buy symbol_info c position stop_loss take_profit :
  pos_type position = ORDER_TYPE_BUY c ->
  let new_sl := fst (modified_stops symbol_info c position stop_loss take_profit) in
  let submitted := float_or_else new_sl (pos_sl position) in
  submitted = pos_sl position \/
  (submitted < pos_price_open position)%Q /\
  (submitted <= pos_price_open position - min_stop_distance_price symbol_info)%Q.
Proof.
  intros Hbuy new_sl submitted. subst new_sl submitted.
  unfold modified_stops, _adjust_stop_loss_take_profit. rewrite Hbuy, Z.eqb_refl.
  change (String.eqb (lower "buy") "buy") with true. cbv iota.
  set (d := min_stop_distance_price symbol_info).
  destruct stop_loss as [sl |], take_profit as [tp |]; cbn [fst float_or_else];
    break_tests; reflect_Q; cbn [float_or_else]; break_tests; reflect_Q;
    first [left; reflexivity | right; split; lra].
Qed.

(** A stop-loss requested at or above the open price of a buy position is
    not applied: the position's current stop-loss is submitted. *)
Lemma modified_stop_loss_wrong_side symbol_info c position requested take_profit :
  pos_type position = ORDER_TYPE_BUY c ->
  (pos_price_open position <= requested)%Q ->
  fst (modified_stops symbol_info c position (Some requested) take_profit) = None.
Proof.
  intros Hbuy Hside.
  unfold modified_stops, _adjust_stop_loss_take_profit. rewrite Hbuy, Z.eqb_refl.
  change (String.eqb (lower "buy") "buy") with true. cbv iota.
  destruct take_profit; cbn [fst]; break_tests; reflect_Q;
    first [reflexivity | exfalso; lra].
Qed.

(** On a connected terminal that raises nothing and holds a position under
    the ticket, [modify_trade] submits one request: the SL/TP action for
    that position, carrying the stops settled by [modified_stops], a
    dropped or zero stop being replaced by the position's current one.  On a
    terminal that accepts, the result is a success reporting the settled
    stops.  For a buy position the stop-loss submitted is the current one or
    lies below the open price by at least the minimum stop distance; a
    stop-loss requested at or above the open price is reported as absent and
    the current one is submitted. *)
Theorem modify_trade_connected (TRADE_ACTION_SLTP : Z) (w : World) (cl : MT5Client)
    (a : AccountInfo) (ticket : Z) (stop_loss take_profit : option Q)
    (position : Position) (symbol_info : SymbolInfo) :
  mt5_client w = Some cl -> _initialized cl = true -> _connected cl = true ->
  t_account (term w) = Some a -> t_raises (term w) = [] ->
  position_with ticket (t_positions (term w)) = Some position ->
  find_symbol (pos_symbol position) (t_symbols (term w)) = Some symbol_info ->
  let new_sl :=
    fst (modified_stops symbol_info (mt5 (term w)) position stop_loss take_profit) in
  let new_tp :=
    snd (modified_stops symbol_info (mt5 (term w)) position stop_loss take_profit) in
  let request := modify_request TRADE_ACTION_SLTP position ticket new_sl new_tp in
  let outcome := run (modify_trade TRADE_ACTION_SLTP ticket stop_loss take_profit) w in
  t_sent (term (snd outcome)) = t_sent (term w) ++ [request] /\
  (forall reply replies,
     t_replies (term w) = Some reply :: replies ->
     retcode reply = TRADE_RETCODE_DONE (mt5 (term w)) ->
     fst outcome = inr [("success", VBool true); ("ticket", VInt ticket);
                        ("new_sl", opt_float new_sl); ("new_tp", opt_float new_tp)]) /\
  (pos_type position = ORDER_TYPE_BUY (mt5 (term w)) ->
   exists submitted,
     dict_get request "sl" = Some (VFloat submitted) /\
     (submitted = pos_sl position \/
      (submitted < pos_price_open position)%Q /\
      (submitted <= pos_price_open position - min_stop_distance_price symbol_info)%Q) /\
     forall requested,
       stop_loss = Some requested -> (pos_price_open position <= requested)%Q ->
       new_sl = None /\ submitted = pos_sl position).
Proof.
  intros Hc Hi Hn Ha Hr Hpos Hsym new_sl new_tp request outcome.
  split; [| split].
  - subst outcome.
    unfold run, modify_trade, call, bind.
    rewrite (ensure_initialized_connected w cl a Hc Hi Hn Ha Hr).
    cbn [negb].
    set (w1 := called "account_info" w).
    assert (Hr1 : t_raises (term w1) = []) by exact Hr.
    unfold try_except, bind, mt5_consts, mt5_positions_get.
    rewrite (native_answers "positions_get" _ w1 Hr1). cbn [fst snd].
    change (t_positions (t_called "positions_get" (term w1))) with (t_positions (term w)).
    unfold position_with in Hpos.
    destruct (option_map (filter (fun p => pos_ticket p = ticket)) (t_positions (term w)))
      as [[| position' others] |]; try discriminate Hpos.
    injection Hpos as ->.
    set (w2 := set_term (t_called "positions_get" (term w1)) w1).
    assert (Hr2 : t_raises (term w2) = []) by exact Hr.
    unfold mt5_symbol_info. rewrite (native_answers "symbol_info" _ w2 Hr2).
    cbn [fst snd].
    change (t_symbols (t_called "symbol_info" (term w2))) with (t_symbols (term w)).
    rewrite Hsym.
    change (mt5 (term w1)) with (mt5 (term w)).
    fold new_sl new_tp.
    destruct (modified_stops symbol_info (mt5 (term w)) position stop_loss take_profit)
      as [nsl ntp] eqn:Hstops.
    subst new_sl new_tp request. cbn [fst snd].
    set (w3 := set_term (t_called "symbol_info" (term w2)) w2).
    assert (Hr3 : t_raises (term w3) = []) by exact Hr.
    unfold mt5_order_send. rewrite (native_answers "order_send" _ w3 Hr3).
    change (t_replies (t_called "order_send" (term w3))) with (t_replies (term w)).
    destruct (t_replies (term w)) as [| [reply |] replies]; cbn [fst snd].
    + unfold mt5_last_error, native. cbn -[Z.eqb]. rewrite Hr. cbn -[Z.eqb].
      destruct (t_last_error (term w)). reflexivity.
    + destruct (retcode reply =? TRADE_RETCODE_DONE (mt5 (term w)))%Z; reflexivity.
    + unfold mt5_last_error, native. cbn -[Z.eqb]. rewrite Hr. cbn -[Z.eqb].
      destruct (t_last_error (term w)). reflexivity.
  - intros reply replies Hreplies Hdone. subst outcome.
    unfold run, modify_trade, call, bind.
    rewrite (ensure_initialized_connected w cl a Hc Hi Hn Ha Hr).
    cbn [negb].
    set (w1 := called "account_info" w).
    assert (Hr1 : t_raises (term w1) = []) by exact Hr.
    unfold try_except, bind, mt5_consts, mt5_positions_get.
    rewrite (native_answers "positions_get" _ w1 Hr1). cbn [fst snd].
    change (t_positions (t_called "positions_get" (term w1))) with (t_positions (term w)).
    unfold position_with in Hpos.
    destruct (option_map (filter (fun p => pos_ticket p = ticket)) (t_positions (term w)))
      as [[| position' others] |]; try discriminate Hpos.
    injection Hpos as ->.
    set (w2 := set_term (t_called "positions_get" (term w1)) w1).
    assert (Hr2 : t_raises (term w2) = []) by exact Hr.
    unfold mt5_symbol_info. rewrite (native_answers "symbol_info" _ w2 Hr2).
    cbn [fst snd].
    change (t_symbols (t_called "symbol_info" (term w2))) with (t_symbols (term w)).
    rewrite Hsym.
    change (mt5 (term w1)) with (mt5 (term w)).
    fold new_sl new_tp.
    destruct (modified_stops symbol_info (mt5 (term w)) position stop_loss take_profit)
      as [nsl ntp] eqn:Hstops.
    subst new_sl new_tp request. cbn [fst snd].
    set (w3 := set_term (t_called "symbol_info" (term w2)) w2).
    assert (Hr3 : t_raises (term w3) = []) by exact Hr.
    unfold mt5_order_send. rewrite (native_answers "order_send" _ w3 Hr3).
    change (t_replies (t_called "order_send" (term w3))) with (t_replies (term w)).
    rewrite Hreplies. cbn [fst snd]. rewrite Hdone, Z.eqb_refl. reflexivity.
  - intros Hbuy. eexists. split; [reflexivity |]. split.
    + apply (modified_stop_loss_of_buy symbol_info _ position stop_loss take_profit Hbuy).
    + intros requested -> Hside. subst new_sl.
      rewrite (modified_stop_loss_wrong_side symbol_info _ position requested take_profit
                 Hbuy Hside).
      split; reflexivity.
Qed.

(** A stop-loss at 2001 for the GOLD buy opened at 2000: the request carries
    the position's current stop-loss, zero, and the success reports no new
    stop-loss. *)
Lemma modify_trade_connected_witness :
  exists request,
    t_sent (term (snd (run (modify_trade 6 7 (Some 2001%Q) None) gold_world))) = [request] /\
    dict_get request "sl" = Some (VFloat 0) /\
    fst (run (modify_trade 6 7 (Some 2001%Q) None) gold_world) =
      inr [("success", VBool true); ("ticket", VInt 7); ("new_sl", VNone);
           ("new_tp", VNone)].
Proof.
  destruct (modify_trade_connected 6 gold_world
              {| config := demo_config; _initialized := true; _connected := true |}
              demo_account 7 (Some 2001%Q) None gold_position gold
              eq_refl eq_refl eq_refl eq_refl eq_refl eq_refl eq_refl)
    as (Hsent & Hdone & _).
  eexists. split; [exact Hsent |]. split; [reflexivity |].
  exact (Hdone {| retcode := 10009; order := 44; comment := "Request executed" |}
           [order_done 45] eq_refl eq_refl).
Defined.

(** ** Large orders *)

Lemma compute_order_flow_large_orders acc symbol window now d :
  compute_order_flow acc symbol window now = Some d ->
  let recent := recent_ticks acc symbol window now in
  dict_get d "large_orders" =
    Some (VList (map large_order
                   (filter (fun tick =>
                              negb (td_volume tick =? 0)%Z
                              && Qgeb (inject_Z (td_volume tick))
                                      (average_volume recent
                                       * inject_Z (large_order_multiplier acc)) = true)
                           recent))).
Proof.
  unfold compute_order_flow, recent_ticks, buffer_of.
  destruct (tick_buffers acc !! symbol) as [ticks |]; [| discriminate].
  cbn [default from_option id].
  destruct (length ticks <? 5)%nat; [discriminate |].
  destruct (filter _ ticks) as [| first rest] eqn:Hrecent; [discriminate |].
  destruct (attribute_volume first rest (0%Q, 0%Q)) as [b a].
  destruct (Qeqb b 0 && Qeqb a 0); intros [= <-]; reflexivity.
Qed.

Lemma filter_none {A} (P : A -> Prop) `{!forall x, Decision (P x)} (l : list A) :
  Forall (fun x => ~ P x) l -> filter P l = [].
Proof.
  induction 1 as [| x l Hx _ IH]; [reflexivity |].
  rewrite filter_cons, decide_False by exact Hx. exact IH.
Qed.

Lemma total_volume_or_1_elem t l :
  t ∈ l -> Forall (fun t => (0 <= td_volume t)%Z) l ->
  (volume_or_1 t + Z.of_nat (length l) - 1 <= total_volume_or_1 l)%Z.
Proof.
  assert (Hge : forall l, Forall (fun t => (0 <= td_volume t)%Z) l ->
                  (Z.of_nat (length l) <= total_volume_or_1 l)%Z).
  { induction 1 as [| x r Hx _ IH]; [cbn; lia |].
    change (total_volume_or_1 (x :: r)) with (volume_or_1 x + total_volume_or_1 r)%Z.
    cbn [length]. unfold volume_or_1. destruct (td_volume x =? 0)%Z eqn:E; [lia |].
    apply Z.eqb_neq in E. lia. }
  intros Hin Hvol. induction Hvol as [| x r Hx Hr IH]; [inversion Hin |].
  change (total_volume_or_1 (x :: r)) with (volume_or_1 x + total_volume_or_1 r)%Z.
  cbn [length]. apply elem_of_cons in Hin as [-> | Hin].
  - specialize (Hge r Hr). lia.
  - specialize (IH Hin).
    assert (1 <= volume_or_1 x)%Z.
    { unfold volume_or_1. destruct (td_volume x =? 0)%Z eqn:E; [lia |].
      apply Z.eqb_neq in E. lia. }
    lia.
Qed.

(** No large order is reported from a window that holds no more ticks than
    the multiplier (20): a tick counts as large when its volume reaches the
    multiplier times the average over the window, an average the tick itself
    is part of.  (The ticks carry no negative volume.) *)
Theorem order_flow_large_orders_need_many_ticks acc symbol window now d :
  compute_order_flow acc symbol window now = Some d ->
  Forall (fun t => (0 <= td_volume t)%Z) (recent_ticks acc symbol window now) ->
  (2 <= large_order_multiplier acc)%Z ->
  (Z.of_nat (length (recent_ticks acc symbol window now)) <= large_order_multiplier acc)%Z ->
  dict_get d "large_orders" = Some (VList []).
Proof.
  intros H Hvol Hmult Hlen.
  rewrite (compute_order_flow_large_orders _ _ _ _ _ H). cbv zeta.
  set (recent := recent_ticks acc symbol window now) in *.
  set (M := large_order_multiplier acc) in *.
  rewrite filter_none; [reflexivity |].
  rewrite Forall_forall. intros t Hin Hlarge.
  apply andb_true_iff in Hlarge as [Hnz Hge].
  apply negb_true_iff, Z.eqb_neq in Hnz. apply Qgeb_ge in Hge.
  pose proof (total_volume_or_1_elem t recent Hin Hvol) as Hsum.
  rewrite Forall_forall in Hvol. specialize (Hvol t Hin).
  assert (Hv : volume_or_1 t = td_volume t)
    by (unfold volume_or_1; rewrite (proj2 (Z.eqb_neq _ _) Hnz); reflexivity).
  rewrite Hv in Hsum.
  assert (Hn : (1 <= Z.of_nat (length recent))%Z).
  { destruct recent; [inversion Hin | cbn [length]; lia]. }
  unfold average_volume in Hge. fold (total_volume_or_1 recent) in Hge.
  set (S := total_volume_or_1 recent) in *.
  set (n := Z.of_nat (length recent)) in *.
  set (v := td_volume t) in *.
  assert (Hnq : (0 < inject_Z n)%Q)
    by (change 0%Q with (inject_Z 0); rewrite <- Zlt_Qlt; lia).
  assert (E : (inject_Z S * inject_Z M == inject_Z S / inject_Z n * inject_Z M * inject_Z n)%Q)
    by (field; lra).
  assert (H2 : (inject_Z S / inject_Z n * inject_Z M * inject_Z n <= inject_Z v * inject_Z n)%Q)
    by (apply Qmult_le_compat_r; [exact Hge | lra]).
  rewrite <- E in H2. rewrite <- !inject_Z_mult in H2. rewrite <- Zle_Qle in H2.
  nia.
Qed.

(** The three stale ticks in the window at second 100: no large order. *)
Lemma order_flow_large_orders_need_many_ticks_witness :
  exists d,
    compute_order_flow stale_acc "EURUSD" None 100 = Some d /\
    dict_get d "large_orders" = Some (VList []).
Proof.
  destruct (compute_order_flow stale_acc "EURUSD" None 100) as [d |] eqn:E;
    [| vm_compute in E; discriminate E].
  exists d. split; [reflexivity |].
  apply (order_flow_large_orders_need_many_ticks stale_acc "EURUSD" None 100%Z d E).
  - vm_compute. repeat constructor; discriminate.
  - vm_compute. discriminate.
  - vm_compute. discriminate.
Defined.

(** ** The partial-close endpoint never succeeds *)

Lemma main_partial_close_trade_quiet sent request :
  triple (quiet sent) (main_partial_close_trade request) nothing nothing
    (http_with [400; 500]%Z).
Proof.
  unfold main_partial_close_trade.
  eapply triple_bind with (V1 := anything);
    [apply triple_get_state; intros; exact Logic.I |].
  intros w0 _.
  destruct (mt5_client w0); [| apply triple_raise; cbn; tauto].
  eapply triple_bind with (V1 := fun d => exists msg, d = failure msg).
  { eapply stable_call_total; [apply partial_close_trade_quiet | intros r [] | auto]. }
  intros result [msg ->] s Hs.
  unfold bind, dict_item, raise. cbn. split; [exact Hs | tauto].
Qed.

(** No POST to the partial-close endpoint is answered with success and none
    submits an order: a percentage outside (0, 100) gets status 422, and
    every other body gets an [HTTPException] with status 400 (or 500 before
    the client exists), because the [partial_close_trade] of the client
    always fails. *)
Theorem post_trades_partial_close_never_succeeds (body : PartialCloseRequest)
    (w : World) :
  exists status_code detail,
    fst (run (post_trades_partial_close body) w)
      = inl (HTTPException status_code detail) /\
    In status_code [400; 422; 500]%Z /\
    t_sent (term (snd (run (post_trades_partial_close body) w))) = t_sent (term w).
Proof.
  unfold post_trades_partial_close, validate_PartialCloseRequest.
  destruct (Qleb (pc_volume_percent body) 0); [eexists _, _; cbn; tauto |].
  destruct (Qgeb (pc_volume_percent body) 100); [eexists _, _; cbn; tauto |].
  destruct (mt5_client w) as [c |] eqn:Hc.
  - assert (Hq : quiet (t_sent (term w)) w)
      by (split; [unfold has_client; rewrite Hc; discriminate | reflexivity]).
    destruct (main_partial_close_trade_quiet (t_sent (term w)) body w Hq)
      as [[_ Hsent] Hout].
    unfold run.
    destruct (main_partial_close_trade body w) as [[r | r | e] w'];
      cbn [fst snd] in *; [destruct Hout | destruct Hout |].
    destruct e as [| | | | | | status_code detail]; try (exfalso; exact Hout).
    exists status_code, detail. split; [reflexivity |]. split; [| exact Hsent].
    cbn in Hout |- *. tauto.
  - exists 500%Z, "MT5 client not initialized".
    unfold run, main_partial_close_trade, bind, get_state. rewrite Hc. cbn. tauto.
Qed.

(** ** The order-flow endpoint, whatever the terminal does *)


